(** * Invoice generator: date derivation and field rewriting

    A shallow embedding of [generate_invoice.py].  Paragraph texts are
    strings over the code points below 256; a document is the list of its
    top-level paragraph texts together with its tables (rows of cells of
    paragraph texts).  The regular expressions of the source are kept as
    syntax and run by a backtracking matcher that follows the order in
    which Python's [re] explores alternatives (leftmost start, greedy
    repetition, alternatives left to right). *)

From Stdlib Require Import ZArith List Bool Ascii String Lia.
Import ListNotations.
Open Scope string_scope.
Open Scope Z_scope.

(** ** Characters and strings *)

Module Str.

Definition code (c : ascii) : nat := nat_of_ascii c.

(** [\d] on text below code point 256: the ten ASCII digits. *)
Definition is_digit (c : ascii) : bool :=
  (48 <=? code c)%nat && (code c <=? 57)%nat.

(** [\s] on text below code point 256 (Python [str.isspace]). *)
Definition is_space (c : ascii) : bool :=
  let n := code c in
  ((9 <=? n)%nat && (n <=? 13)%nat) || ((28 <=? n)%nat && (n <=? 32)%nat)
  || (n =? 133)%nat || (n =? 160)%nat.

Definition is_upper (c : ascii) : bool :=
  (65 <=? code c)%nat && (code c <=? 90)%nat.

Definition is_lower (c : ascii) : bool :=
  (97 <=? code c)%nat && (code c <=? 122)%nat.

(** [[A-Za-z]] *)
Definition is_alpha (c : ascii) : bool := is_upper c || is_lower c.

Definition lower_char (c : ascii) : ascii :=
  if is_upper c then ascii_of_nat (code c + 32) else c.

Fixpoint lower (s : string) : string :=
  match s with
  | EmptyString => EmptyString
  | String c t => String (lower_char c) (lower t)
  end.

Fixpoint is_prefix (p s : string) : bool :=
  match p, s with
  | EmptyString, _ => true
  | String a p', String b s' => Ascii.eqb a b && is_prefix p' s'
  | String _ _, EmptyString => false
  end.

(** Python's [sub in s]. *)
Fixpoint contains (sub s : string) : bool :=
  is_prefix sub s ||
  match s with
  | EmptyString => false
  | String _ t => contains sub t
  end.

Fixpoint take (n : nat) (s : string) : string :=
  match n, s with
  | S k, String c t => String c (take k t)
  | _, _ => EmptyString
  end.

Fixpoint drop (n : nat) (s : string) : string :=
  match n, s with
  | S k, String _ t => drop k t
  | _, _ => s
  end.

(** [s[-2:]] *)
Definition last2 (s : string) : string := drop (String.length s - 2) s.

Fixpoint all_chars (p : ascii -> bool) (s : string) : bool :=
  match s with
  | EmptyString => true
  | String c t => p c && all_chars p t
  end.

End Str.

(** ** Decimal rendering and reading of integers *)

Module Dec.

Definition digit_char (d : Z) : ascii := ascii_of_nat (48 + Z.to_nat d).

Definition digit_val (c : ascii) : Z := Z.of_nat (Str.code c) - 48.

(** The digits of a non-negative number, most significant first; [fuel]
    bounds the number of digits. *)
Fixpoint digits (fuel : nat) (n : Z) (acc : string) : string :=
  match fuel with
  | O => acc
  | S k =>
      let acc' := String (digit_char (n mod 10)) acc in
      if n <? 10 then acc' else digits k (n / 10) acc'
  end.

(** [str(n)] and [f"{n}"] for an integer. *)
Definition str (n : Z) : string :=
  if n <? 0 then String "-" (digits (S (Z.to_nat (Z.log2 (- n)))) (- n) "")
  else digits (S (Z.to_nat (Z.log2 n))) n "".

(** [f"{n:02d}"] for a non-negative integer. *)
Definition str02 (n : Z) : string :=
  if (0 <=? n) && (n <? 10) then String "0" (str n) else str n.

(** [int(s)] on a string of ASCII digits. *)
Fixpoint int_acc (s : string) (acc : Z) : Z :=
  match s with
  | EmptyString => acc
  | String c t => int_acc t (10 * acc + digit_val c)
  end.

Definition int (s : string) : Z := int_acc s 0.

End Dec.

(** ** Regular expressions *)

Module Re.

(** Character sets that occur in the patterns. *)
Inductive cset : Type :=
| Digit                 (* \d *)
| Space                 (* \s *)
| Alpha                 (* [A-Za-z] *)
| Range (lo hi : ascii) (* [lo-hi] *)
| Chr (c : ascii)       (* a literal character *)
| ChrCI (c : ascii).    (* a lower-case literal under IGNORECASE *)

Definition mem (cs : cset) (c : ascii) : bool :=
  match cs with
  | Digit => Str.is_digit c
  | Space => Str.is_space c
  | Alpha => Str.is_alpha c
  | Range lo hi => (Str.code lo <=? Str.code c)%nat && (Str.code c <=? Str.code hi)%nat
  | Chr x => Ascii.eqb c x
  | ChrCI x => Ascii.eqb (Str.lower_char c) x
  end.

Inductive regex : Type :=
| Eps
| One (cs : cset)
| Seq (r1 r2 : regex)
| Alt (r1 r2 : regex)
| Rep (cs : cset) (lo : nat) (hi : option nat) (* greedy cs{lo,hi} *)
| Grp (n : nat) (r : regex).                   (* capturing group n *)

(** A capture records how much text was left when the group was entered
    and when it was left. *)
Definition caps : Type := list (nat * (nat * nat)).
Definition res : Type := (nat * caps)%type.

Definition dec_hi (hi : option nat) : option nat :=
  match hi with Some h => Some (pred h) | None => None end.

Definition hi_open (hi : option nat) : bool :=
  match hi with Some O => false | _ => true end.

(** Greedy repetition of one character set: take a character while
    allowed, and fall back to stopping here when the rest fails. *)
Fixpoint rep (cs : cset) (lo : nat) (hi : option nat) (s : string)
    (k : string -> option res) {struct s} : option res :=
  let stop := match lo with O => k s | S _ => None end in
  match s with
  | String c t =>
      if hi_open hi && mem cs c then
        match rep cs (pred lo) (dec_hi hi) t k with
        | Some r => Some r
        | None => stop
        end
      else stop
  | EmptyString => stop
  end.

(** Backtracking matcher in continuation-passing style. *)
Fixpoint run (r : regex) (s : string) (c : caps)
    (k : string -> caps -> option res) {struct r} : option res :=
  match r with
  | Eps => k s c
  | One cs =>
      match s with
      | String a t => if mem cs a then k t c else None
      | EmptyString => None
      end
  | Seq r1 r2 => run r1 s c (fun s' c' => run r2 s' c' k)
  | Alt r1 r2 =>
      match run r1 s c k with
      | Some x => Some x
      | None => run r2 s c k
      end
  | Rep cs lo hi => rep cs lo hi s (fun s' => k s' c)
  | Grp n r1 =>
      run r1 s c
        (fun s' c' => k s' ((n, (String.length s, String.length s')) :: c'))
  end.

(** [re.match]: the amount of text left after the match and the groups. *)
Definition match_at (r : regex) (s : string) : option res :=
  run r s [] (fun s' c => Some (String.length s', c)).

(** [re.fullmatch]: some way of matching uses up the whole text. *)
Definition fullmatch (r : regex) (s : string) : bool :=
  match run r s []
          (fun s' c => match s' with
                       | EmptyString => Some (O, c)
                       | String _ _ => None
                       end) with
  | Some _ => true
  | None => false
  end.

(** Literal text. *)
Fixpoint lit (w : string) : regex :=
  match w with
  | EmptyString => Eps
  | String c EmptyString => One (Chr c)
  | String c t => Seq (One (Chr c)) (lit t)
  end.

Fixpoint lit_ci (w : string) : regex :=
  match w with
  | EmptyString => Eps
  | String c EmptyString => One (ChrCI c)
  | String c t => Seq (One (ChrCI c)) (lit_ci t)
  end.

Fixpoint seqs (rs : list regex) : regex :=
  match rs with
  | [] => Eps
  | [r] => r
  | r :: rest => Seq r (seqs rest)
  end.

Fixpoint alts (rs : list regex) : regex :=
  match rs with
  | [] => Eps
  | [r] => r
  | r :: rest => Alt r (alts rest)
  end.

(** A match object: where the match starts and ends in the searched text,
    and the groups. *)
Record mobj : Type := MObj {
  m_text : string;
  m_start : nat;
  m_end : nat;
  m_caps : caps
}.

Fixpoint search_from (r : regex) (whole : string) (s : string) {struct s}
    : option mobj :=
  let n := String.length whole in
  match match_at r s with
  | Some (rem, c) => Some (MObj whole (n - String.length s) (n - rem) c)
  | None =>
      match s with
      | EmptyString => None
      | String _ t => search_from r whole t
      end
  end.

(** [re.search(pattern, s)] *)
Definition search (r : regex) (s : string) : option mobj :=
  search_from r s s.

Fixpoint lookup (n : nat) (c : caps) : option (nat * nat) :=
  match c with
  | [] => None
  | (m, v) :: rest => if Nat.eqb m n then Some v else lookup n rest
  end.

(** [match.group(n)] for a group that took part in the match. *)
Definition group (m : mobj) (n : nat) : string :=
  match lookup n (m_caps m) with
  | Some (a, b) =>
      let len := String.length (m_text m) in
      Str.take (a - b) (Str.drop (len - a) (m_text m))
  | None => EmptyString
  end.

(** [re.sub(pattern, repl, s)] for a replacement text without
    backslashes: every non-overlapping match, left to right, is replaced.
    [skip] counts the characters of [s] that belong to the match just
    replaced. *)
Fixpoint sub_go (r : regex) (repl : string) (s : string) (skip : nat)
    {struct s} : string :=
  match skip with
  | S k =>
      match s with
      | EmptyString => EmptyString
      | String _ t => sub_go r repl t k
      end
  | O =>
      match match_at r s with
      | Some (rem, _) =>
          match (String.length s - rem)%nat, s with
          | S k, String _ t => repl ++ sub_go r repl t k
          | _, String c t => repl ++ String c (sub_go r repl t O)
          | _, EmptyString => repl
          end
      | None =>
          match s with
          | EmptyString => EmptyString
          | String c t => String c (sub_go r repl t O)
          end
      end
  end.

Definition sub (r : regex) (repl : string) (s : string) : string :=
  sub_go r repl s O.

End Re.

(** ** Dates *)

Module Date.

(** A [datetime]: the calendar date and the time of day (microseconds
    since midnight), which the program carries along but never reads. *)
Record datetime : Type := DT {
  year : Z;
  month : Z;
  day : Z;
  tod : Z
}.

Definition isleap (y : Z) : bool :=
  (y mod 4 =? 0) && (negb (y mod 100 =? 0) || (y mod 400 =? 0)).

(** [calendar.monthrange(y, m)[1]] *)
Definition days_in_month (y m : Z) : Z :=
  if m =? 2 then (if isleap y then 29 else 28)
  else if (m =? 4) || (m =? 6) || (m =? 9) || (m =? 11) then 30
  else 31.

Definition MINYEAR : Z := 1.
Definition MAXYEAR : Z := 9999.

(** The dates a [datetime] object can hold. *)
Definition valid (d : datetime) : Prop :=
  MINYEAR <= year d <= MAXYEAR /\ 1 <= month d <= 12 /\
  1 <= day d <= days_in_month (year d) (month d).

Definition validb (y m d : Z) : bool :=
  (MINYEAR <=? y) && (y <=? MAXYEAR) && (1 <=? m) && (m <=? 12) &&
  (1 <=? d) && (d <=? days_in_month y m).

Definition month_names : list string :=
  ["January"; "February"; "March"; "April"; "May"; "June"; "July";
   "August"; "September"; "October"; "November"; "December"].

(** [strftime("%B")] in the C locale. *)
Definition month_name (m : Z) : string :=
  nth (Z.to_nat (m - 1)) month_names "".

(** [strftime("%Y")]: the year in decimal, four digits from the year 1000
    on.  Below 1000 the C library decides whether zeros are put in front;
    the model writes none, as glibc does. *)
Definition strftime_Y (d : datetime) : string := Dec.str (year d).

(** [strftime("%B %Y")] *)
Definition strftime_B_Y (d : datetime) : string :=
  month_name (month d) ++ " " ++ strftime_Y d.

(** [strftime("%B_%Y")] *)
Definition strftime_B_underscore_Y (d : datetime) : string :=
  month_name (month d) ++ "_" ++ strftime_Y d.

(** [d.replace(day=n)]; [None] stands for [ValueError]. *)
Definition replace_day (d : datetime) (n : Z) : option datetime :=
  if validb (year d) (month d) n
  then Some (DT (year d) (month d) n (tod d)) else None.

(** [d + relativedelta(months=k)] for [k] in -12..12 other than 0 (what
    [dateutil] does when only [months] is given); [None] stands for the
    [ValueError] of a year outside 1..9999. *)
Definition add_months (d : datetime) (k : Z) : option datetime :=
  let m0 := month d + k in
  let '(y, m) :=
    if 12 <? m0 then (year d + 1, m0 - 12)
    else if m0 <? 1 then (year d - 1, m0 + 12)
    else (year d, m0) in
  let dd := Z.min (days_in_month y m) (day d) in
  if validb y m dd then Some (DT y m dd (tod d)) else None.

(** The regular expression that [strptime] builds for ["%d %B %Y"]:
    groups 1, 2 and 3 are [d], [B] and [Y]. *)
Definition strptime_d : Re.regex :=
  Re.alts
    [Re.Seq (Re.One (Re.Chr "3")) (Re.One (Re.Range "0" "1"));
     Re.Seq (Re.One (Re.Range "1" "2")) (Re.One Re.Digit);
     Re.Seq (Re.One (Re.Chr "0")) (Re.One (Re.Range "1" "9"));
     Re.One (Re.Range "1" "9");
     Re.Seq (Re.One (Re.Chr " ")) (Re.One (Re.Range "1" "9"))].

Definition strptime_B : Re.regex :=
  Re.alts
    [Re.lit_ci "september"; Re.lit_ci "february"; Re.lit_ci "november";
     Re.lit_ci "december"; Re.lit_ci "january"; Re.lit_ci "october";
     Re.lit_ci "august"; Re.lit_ci "march"; Re.lit_ci "april";
     Re.lit_ci "june"; Re.lit_ci "july"; Re.lit_ci "may"; Re.Eps].

Definition strptime_tail : Re.regex :=
  Re.seqs
    [Re.Rep Re.Space 1 None; Re.Grp 2 strptime_B;
     Re.Rep Re.Space 1 None; Re.Grp 3 (Re.Rep Re.Digit 4 (Some 4%nat))].

Definition strptime_regex : Re.regex :=
  Re.Seq (Re.Grp 1 strptime_d) strptime_tail.

Fixpoint index_of (w : string) (l : list string) (i : Z) : option Z :=
  match l with
  | [] => None
  | x :: rest => if String.eqb (Str.lower x) w then Some i else index_of w rest (i + 1)
  end.

Definition strip_space (s : string) : string :=
  match s with
  | String c t => if Str.is_space c then t else s
  | EmptyString => s
  end.

(** [datetime.strptime(s, "%d %B %Y")]; [None] stands for [ValueError]
    (no match, text left over, or a day the month does not have). *)
Definition strptime_d_B_Y (s : string) : option datetime :=
  match Re.match_at strptime_regex s with
  | Some (O, c) =>
      let m := Re.MObj s 0 (String.length s) c in
      match index_of (Str.lower (Re.group m 2)) month_names 1 with
      | Some mo =>
          let y := Dec.int (Re.group m 3) in
          let d := Dec.int (strip_space (Re.group m 1)) in
          if validb y mo d then Some (DT y mo d 0) else None
      | None => None
      end
  | _ => None
  end.

End Date.

(** ** Field formatting *)

Import Date.

(** [ordinal(n)] *)
Definition ordinal (n : Z) : string :=
  let suffix :=
    if (10 <=? n mod 100) && (n mod 100 <=? 20) then "th"
    else if n mod 10 =? 1 then "st"
    else if n mod 10 =? 2 then "nd"
    else if n mod 10 =? 3 then "rd"
    else "th" in
  Dec.str n ++ suffix.

(** [get_financial_year(date)] *)
Definition get_financial_year (date : datetime) : string :=
  if 4 <=? month date
  then Dec.str (year date) ++ "-" ++ Str.last2 (Dec.str (year date + 1))
  else Dec.str (year date - 1) ++ "-" ++ Str.last2 (Dec.str (year date)).

(** ** Documents, files and the log *)

(** A table is rows of cells of paragraph texts.  Only the paragraphs
    directly in a cell are scanned, and every cell is taken to be a cell
    of its own (no merged cells, which [row.cells] would yield more than
    once). *)
Definition cell : Type := list string.
Definition table : Type := list (list cell).

Record document : Type := Doc {
  paragraphs : list string;
  tables : list table
}.

(** A file of the working directory; [content = None] is a file that
    [Document(...)] cannot open. *)
Record file : Type := File {
  fname : string;
  mtime : Z;
  content : option document
}.

(** The calls to the logger, with the values they are given. *)
Inductive event : Type :=
| Found_latest (name : string)
| Extracted_date (d : datetime)
| Could_not_parse (date_str : string)
| Could_not_extract
| Error_extracting
| Next_month (d : datetime)
| Current_month (d : datetime)
| Updating (invoice_number date_format1 service_period : string)
| Updated_date_format1
| Updated_invoice_number
| Updated_date_format2
| Updated_service_period
| Updated_invoice_number_in_paragraph
| Updated_date_format2_in_paragraph
| No_date_format1
| No_date_format2
| No_invoice_number
| No_service_period
| Saved (name : string)
| Error_updating.

Inductive level : Type := INFO | WARNING | ERROR.

Definition level_of (e : event) : level :=
  match e with
  | Could_not_parse _ | Error_extracting | Error_updating => ERROR
  | Could_not_extract | No_date_format1 | No_date_format2
  | No_invoice_number | No_service_period => WARNING
  | _ => INFO
  end.

(** What a run can see and change: the files of the working directory
    other than the log file of the program, what [datetime.now()]
    returns, the next draw of [random.randint(1000, 9999)], the names
    [doc.save] cannot write, the calls to the logger, and the time the
    file system stamps on a file that is written ([os.path.getmtime]
    reads it back). *)
Record world : Type := World {
  files : list file;
  now : datetime;
  draw : Z;
  locked : string -> bool;
  log : list event;
  clock : Z
}.

Definition set_files (w : world) (fs : list file) : world :=
  World fs (now w) (draw w) (locked w) (log w) (clock w).

Definition add_log (w : world) (es : list event) : world :=
  World (files w) (now w) (draw w) (locked w) (log w ++ es) (clock w).

(** ** Computations that log, change the directory and may raise *)

Inductive result (A : Type) : Type :=
| Ok (a : A)
| Raised.
Arguments Ok {A} a.
Arguments Raised {A}.

Definition M (A : Type) : Type := world -> result A * world.

Definition ret {A} (a : A) : M A := fun w => (Ok a, w).

Definition bind {A B} (m : M A) (f : A -> M B) : M B :=
  fun w => match m w with
           | (Ok a, w') => f a w'
           | (Raised, w') => (Raised, w')
           end.

Definition raise {A} : M A := fun w => (Raised, w).

(** [try: body  except Exception: handler] *)
Definition try_except {A} (body : M A) (handler : M A) : M A :=
  fun w => match body w with
           | (Ok a, w') => (Ok a, w')
           | (Raised, w') => handler w'
           end.

Definition logger (es : list event) : M unit :=
  fun w => (Ok tt, add_log w es).

Definition of_option {A} (o : option A) : M A :=
  match o with Some a => ret a | None => raise end.

Declare Scope m_scope.
Delimit Scope m_scope with M.
Notation "x <- m ;; f" := (bind m (fun x => f))
  (at level 61, m at next level, right associativity) : m_scope.
Notation "m ;;; f" := (bind m (fun _ => f))
  (at level 61, right associativity) : m_scope.
Open Scope m_scope.

Fixpoint is_suffix_of (suf s : string) : bool :=
  String.eqb suf s ||
  match s with
  | EmptyString => false
  | String _ t => is_suffix_of suf t
  end.

(** [glob.glob("invoice_*.docx")], in the order of the directory. *)
Definition glob_invoice (fs : list file) : list file :=
  filter (fun f => Str.is_prefix "invoice_" (fname f)
                   && is_suffix_of ".docx" (Str.drop 8 (fname f))) fs.

(** [max(files, key=os.path.getmtime)]: the first file of greatest
    modification time. *)
Fixpoint max_mtime (best : file) (fs : list file) : file :=
  match fs with
  | [] => best
  | f :: rest => max_mtime (if mtime best <? mtime f then f else best) rest
  end.

(** [find_latest_invoice()] *)
Definition find_latest_invoice : M (option file) :=
  fun w =>
    match glob_invoice (files w) with
    | [] => (Ok None, w)
    | f :: rest =>
        let latest := max_mtime f rest in
        (Ok (Some latest), add_log w [Found_latest (fname latest)])
    end.

(** [Document(name)] *)
Definition load (name : string) : M document :=
  fun w =>
    match find (fun f => String.eqb (fname f) name) (files w) with
    | Some f => of_option (content f) w
    | None => (Raised, w)
    end.

(** [doc.save(name)]: the file is written and stamped with the time of
    the file system, or nothing is written and the call raises. *)
Definition save (name : string) (doc : document) : M unit :=
  fun w =>
    if locked w name then (Raised, w)
    else
      let others := filter (fun f => negb (String.eqb (fname f) name)) (files w) in
      (Ok tt, set_files w (others ++ [File name (clock w) (Some doc)])).

(** ** The date of the latest invoice *)

Definition ordinal_suffix : Re.regex :=
  Re.alts [Re.lit "st"; Re.lit "nd"; Re.lit "rd"; Re.lit "th"].

(** [\d{1,2}(st|nd|rd|th)\s+([A-Za-z]+)\s+(\d{4})] *)
Definition extract_pattern : Re.regex :=
  Re.seqs
    [Re.Rep Re.Digit 1 (Some 2%nat); Re.Grp 1 ordinal_suffix;
     Re.Rep Re.Space 1 None; Re.Grp 2 (Re.Rep Re.Alpha 1 None);
     Re.Rep Re.Space 1 None; Re.Grp 3 (Re.Rep Re.Digit 4 (Some 4%nat))].

Definition extract_guard (text : string) : bool :=
  Str.contains "Date:" text &&
  (Str.contains "st " text || Str.contains "nd " text
   || Str.contains "rd " text || Str.contains "th " text).

(** The loop of [extract_date_from_latest_invoice] over the paragraphs:
    the events logged and the date returned from inside the loop, if
    any. *)
Fixpoint extract_loop (paras : list string) : list event * option datetime :=
  match paras with
  | [] => ([], None)
  | text :: rest =>
      let continue := extract_loop rest in
      if extract_guard text then
        match Re.search extract_pattern text with
        | Some m =>
            let month_name := Re.group m 2 in
            let year := Dec.int (Re.group m 3) in
            let date_str := "1 " ++ month_name ++ " " ++ Dec.str year in
            match strptime_d_B_Y date_str with
            | Some date => ([Extracted_date date], Some date)
            | None =>
                (Could_not_parse date_str :: fst continue, snd continue)
            end
        | None => continue
        end
      else continue
  end.

(** [extract_date_from_latest_invoice(latest_file)] *)
Definition extract_date_from_latest_invoice (latest_file : file)
    : M (option datetime) :=
  try_except
    (doc <- of_option (content latest_file) ;;
     let '(es, found) := extract_loop (paragraphs doc) in
     logger es ;;;
     match found with
     | Some date => ret (Some date)
     | None => logger [Could_not_extract] ;;; ret None
     end)
    (logger [Error_extracting] ;;; ret None).

(** [determine_invoice_date()] *)
Definition determine_invoice_date : M datetime :=
  latest_file <- find_latest_invoice ;;
  let fallback : M datetime :=
    w <- (fun w => (Ok w, w)) ;;
    current_date <- of_option (replace_day (now w) 1) ;;
    logger [Current_month current_date] ;;;
    ret current_date in
  match latest_file with
  | Some f =>
      last_date <- extract_date_from_latest_invoice f ;;
      match last_date with
      | Some d =>
          next_date <- of_option (add_months d 1) ;;
          logger [Next_month next_date] ;;;
          ret next_date
      | None => fallback
      end
  | None => fallback
  end.

(** ** The rewriter *)

(** [Date:\s+\d{1,2}(st|nd|rd|th)\s+[A-Za-z]+\s+\d{4}] *)
Definition date_format1_pattern : Re.regex :=
  Re.seqs
    [Re.lit "Date:"; Re.Rep Re.Space 1 None;
     Re.Rep Re.Digit 1 (Some 2%nat); Re.Grp 1 ordinal_suffix;
     Re.Rep Re.Space 1 None; Re.Rep Re.Alpha 1 None;
     Re.Rep Re.Space 1 None; Re.Rep Re.Digit 4 (Some 4%nat)].

(** [IN\d{4}/\d{4}-\d{2}] *)
Definition invoice_number_pattern : Re.regex :=
  Re.seqs
    [Re.lit "IN"; Re.Rep Re.Digit 4 (Some 4%nat); Re.lit "/";
     Re.Rep Re.Digit 4 (Some 4%nat); Re.lit "-";
     Re.Rep Re.Digit 2 (Some 2%nat)].

(** [\d{1,2}/\d{2}/\d{4}] *)
Definition date_format2_pattern : Re.regex :=
  Re.seqs
    [Re.Rep Re.Digit 1 (Some 2%nat); Re.lit "/";
     Re.Rep Re.Digit 2 (Some 2%nat); Re.lit "/";
     Re.Rep Re.Digit 4 (Some 4%nat)].

(** [\d{1,2}(st|nd|rd|th)\s+[A-Za-z]+\s+\d{4}\s+to\s+\d{1,2}(st|nd|rd|th)\s+[A-Za-z]+\s+\d{4}] *)
Definition service_period_pattern : Re.regex :=
  Re.seqs
    [Re.Rep Re.Digit 1 (Some 2%nat); Re.Grp 1 ordinal_suffix;
     Re.Rep Re.Space 1 None; Re.Rep Re.Alpha 1 None;
     Re.Rep Re.Space 1 None; Re.Rep Re.Digit 4 (Some 4%nat);
     Re.Rep Re.Space 1 None; Re.lit "to"; Re.Rep Re.Space 1 None;
     Re.Rep Re.Digit 1 (Some 2%nat); Re.Grp 2 ordinal_suffix;
     Re.Rep Re.Space 1 None; Re.Rep Re.Alpha 1 None;
     Re.Rep Re.Space 1 None; Re.Rep Re.Digit 4 (Some 4%nat)].

(** The four values written into the document. *)
Record fields : Type := Fields {
  invoice_number : string;
  date_format1 : string;
  date_format2 : string;
  service_period : string
}.

(** The four flags of [auto_update_invoice] and what the loops log. *)
Record rw : Type := RW {
  date_format1_updated : bool;
  date_format2_updated : bool;
  invoice_number_updated : bool;
  service_period_updated : bool;
  logged : list event
}.

Definition rw0 : rw := RW false false false false [].

(** The body shared by every field: under [cond], search the pattern,
    substitute, and report whether the text changed. *)
Definition update (cond : bool) (pattern : Re.regex) (repl text : string)
    : string * bool :=
  if cond then
    match Re.search pattern text with
    | Some _ =>
        let new_text := Re.sub pattern repl text in
        (new_text, negb (String.eqb text new_text))
    | None => (text, false)
    end
  else (text, false).

Definition has_suffix_word (text : string) : bool :=
  Str.contains "st" text || Str.contains "nd" text
  || Str.contains "rd" text || Str.contains "th" text.

Definition note (changed : bool) (e : event) : list event :=
  if changed then [e] else [].

(** One iteration of the first loop (top-level paragraphs, long date). *)
Definition step_date_format1 (v : fields) (st : rw) (text : string)
    : string * rw :=
  let '(text1, ch) :=
    update (Str.contains "Date:" text && has_suffix_word text
            && negb (date_format1_updated st))
           date_format1_pattern ("Date: " ++ date_format1 v) text in
  (text1,
   RW (date_format1_updated st || ch) (date_format2_updated st)
      (invoice_number_updated st) (service_period_updated st)
      (logged st ++ note ch Updated_date_format1)).

(** One iteration of the innermost table loop (a paragraph of a cell). *)
Definition step_cell_paragraph (v : fields) (st : rw) (text : string)
    : string * rw :=
  let '(text1, ch_inv) :=
    update (Str.contains "Invoice No:" text && negb (invoice_number_updated st))
           invoice_number_pattern (invoice_number v) text in
  let '(text2, ch_d2) :=
    update (Str.contains "Date:" text1 && Str.contains "/" text1
            && negb (date_format2_updated st))
           date_format2_pattern (date_format2 v) text1 in
  let '(text3, ch_sp) :=
    update (negb (service_period_updated st))
           service_period_pattern (service_period v) text2 in
  (text3,
   RW (date_format1_updated st) (date_format2_updated st || ch_d2)
      (invoice_number_updated st || ch_inv) (service_period_updated st || ch_sp)
      (logged st ++ note ch_inv Updated_invoice_number
                 ++ note ch_d2 Updated_date_format2
                 ++ note ch_sp Updated_service_period)).

(** One iteration of the last loop (top-level paragraphs again). *)
Definition step_paragraph_again (v : fields) (st : rw) (text : string)
    : string * rw :=
  let '(text1, ch_inv) :=
    update (negb (invoice_number_updated st) && Str.contains "Invoice No:" text)
           invoice_number_pattern (invoice_number v) text in
  let '(text2, ch_d2) :=
    update (negb (date_format2_updated st) && Str.contains "Date:" text1
            && Str.contains "/" text1)
           date_format2_pattern (date_format2 v) text1 in
  (text2,
   RW (date_format1_updated st) (date_format2_updated st || ch_d2)
      (invoice_number_updated st || ch_inv) (service_period_updated st)
      (logged st ++ note ch_inv Updated_invoice_number_in_paragraph
                 ++ note ch_d2 Updated_date_format2_in_paragraph)).

(** A [for] loop that rewrites the elements of a list in place while it
    threads the flags. *)
Fixpoint for_each {A} (body : rw -> A -> A * rw) (st : rw) (l : list A)
    : list A * rw :=
  match l with
  | [] => ([], st)
  | x :: rest =>
      let '(x', st1) := body st x in
      let '(rest', st2) := for_each body st1 rest in
      (x' :: rest', st2)
  end.

Definition warnings (st : rw) : list event :=
  (if date_format1_updated st then [] else [No_date_format1])
  ++ (if date_format2_updated st then [] else [No_date_format2])
  ++ (if invoice_number_updated st then [] else [No_invoice_number])
  ++ (if service_period_updated st then [] else [No_service_period]).

(** The three loops of [auto_update_invoice] on a loaded document. *)
Definition rewrite (v : fields) (doc : document) : document * rw :=
  let '(paras1, st1) :=
    for_each (step_date_format1 v) rw0 (paragraphs doc) in
  let '(tables2, st2) :=
    for_each (for_each (for_each (for_each (step_cell_paragraph v))))
             st1 (tables doc) in
  let '(paras3, st3) :=
    if negb (invoice_number_updated st2) || negb (date_format2_updated st2)
    then for_each (step_paragraph_again v) st2 paras1
    else (paras1, st2) in
  (Doc paras3 tables2, st3).

(** ** The update routine *)

Definition make_invoice_number (random_num : Z) (fin_year : string) : string :=
  "IN" ++ Dec.str random_num ++ "/" ++ fin_year.

Definition long_date (d : datetime) : string :=
  ordinal (day d) ++ " " ++ strftime_B_Y d.

Definition make_date_format2 (d : datetime) : string :=
  Dec.str (day d) ++ "/" ++ Dec.str02 (month d) ++ "/" ++ Dec.str (year d).

(** The service dates and their rendering; [None] stands for the
    [ValueError] of a date that does not exist. *)
Definition make_service_period (invoice_date : datetime) : option string :=
  match add_months invoice_date (-1) with
  | Some prev_month_date =>
      match replace_day prev_month_date 7, replace_day invoice_date 6 with
      | Some service_start_date, Some service_end_date =>
          Some (long_date service_start_date ++ " to "
                ++ long_date service_end_date)
      | _, _ => None
      end
  | None => None
  end.

Definition output_name (invoice_date : datetime) : string :=
  "invoice_" ++ Str.lower (strftime_B_underscore_Y invoice_date) ++ ".docx".

(** The values computed from the invoice date and the random number
    before the document is touched. *)
Definition make_fields (invoice_date : datetime) (random_num : Z)
    : option fields :=
  let fin_year := get_financial_year invoice_date in
  let invoice_number := make_invoice_number random_num fin_year in
  match make_service_period invoice_date with
  | Some service_period =>
      Some (Fields invoice_number (long_date invoice_date)
                   (make_date_format2 invoice_date) service_period)
  | None => None
  end.

Definition the_draw : M Z := fun w => (Ok (draw w), w).

(** [auto_update_invoice(template_name)] *)
Definition auto_update_invoice (template_name : string) : M (option string) :=
  try_except
    (doc <- load template_name ;;
     invoice_date <- determine_invoice_date ;;
     random_num <- the_draw ;;
     v <- of_option (make_fields invoice_date random_num) ;;
     logger [Updating (invoice_number v) (date_format1 v) (service_period v)] ;;;
     let '(doc', st) := rewrite v doc in
     logger (logged st ++ warnings st) ;;;
     let output_filename := output_name invoice_date in
     save output_filename doc' ;;;
     logger [Saved output_filename] ;;;
     ret (Some output_filename))
    (logger [Error_updating] ;;; ret None).

(** ** Notions used in the statements *)

(** None of the patterns of the program names a particular digit, so a
    match depends on the text only up to replacing every digit by 0. *)
Module Shape.
Import Re.

Definition canon (c : ascii) : ascii :=
  if Str.is_digit c then "0"%char else c.

Fixpoint canon_str (s : string) : string :=
  match s with
  | EmptyString => EmptyString
  | String c t => String (canon c) (canon_str t)
  end.

Definition blind_cs (cs : cset) : bool :=
  match cs with
  | Digit | Space | Alpha => true
  | Chr x | ChrCI x => negb (Str.is_digit x)
  | Range _ _ => false
  end.

Fixpoint blind (r : regex) : bool :=
  match r with
  | Eps => true
  | One cs => blind_cs cs
  | Seq r1 r2 | Alt r1 r2 => blind r1 && blind r2
  | Rep cs _ _ => blind_cs cs
  | Grp _ r1 => blind r1
  end.

(** The part of a match object that does not mention the text. *)
Definition span (m : mobj) : nat * nat * caps := (m_start m, m_end m, m_caps m).

Definition no_digit (s : string) : bool :=
  Str.all_chars (fun c => negb (Str.is_digit c)) s.

(** The texts a pattern describes. *)
Fixpoint lang (r : regex) (s : string) : Prop :=
  match r with
  | Eps => s = EmptyString
  | One cs => exists a, s = String a EmptyString /\ mem cs a = true
  | Seq r1 r2 => exists s1 s2, s = s1 ++ s2 /\ lang r1 s1 /\ lang r2 s2
  | Alt r1 r2 => lang r1 s \/ lang r2 s
  | Rep cs lo hi =>
      Str.all_chars (mem cs) s = true /\ (lo <= String.length s)%nat
      /\ match hi with
         | Some h => (String.length s <= h)%nat
         | None => True
         end
  | Grp _ r1 => lang r1 s
  end.

Fixpoint zeros (n : nat) : string :=
  match n with
  | O => EmptyString
  | S k => String "0" (zeros k)
  end.

(** The character [x] does not occur in [s]. *)
Definition lacks (x : ascii) (s : string) : bool :=
  Str.all_chars (fun c => negb (Ascii.eqb c x)) s.

End Shape.

(** The calendar years in which the financial year of a date starts and
    ends. *)
Definition fy_start (d : datetime) : Z :=
  if 4 <=? month d then year d else year d - 1.

Definition fy_end (d : datetime) : Z := fy_start d + 1.

(** The financial-year label as the specification words it,
    ["Y-(Y+1 mod 100)"] from April on and ["(Y-1)-(Y mod 100)"] before,
    for a given way [yy] of writing the number after the hyphen. *)
Definition financial_year_label (yy : Z -> string) (d : datetime) : string :=
  if (4 <=? month d) && (month d <=? 12)
  then Dec.str (year d) ++ "-" ++ yy ((year d + 1) mod 100)
  else Dec.str (year d - 1) ++ "-" ++ yy (year d mod 100).

(** The calendar month before month [m] of year [y]. *)
Definition preceding_month (y m : Z) : Z * Z :=
  if m =? 1 then (y - 1, 12) else (y, m - 1).

(** The service period as the specification words it: day 7 of the
    preceding month to day 6 of the month of the invoice date. *)
Definition service_period_text (d : datetime) : string :=
  let '(py, pm) := preceding_month (year d) (month d) in
  "7th " ++ month_name pm ++ " " ++ Dec.str py
  ++ " to 6th " ++ month_name (month d) ++ " " ++ Dec.str (year d).

(** ** Sample directories *)

Definition no_lock : string -> bool := fun _ => false.

(** A template with an invoice number only, next to an invoice dated
    January of the year 1000. *)
Definition number_only_template : document :=
  Doc ["Invoice No: IN1234/2024-25"] [].

Definition invoice_of_january_1000 : document :=
  Doc ["Date: 1st January 1000"] [].

Definition world_1000 : world :=
  World [File "template.docx" 1 (Some number_only_template);
         File "invoice_january_1000.docx" 2 (Some invoice_of_january_1000)]
        (DT 2025 6 17 0) 1234 no_lock [] 100.

(** A computation step that leaves the directory, the date, the draw and
    the locks alone and only adds to the log. *)
Definition only_logs (w w' : world) : Prop :=
  files w' = files w /\ now w' = now w /\ draw w' = draw w
  /\ locked w' = locked w /\ exists es, log w' = (log w ++ es)%list.

(** The four fields and, for each, its flag and the log entries that
    report an update of it. *)
Inductive field : Type := Long_date | Slash_date | Invoice_no | Service.

Definition flag (f : field) (st : rw) : bool :=
  match f with
  | Long_date => date_format1_updated st
  | Slash_date => date_format2_updated st
  | Invoice_no => invoice_number_updated st
  | Service => service_period_updated st
  end.

Definition reports (f : field) (e : event) : bool :=
  match f, e with
  | Long_date, Updated_date_format1 => true
  | Slash_date, Updated_date_format2 => true
  | Slash_date, Updated_date_format2_in_paragraph => true
  | Invoice_no, Updated_invoice_number => true
  | Invoice_no, Updated_invoice_number_in_paragraph => true
  | Service, Updated_service_period => true
  | _, _ => false
  end.

(** How many times the log reports an update of a field. *)
Definition updates_of (f : field) (es : list event) : nat :=
  List.length (filter (reports f) es).

(** The flags agree with the log. *)
Definition flags_count (st : rw) : Prop :=
  forall f, updates_of f (logged st) = if flag f st then 1%nat else 0%nat.

(** The three flags of the table loop are set. *)
Definition all_set (st : rw) : Prop :=
  date_format2_updated st = true /\ invoice_number_updated st = true
  /\ service_period_updated st = true.

(** Templates in which the long date occurs more than once. *)
Definition two_dates_in_a_paragraph : document :=
  Doc ["Date: 1st January 2025 and Date: 2nd January 2025"] [].

Definition two_dated_paragraphs : document :=
  Doc ["Date: 1st February 2025"; "Date: 1st January 2025"] [].

Definition fields_february_2025 : fields :=
  Fields "IN4321/2024-25" "1st February 2025" "1/02/2025"
         "7th January 2025 to 6th February 2025".

(** A paragraph that reads "Date: <day><suffix> <Month> <Year>", the form
    in which the rewriter writes the long date. *)
Definition dated_line (y m n : Z) : string :=
  "Date: " ++ ordinal n ++ " " ++ month_name m ++ " " ++ Dec.str y.

(** The first of the month after month [m] of year [y], at midnight. *)
Definition first_of_next_month (y m : Z) : datetime :=
  if m =? 12 then DT (y + 1) 1 1 0 else DT y (m + 1) 1 0.

(** An invoice with two dated paragraphs. *)
Definition invoice_with_two_dates : document :=
  Doc ["Date: 1st January 2025"; "Date: 1st June 2025"] [].

Definition world_two_dates : world :=
  World [File "invoice_june_2025.docx" 9 (Some invoice_with_two_dates)]
        (DT 2030 1 15 0) 1234 no_lock [] 100.

(** A template with a dated paragraph that mentions an earlier date
    before its label. *)
Definition template_with_payment_note : document :=
  Doc ["Paid 5th April 2024. Date: 1st January 2025"] [].

Definition world_payment_note : world :=
  World [File "template.docx" 1 (Some template_with_payment_note)]
        (DT 2025 2 10 0) 4321 no_lock [] 100.

(** A plain template and the directory in which its February 2025
    invoice is the latest one. *)
Definition plain_template : document :=
  Doc ["INVOICE"; "Date: 23rd January 2025"]
      [[[["Invoice No: IN1234/2024-25"; "Date: - 1/01/2025"];
         ["7th December 2024 to 6th January 2025"]]]].

Definition world_after_february : world :=
  World [File "template.docx" 1 (Some plain_template);
         File "invoice_february_2025.docx" 2
              (Some (fst (rewrite fields_february_2025 plain_template)))]
        (DT 2030 7 7 0) 5555 no_lock [] 100.

(** The paragraphs of all cells of all tables, in scan order. *)
Definition cell_paragraphs (doc : document) : list string :=
  List.concat (List.concat (List.concat (tables doc))).

(** The warning logged for a field whose flag is not set. *)
Definition warning_of (f : field) : event :=
  match f with
  | Long_date => No_date_format1
  | Slash_date => No_date_format2
  | Invoice_no => No_invoice_number
  | Service => No_service_period
  end.

(** A paragraph in which a field has a matching region: the label test
    of the field holds and its pattern is found. *)
Definition has_region (f : field) (text : string) : bool :=
  match f with
  | Long_date =>
      Str.contains "Date:" text && has_suffix_word text
      && match Re.search date_format1_pattern text with
         | Some _ => true | None => false end
  | Slash_date =>
      Str.contains "Date:" text && Str.contains "/" text
      && match Re.search date_format2_pattern text with
         | Some _ => true | None => false end
  | Invoice_no =>
      Str.contains "Invoice No:" text
      && match Re.search invoice_number_pattern text with
         | Some _ => true | None => false end
  | Service =>
      match Re.search service_period_pattern text with
      | Some _ => true | None => false end
  end.

(** A paragraph with an invoice-number region carries the number of the
    run already. *)
Definition carries_number (v : fields) (q : string) : Prop :=
  has_region Invoice_no q = true ->
  Str.contains (invoice_number v) q = true.

(** A template whose only region is an invoice number: no paragraph has
    the label "Date:", and no paragraph of a cell has a service period. *)
Definition invoice_number_only (doc : document) : Prop :=
  (forall q, In q (paragraphs doc) -> Str.contains "Date:" q = false)
  /\ (forall q, In q (cell_paragraphs doc) ->
                Str.contains "Date:" q = false
                /\ has_region Service q = false).

(** The flags of the three other fields are not set. *)
Definition others_unset (st : rw) : Prop :=
  date_format1_updated st = false /\ date_format2_updated st = false
  /\ service_period_updated st = false.

(** A directory with the invoice-number-only template and no earlier
    invoice. *)
Definition world_number_only : world :=
  World [File "template.docx" 1 (Some number_only_template)]
        (DT 2025 6 17 0) 1234 no_lock [] 100.

(** ** The rest of the file: month names and the script *)

(** The regular expression that [strptime] builds for ["%m"]. *)
Definition strptime_m : Re.regex :=
  Re.Grp 1 (Re.alts
    [Re.Seq (Re.One (Re.Chr "1")) (Re.One (Re.Range "0" "2"));
     Re.Seq (Re.One (Re.Chr "0")) (Re.One (Re.Range "1" "9"));
     Re.One (Re.Range "1" "9")]).

(** [datetime.strptime(s, "%m")]: the first of the month read, in the
    year 1900; [None] stands for [ValueError] (no match, or text left
    over). *)
Definition strptime_month (s : string) : option datetime :=
  match Re.match_at strptime_m s with
  | Some (O, c) =>
      let m := Re.MObj s 0 (String.length s) c in
      Some (DT 1900 (Dec.int (Re.group m 1)) 1 0)
  | _ => None
  end.

(** [get_month_name(month_num)]; [None] stands for [ValueError]. *)
Definition get_month_name (month_num : Z) : option string :=
  match strptime_month (Dec.str month_num) with
  | Some d => Some (month_name (month d))
  | None => None
  end.

(** What the script logs itself, around the log of the update routine. *)
Inductive main_event : Type :=
| Starting
| No_template_file
| Using_template (name : string)
| Generated (name : string)
| Failed_to_generate.

(** How the script ends: [exit(code)] (0 at the end of the script), or an
    exception that nothing catches. *)
Inductive outcome : Type :=
| Exit (code : Z)
| Uncaught.

(** A name that [glob] does not list for a pattern starting with [*]. *)
Definition hidden (name : string) : bool := Str.is_prefix "." name.

(** [glob.glob("*.docx")], in the order of the directory. *)
Definition glob_docx (fs : list file) : list file :=
  filter (fun f => negb (hidden (fname f)) && is_suffix_of ".docx" (fname f)) fs.

(** [glob.glob("*template*.docx")], in the order of the directory. *)
Definition glob_template (fs : list file) : list file :=
  filter (fun f =>
            negb (hidden (fname f)) && is_suffix_of ".docx" (fname f)
            && Str.contains "template"
                 (Str.take (String.length (fname f) - 5) (fname f))) fs.

(** A run of the script: how it ends, the directory and the log of the
    update routine afterwards, and everything logged in order. *)
Record main_run : Type := Main_run {
  ending : outcome;
  after : world;
  trace : list (main_event + event)
}.

Definition new_events (w w' : world) : list event :=
  skipn (List.length (log w)) (log w').

(** The script under [if __name__ == "__main__":]. *)
Definition main (w : world) : main_run :=
  let template_files :=
    match glob_template (files w) with
    | [] => glob_docx (files w)
    | found => found
    end in
  match template_files with
  | [] => Main_run (Exit 1) w [inl Starting; inl No_template_file]
  | f :: _ =>
      let template_name := fname f in
      let before := [inl Starting; inl (Using_template template_name)] in
      match auto_update_invoice template_name w with
      | (Ok (Some name), w') =>
          Main_run (Exit 0) w'
            (before ++ map inr (new_events w w') ++ [inl (Generated name)])
      | (Ok None, w') =>
          Main_run (Exit 0) w'
            (before ++ map inr (new_events w w') ++ [inl Failed_to_generate])
      | (Raised, w') =>
          Main_run Uncaught w' (before ++ map inr (new_events w w'))
      end
  end.

(** The text of a year of at most four digits, zeros in front. *)
Definition pad4 (k : Z) : string :=
  String (Dec.digit_char (k / 1000))
    (String (Dec.digit_char (k / 100 mod 10))
       (String (Dec.digit_char (k / 10 mod 10))
          (String (Dec.digit_char (k mod 10)) ""))).

(** The counts of paragraphs in the cells of the rows of the tables. *)
Definition table_shape (ts : list table) : list (list (list nat)) :=
  map (map (map (@List.length string))) ts.

(** The numbers of the groups of a pattern. *)
Fixpoint groups (r : Re.regex) : list nat :=
  match r with
  | Re.Seq r1 r2 | Re.Alt r1 r2 => groups r1 ++ groups r2
  | Re.Grp n r1 => n :: groups r1
  | _ => []
  end.

(** ** The rewriter, field by field *)

(** The label test a paragraph has to pass for a field, its pattern, and
    the text written in place of a match. *)
Definition label_test (f : field) (text : string) : bool :=
  match f with
  | Long_date => Str.contains "Date:" text && has_suffix_word text
  | Slash_date => Str.contains "Date:" text && Str.contains "/" text
  | Invoice_no => Str.contains "Invoice No:" text
  | Service => true
  end.

Definition pattern_of (f : field) : Re.regex :=
  match f with
  | Long_date => date_format1_pattern
  | Slash_date => date_format2_pattern
  | Invoice_no => invoice_number_pattern
  | Service => service_period_pattern
  end.

Definition value_of (f : field) (v : fields) : string :=
  match f with
  | Long_date => "Date: " ++ date_format1 v
  | Slash_date => date_format2 v
  | Invoice_no => invoice_number v
  | Service => service_period v
  end.

(** What the substitution of a field makes of a text: every match of the
    pattern is replaced. *)
Definition substituted (f : field) (v : fields) (text : string) : string :=
  Re.sub (pattern_of f) (value_of f v) text.

(** The field changes a text: the label test holds, the pattern is found,
    and the text after the substitution differs from the text before. *)
Definition changes (f : field) (v : fields) (text : string) : bool :=
  has_region f text && negb (String.eqb text (substituted f v text)).

(** One try of a field on a text while the field is still [on]. *)
Definition try_field (f : field) (v : fields) (on : bool) (text : string)
    : string * bool :=
  if on && changes f v text then (substituted f v text, true)
  else (text, false).

(** First match wins: the first text of the list that the field changes
    is replaced by its substitution, every other text is left as it is;
    the boolean tells whether a text was replaced. *)
Fixpoint first_wins (f : field) (v : fields) (l : list string)
    : list string * bool :=
  match l with
  | [] => ([], false)
  | q :: rest =>
      if changes f v q then (substituted f v q :: rest, true)
      else let '(rest', hit) := first_wins f v rest in (q :: rest', hit)
  end.

(** A pass of a field that is made only while the field is [on]. *)
Definition pass (f : field) (v : fields) (on : bool) (l : list string)
    : list string * bool :=
  if on then first_wins f v l else (l, false).

(** The passes of the three loops.  The table loop tries the invoice
    number, the slash date and the service period on every paragraph of a
    cell, in this order; the last loop tries the invoice number and the
    slash date on the top-level paragraphs, each only when the table
    loop did not change a text for it. *)
Definition paragraphs_long (v : fields) (doc : document) : list string * bool :=
  first_wins Long_date v (paragraphs doc).

Definition cells_number (v : fields) (doc : document) : list string * bool :=
  first_wins Invoice_no v (cell_paragraphs doc).

Definition cells_slash (v : fields) (doc : document) : list string * bool :=
  first_wins Slash_date v (fst (cells_number v doc)).

Definition cells_service (v : fields) (doc : document) : list string * bool :=
  first_wins Service v (fst (cells_slash v doc)).

Definition paragraphs_number (v : fields) (doc : document)
    : list string * bool :=
  pass Invoice_no v (negb (snd (cells_number v doc)))
       (fst (paragraphs_long v doc)).

Definition paragraphs_slash (v : fields) (doc : document)
    : list string * bool :=
  pass Slash_date v (negb (snd (cells_slash v doc)))
       (fst (paragraphs_number v doc)).

(** The texts a field is given during a run, in the order in which it is
    given them: the texts as the fields tried before it have left them,
    and the top-level paragraphs after the cells only for a field that
    changed no text in a cell. *)
Definition scan (f : field) (v : fields) (doc : document) : list string :=
  match f with
  | Long_date => paragraphs doc
  | Invoice_no =>
      cell_paragraphs doc
      ++ (if snd (cells_number v doc) then [] else fst (paragraphs_long v doc))
  | Slash_date =>
      fst (cells_number v doc)
      ++ (if snd (cells_slash v doc) then [] else fst (paragraphs_number v doc))
  | Service => fst (cells_slash v doc)
  end.

(** ** Further notions of the statements *)

(** The log file of the program, which every call to the logger appends
    to; it is in the working directory but not among the [files] of the
    model. *)
Definition log_file : string := "invoice_automation.log".

(** The two states of the directory hold the same files, the log file
    aside. *)
Definition same_files_but_log (w w' : world) : Prop :=
  forall f, fname f <> log_file -> (In f (files w') <-> In f (files w)).



(** A template whose invoice number is the one the run generates, in a
    directory without an earlier invoice. *)
Definition template_with_the_new_number : document :=
  Doc ["Invoice No: IN1234/2025-26"] [].

Definition world_same_number : world :=
  World [File "template.docx" 1 (Some template_with_the_new_number)]
        (DT 2025 6 17 0) 1234 no_lock [] 100.








(** * Properties *)

(** ** Decimal digits *)

Module DecFacts.
Import Dec.

Lemma digit_cases (x : Z) :
  0 <= x <= 9 ->
  x = 0 \/ x = 1 \/ x = 2 \/ x = 3 \/ x = 4 \/ x = 5 \/ x = 6 \/ x = 7
  \/ x = 8 \/ x = 9.
Proof. lia. Qed.

Lemma is_digit_digit_char (x : Z) :
  0 <= x <= 9 -> Str.is_digit (digit_char x) = true.
Proof.
  intros H. destruct (digit_cases x H) as [E|[E|[E|[E|[E|[E|[E|[E|[E|E]]]]]]]]];
    subst x; reflexivity.
Qed.

Lemma digit_val_digit_char (x : Z) :
  0 <= x <= 9 -> digit_val (digit_char x) = x.
Proof.
  intros H. destruct (digit_cases x H) as [E|[E|[E|[E|[E|[E|[E|[E|[E|E]]]]]]]]];
    subst x; reflexivity.
Qed.

Lemma fuel_enough (n : Z) (j : nat) :
  2 ^ Z.of_nat j <= n -> exists k, S (Z.to_nat (Z.log2 n)) = (S j + k)%nat.
Proof.
  intros H.
  assert (0 < n) by (pose proof (Z.pow_pos_nonneg 2 (Z.of_nat j)); lia).
  assert (Z.of_nat j <= Z.log2 n) by (apply Z.log2_le_pow2; lia).
  exists (Z.to_nat (Z.log2 n) - j)%nat. lia.
Qed.

Ltac zdiv := Z.div_mod_to_equations; lia.

Ltac ltb_is b :=
  match goal with
  | |- context [?x <? ?y] =>
      let H := fresh in
      assert (H : (x <? y) = b)
        by (first [apply Z.ltb_lt; zdiv | apply Z.ltb_ge; zdiv]);
      rewrite H; clear H
  end.

Lemma str_1 (n : Z) : 0 <= n <= 9 -> str n = String (digit_char n) "".
Proof.
  intros H. unfold str. ltb_is false.
  cbn [digits]. ltb_is true.
  rewrite Z.mod_small by lia. reflexivity.
Qed.

Lemma str_2 (n : Z) :
  10 <= n <= 99 ->
  str n = String (digit_char (n / 10)) (String (digit_char (n mod 10)) "").
Proof.
  intros H. unfold str. ltb_is false.
  destruct (fuel_enough n 1) as [k ->]; [simpl; lia|].
  cbn [digits Nat.add]. ltb_is false.
  ltb_is true.
  rewrite (Z.mod_small (n / 10)) by zdiv. reflexivity.
Qed.

Lemma str_3 (n : Z) :
  100 <= n <= 999 ->
  str n = String (digit_char (n / 100))
            (String (digit_char (n / 10 mod 10))
               (String (digit_char (n mod 10)) "")).
Proof.
  intros H. unfold str. ltb_is false.
  destruct (fuel_enough n 2) as [k ->]; [simpl; lia|].
  cbn [digits Nat.add]. ltb_is false.
  ltb_is false.
  rewrite !Z.div_div by lia. change (10 * 10) with 100.
  ltb_is true.
  rewrite (Z.mod_small (n / 100)) by zdiv. reflexivity.
Qed.

Lemma str_4 (n : Z) :
  1000 <= n <= 9999 ->
  str n = String (digit_char (n / 1000))
            (String (digit_char (n / 100 mod 10))
               (String (digit_char (n / 10 mod 10))
                  (String (digit_char (n mod 10)) ""))).
Proof.
  intros H. unfold str. ltb_is false.
  destruct (fuel_enough n 3) as [k ->]; [simpl; lia|].
  cbn [digits Nat.add]. ltb_is false.
  ltb_is false.
  rewrite !Z.div_div by lia. change (10 * 10) with 100.
  change (100 * 10) with 1000.
  ltb_is false.
  ltb_is true.
  rewrite (Z.mod_small (n / 1000)) by zdiv. reflexivity.
Qed.

Lemma str_10000 : str 10000 = "10000".
Proof. reflexivity. Qed.

(** Reading back what was written. *)
Lemma int_str_4 (n : Z) : 1000 <= n <= 9999 -> int (str n) = n.
Proof.
  intros H. rewrite str_4 by exact H. unfold int. cbn [int_acc].
  rewrite !digit_val_digit_char by zdiv. zdiv.
Qed.

End DecFacts.

(** ** The matcher and digits *)

Module ShapeFacts.
Import Re Shape.

Lemma digit_is_plain (c : ascii) :
  Str.is_digit c = true ->
  Str.is_space c = false /\ Str.is_alpha c = false /\ Str.lower_char c = c.
Proof.
  destruct c as [b0 b1 b2 b3 b4 b5 b6 b7].
  destruct b0, b1, b2, b3, b4, b5, b6, b7; vm_compute; intros H;
    try discriminate H; repeat split.
Qed.

Lemma canon_digit (c : ascii) : Str.is_digit (canon c) = Str.is_digit c.
Proof. unfold canon. destruct (Str.is_digit c) eqn:E; [reflexivity | exact E]. Qed.

Lemma mem_canon (cs : cset) (c : ascii) :
  blind_cs cs = true -> mem cs (canon c) = mem cs c.
Proof.
  intros B. destruct cs; simpl in *; try discriminate B.
  - apply canon_digit.
  - unfold canon. destruct (Str.is_digit c) eqn:E; [|reflexivity].
    destruct (digit_is_plain c E) as (-> & _). reflexivity.
  - unfold canon. destruct (Str.is_digit c) eqn:E; [|reflexivity].
    destruct (digit_is_plain c E) as (_ & -> & _). reflexivity.
  - unfold canon. destruct (Str.is_digit c) eqn:E; [|reflexivity].
    assert (N : forall a, Str.is_digit a = true -> Ascii.eqb a c0 = false).
    { intros a Ha. apply Ascii.eqb_neq. intros ->. rewrite Ha in B. discriminate. }
    rewrite (N c E), (N "0"%char eq_refl). reflexivity.
  - unfold canon. destruct (Str.is_digit c) eqn:E; [|reflexivity].
    assert (N : forall a, Str.is_digit a = true ->
                          Ascii.eqb (Str.lower_char a) c0 = false).
    { intros a Ha. destruct (digit_is_plain a Ha) as (_ & _ & ->).
      apply Ascii.eqb_neq. intros ->. rewrite Ha in B. discriminate. }
    rewrite (N c E), (N "0"%char eq_refl). reflexivity.
Qed.

Lemma canon_str_length (s : string) :
  String.length (canon_str s) = String.length s.
Proof. induction s; simpl; congruence. Qed.

Lemma canon_str_app (a b : string) :
  canon_str (a ++ b) = canon_str a ++ canon_str b.
Proof. induction a; simpl; congruence. Qed.

Lemma rep_canon (cs : cset) (s : string) :
  blind_cs cs = true ->
  forall lo hi k k',
    (forall t, k t = k' (canon_str t)) ->
    rep cs lo hi s k = rep cs lo hi (canon_str s) k'.
Proof.
  intros B. induction s as [|a t IH]; intros lo hi k k' K.
  - simpl. destruct lo; [apply (K EmptyString) | reflexivity].
  - cbn [rep canon_str]. rewrite (mem_canon cs a B).
    rewrite <- (IH (pred lo) (dec_hi hi) k k' K).
    change (String (canon a) (canon_str t)) with (canon_str (String a t)).
    destruct lo; [rewrite <- K|]; reflexivity.
Qed.

Lemma run_canon (r : regex) :
  blind r = true ->
  forall s c k k',
    (forall t c', k t c' = k' (canon_str t) c') ->
    run r s c k = run r (canon_str s) c k'.
Proof.
  induction r as [|cs|r1 IH1 r2 IH2|r1 IH1 r2 IH2|cs lo hi|n r1 IH1];
    simpl; intros B s c k k' K.
  - apply K.
  - destruct s as [|a t]; [reflexivity|]. simpl.
    rewrite (mem_canon cs a B). destruct (mem cs a); [apply K | reflexivity].
  - apply andb_prop in B as [B1 B2].
    apply IH1; [exact B1|]. intros t c'. apply IH2; assumption.
  - apply andb_prop in B as [B1 B2].
    rewrite <- (IH1 B1 s c k k' K), <- (IH2 B2 s c k k' K). reflexivity.
  - apply rep_canon; [exact B|]. intros t. apply K.
  - apply IH1; [exact B|]. intros t c'.
    rewrite !canon_str_length. apply K.
Qed.

Lemma match_at_canon (r : regex) (s : string) :
  blind r = true -> match_at r (canon_str s) = match_at r s.
Proof.
  intros B. unfold match_at. symmetry. apply run_canon; [exact B|].
  intros t c. rewrite canon_str_length. reflexivity.
Qed.

Lemma search_from_canon (r : regex) (whole s : string) :
  blind r = true ->
  option_map span (search_from r (canon_str whole) (canon_str s))
  = option_map span (search_from r whole s).
Proof.
  intros B. induction s as [|a t IH].
  - cbn [search_from canon_str].
    change EmptyString with (canon_str EmptyString) at 1.
    rewrite (match_at_canon r EmptyString B), !canon_str_length.
    destruct (match_at r EmptyString) as [[rem c]|]; reflexivity.
  - cbn [search_from canon_str].
    change (String (canon a) (canon_str t)) with (canon_str (String a t)).
    rewrite (match_at_canon r (String a t) B), !canon_str_length.
    destruct (match_at r (String a t)) as [[rem c]|]; [reflexivity|].
    cbn [String.length]. exact IH.
Qed.

Lemma search_canon (r : regex) (s : string) :
  blind r = true ->
  option_map span (search r (canon_str s)) = option_map span (search r s).
Proof. intros B. apply search_from_canon, B. Qed.

Lemma is_prefix_canon (p s : string) :
  no_digit p = true -> Str.is_prefix p (canon_str s) = Str.is_prefix p s.
Proof.
  revert s. induction p as [|a p IH]; intros s N; [destruct s; reflexivity|].
  simpl in N. apply andb_prop in N as [Na Np].
  destruct s as [|b s]; [reflexivity|]. simpl. rewrite (IH s Np).
  f_equal. unfold canon. destruct (Str.is_digit b) eqn:E; [|reflexivity].
  assert (F : forall x, Str.is_digit x = true -> Ascii.eqb a x = false).
  { intros x Hx. apply Ascii.eqb_neq. intros ->. rewrite Hx in Na. discriminate. }
  rewrite (F b E), (F "0"%char eq_refl). reflexivity.
Qed.

Lemma contains_canon (p s : string) :
  no_digit p = true -> Str.contains p (canon_str s) = Str.contains p s.
Proof.
  intros N. induction s as [|b s IH].
  - simpl. change EmptyString with (canon_str EmptyString) at 1.
    rewrite is_prefix_canon by exact N. reflexivity.
  - cbn [Str.contains canon_str]. rewrite IH.
    change (String (canon b) (canon_str s)) with (canon_str (String b s)).
    rewrite is_prefix_canon by exact N. reflexivity.
Qed.

Lemma canon_digit_char (x : Z) :
  0 <= x <= 9 -> canon (Dec.digit_char x) = "0"%char.
Proof.
  intros H. unfold canon. rewrite DecFacts.is_digit_digit_char by exact H.
  reflexivity.
Qed.

Lemma canon_str_4 (n : Z) :
  1000 <= n <= 9999 -> canon_str (Dec.str n) = "0000".
Proof.
  intros H. rewrite DecFacts.str_4 by exact H. cbn [canon_str].
  rewrite !canon_digit_char by DecFacts.zdiv. reflexivity.
Qed.

Lemma canon_last2 (n : Z) :
  1000 <= n <= 10000 -> canon_str (Str.last2 (Dec.str n)) = "00".
Proof.
  intros H. destruct (Z.eq_dec n 10000) as [->|N]; [reflexivity|].
  rewrite DecFacts.str_4 by lia. unfold Str.last2.
  cbn [String.length Nat.sub Str.drop canon_str].
  rewrite !canon_digit_char by DecFacts.zdiv. reflexivity.
Qed.

Lemma fullmatch_canon (r : regex) (s : string) :
  blind r = true -> fullmatch r (canon_str s) = fullmatch r s.
Proof.
  intros B. unfold fullmatch.
  rewrite <- (run_canon r B s []
                (fun s' c => match s' with
                             | EmptyString => Some (O, c)
                             | String _ _ => None
                             end)); [reflexivity|].
  intros t c. destruct t; reflexivity.
Qed.

Lemma search_from_text (r : regex) (whole s : string) (m : mobj) :
  search_from r whole s = Some m -> m_text m = whole.
Proof.
  induction s as [|a u IH]; cbn [search_from].
  - destruct (match_at r EmptyString) as [[rem c]|]; intros E; inversion E;
      reflexivity.
  - destruct (match_at r (String a u)) as [[rem c]|]; [|exact IH].
    intros E; inversion E; reflexivity.
Qed.

(** Matching a text is settled on its shape. *)
Lemma fullmatch_shape (r : regex) (s t : string) :
  blind r = true -> canon_str s = t -> fullmatch r t = true ->
  fullmatch r s = true.
Proof. intros B <- H. rewrite <- fullmatch_canon; assumption. Qed.

Lemma search_shape (r : regex) (s t : string) (x : nat * nat * caps) :
  blind r = true -> canon_str s = t ->
  option_map span (search r t) = Some x ->
  exists m, search r s = Some m /\ span m = x /\ m_text m = s.
Proof.
  intros B <- H. rewrite search_canon in H by exact B.
  destruct (search r s) as [m|] eqn:E; [|discriminate H].
  exists m. split; [reflexivity|]. split; [simpl in H; congruence|].
  apply (search_from_text r s s m E).
Qed.

End ShapeFacts.

(** ** What the matcher finds is described by the pattern *)

Module LangFacts.
Import Re Shape.

Lemma rep_sound (cs : cset) (s : string) :
  forall lo hi k x,
    rep cs lo hi s k = Some x ->
    exists s1 s2, s = s1 ++ s2 /\ lang (Rep cs lo hi) s1 /\ k s2 = Some x.
Proof.
  induction s as [|a t IH]; intros lo hi k x H.
  - cbn [rep] in H. destruct lo; [|discriminate H].
    exists "", "". repeat split; try assumption; cbn; try lia.
    destruct hi; [lia | exact I].
  - cbn [rep] in H.
    assert (Stop : match lo with O => k (String a t) | S _ => None end = Some x ->
                   exists s1 s2, String a t = s1 ++ s2
                                 /\ lang (Rep cs lo hi) s1 /\ k s2 = Some x).
    { intros E. destruct lo; [|discriminate E].
      exists "", (String a t). repeat split; try assumption; cbn; try lia.
      destruct hi; [lia | exact I]. }
    destruct (hi_open hi && mem cs a) eqn:C; [|exact (Stop H)].
    apply andb_prop in C as [Ho Hm].
    destruct (rep cs (pred lo) (dec_hi hi) t k) as [y|] eqn:R;
      [|exact (Stop H)].
    injection H as <-. destruct (IH _ _ _ _ R) as (s1 & s2 & -> & L & K).
    exists (String a s1), s2. split; [reflexivity|]. split; [|exact K].
    destruct L as (A & Lo & Hi). cbn [lang Str.all_chars String.length].
    rewrite Hm, A. split; [reflexivity|]. split; [lia|].
    destruct hi as [[|h]|]; cbn in *; [discriminate Ho | lia | exact I].
Qed.

(** Soundness of the matcher: when it succeeds, it has split off a
    piece of text that the pattern describes and handed the rest to its
    continuation. *)
Lemma run_sound (r : regex) :
  forall s c k x,
    run r s c k = Some x ->
    exists s1 s2 c', s = s1 ++ s2 /\ lang r s1 /\ k s2 c' = Some x.
Proof.
  induction r as [|cs|r1 IH1 r2 IH2|r1 IH1 r2 IH2|cs lo hi|n r1 IH1];
    intros s c k x H; cbn [run] in H.
  - exists "", s, c. repeat split. exact H.
  - destruct s as [|a t]; [discriminate H|].
    destruct (mem cs a) eqn:M; [|discriminate H].
    exists (String a ""), t, c. split; [reflexivity|]. split; [|exact H].
    exists a. split; [reflexivity | exact M].
  - destruct (IH1 _ _ _ _ H) as (s1 & s' & c1 & -> & L1 & H2).
    destruct (IH2 _ _ _ _ H2) as (s2 & s3 & c2 & -> & L2 & K).
    exists (s1 ++ s2), s3, c2. split; [|split; [|exact K]].
    + clear. induction s1; simpl; congruence.
    + exists s1, s2. repeat split; assumption.
  - destruct (run r1 s c k) as [y|] eqn:R.
    + injection H as <-. destruct (IH1 _ _ _ _ R) as (s1 & s2 & c' & E & L & K).
      exists s1, s2, c'. split; [exact E|]. split; [left; exact L | exact K].
    + destruct (IH2 _ _ _ _ H) as (s1 & s2 & c' & E & L & K).
      exists s1, s2, c'. split; [exact E|]. split; [right; exact L | exact K].
  - destruct (rep_sound _ _ _ _ _ _ H) as (s1 & s2 & E & L & K).
    exists s1, s2, c. split; [exact E | split; [exact L | exact K]].
  - destruct (IH1 _ _ _ _ H) as (s1 & s2 & c' & E & L & K).
    eexists s1, s2, _. split; [exact E|]. split; [exact L | exact K].
Qed.

Lemma match_at_sound (r : regex) (s : string) (rem : nat) (cp : caps) :
  match_at r s = Some (rem, cp) ->
  exists s1 s2, s = s1 ++ s2 /\ lang r s1 /\ rem = String.length s2.
Proof.
  intros H. destruct (run_sound r s [] _ _ H) as (s1 & s2 & c' & E & L & K).
  exists s1, s2. split; [exact E|]. split; [exact L|]. congruence.
Qed.

End LangFacts.

(** ** Substitution *)

Module SubFacts.
Import Re Shape ShapeFacts LangFacts.

Lemma append_nil_r (s : string) : s ++ "" = s.
Proof. induction s; simpl; congruence. Qed.

Lemma sub_go_skip_all (r : regex) (repl s : string) :
  match_at r "" = None -> sub_go r repl s (String.length s) = "".
Proof.
  intros E. induction s as [|a t IH]; [|exact IH].
  cbn [String.length sub_go]. rewrite E. reflexivity.
Qed.

(** A text that a pattern without empty matches matches in full becomes
    the replacement. *)
Lemma sub_full_match (r : regex) (repl s : string) (cp : caps) :
  match_at r "" = None ->
  match_at r s = Some (O, cp) -> s <> "" -> sub r repl s = repl.
Proof.
  intros E M N. destruct s as [|a t]; [congruence|].
  unfold sub. cbn [sub_go]. rewrite M.
  cbn [String.length Nat.sub]. rewrite sub_go_skip_all by exact E.
  apply append_nil_r.
Qed.

Lemma is_prefix_nil (s : string) : Str.is_prefix "" s = true.
Proof. destruct s; reflexivity. Qed.

Section Label.
(** A label and a replacement, neither empty, such that the first
    character of each does not occur in the other. *)
Variables (l0 r0 : ascii) (lab repl : string).
Hypothesis label_head : lacks l0 (String r0 repl) = true.
Hypothesis repl_head : lacks r0 (String l0 lab) = true.

(** A piece of the label at the start of the output was already at the
    start of the input. *)
Lemma is_prefix_sub_go (r : regex) (l s : string) :
  lacks r0 l = true ->
  Str.is_prefix l (sub_go r (String r0 repl) s O) = true ->
  Str.is_prefix l s = true.
Proof.
  revert l. induction s as [|a t IH]; intros l L H.
  - destruct l as [|x l']; [reflexivity|]. exfalso.
    cbn [sub_go] in H. simpl in L. apply andb_prop in L as [L _].
    destruct (match_at r "") as [[rem cp]|]; [|discriminate H].
    cbn in H. apply andb_prop in H as [H _].
    rewrite H in L. discriminate L.
  - destruct l as [|x l']; [reflexivity|].
    simpl in L. apply andb_prop in L as [Lx L'].
    cbn [sub_go] in H.
    assert (Starts : forall rest,
              Str.is_prefix (String x l') (String r0 repl ++ rest) = true ->
              False).
    { intros rest P. cbn in P. apply andb_prop in P as [P _].
      rewrite P in Lx. discriminate Lx. }
    destruct (match_at r (String a t)) as [[rem cp]|].
    + exfalso. destruct (String.length (String a t) - rem)%nat;
        apply (Starts _ H).
    + cbn [Str.is_prefix] in H |- *. apply andb_prop in H as [E P].
      rewrite E. cbn [andb]. apply IH; assumption.
Qed.

Lemma contains_repl_app (rest : string) :
  forall p, lacks l0 p = true ->
  Str.contains (String l0 lab) (p ++ rest) = Str.contains (String l0 lab) rest.
Proof.
  induction p as [|x p IH]; intros L; [reflexivity|].
  simpl in L. apply andb_prop in L as [Lx L'].
  cbn [String.append Str.contains Str.is_prefix].
  replace (Ascii.eqb l0 x) with false
    by (symmetry; rewrite Ascii.eqb_sym; apply negb_true_iff; exact Lx).
  cbn [andb orb]. apply IH, L'.
Qed.

Lemma contains_tail (a : ascii) (t : string) :
  Str.contains (String l0 lab) (String a t) = false ->
  Str.contains (String l0 lab) t = false.
Proof.
  cbn [Str.contains]. intros H. apply orb_false_iff in H as [_ H]. exact H.
Qed.

(** Substituting the replacement does not bring the label into a text
    that did not contain it. *)
Lemma sub_go_keeps_absent (r : regex) (s : string) :
  forall skip,
    Str.contains (String l0 lab) s = false ->
    Str.contains (String l0 lab) (sub_go r (String r0 repl) s skip) = false.
Proof.
  induction s as [|a t IH]; intros skip A.
  - destruct skip; [|reflexivity]. cbn [sub_go].
    destruct (match_at r "") as [[rem cp]|]; [|reflexivity].
    cbn [String.length Nat.sub].
    rewrite <- (append_nil_r (String r0 repl)).
    rewrite contains_repl_app by exact label_head. reflexivity.
  - pose proof (contains_tail a t A) as At.
    destruct skip as [|k]; [|cbn [sub_go]; apply IH, At].
    assert (Keep : Str.contains (String l0 lab)
                     (String a (sub_go r (String r0 repl) t O)) = false).
    { cbn [Str.contains]. apply orb_false_iff. split; [|apply IH, At].
      destruct (Str.is_prefix (String l0 lab)
                  (String a (sub_go r (String r0 repl) t O))) eqn:P;
        [|reflexivity].
      exfalso. cbn [Str.is_prefix] in P. apply andb_prop in P as [E P].
      simpl in repl_head. apply andb_prop in repl_head as [_ Rl].
      pose proof (is_prefix_sub_go r lab t Rl P) as Q.
      cbn [Str.contains Str.is_prefix] in A. rewrite E, Q in A.
      discriminate A. }
    cbn [sub_go]. destruct (match_at r (String a t)) as [[rem cp]|];
      [|exact Keep].
    destruct (String.length (String a t) - rem)%nat;
      rewrite contains_repl_app by exact label_head;
      [exact Keep | apply IH, At].
Qed.

Lemma sub_keeps_absent (r : regex) (s : string) :
  Str.contains (String l0 lab) s = false ->
  Str.contains (String l0 lab) (sub r (String r0 repl) s) = false.
Proof. apply sub_go_keeps_absent. Qed.

End Label.

Lemma drop_app_length (s1 s2 : string) :
  Str.drop (String.length s1) (s1 ++ s2) = s2.
Proof. induction s1 as [|a s1 IH]; [destruct s2; reflexivity | exact IH]. Qed.

Lemma drop_0 (s : string) : Str.drop 0 s = s.
Proof. destruct s; reflexivity. Qed.

Lemma app_length (s1 s2 : string) :
  String.length (s1 ++ s2) = (String.length s1 + String.length s2)%nat.
Proof. induction s1; simpl; congruence. Qed.

Section SameShape.
(** A pattern all of whose matches have the shape of the replacement. *)
Variables (r : regex) (repl : string).
Hypothesis match_shape :
  forall s rem cp,
    match_at r s = Some (rem, cp) ->
    exists s1 s2, s = s1 ++ s2 /\ rem = String.length s2
                  /\ canon_str s1 = canon_str repl /\ s1 <> "".

Lemma sub_go_canon (s : string) :
  forall skip,
    (skip <= String.length s)%nat ->
    canon_str (sub_go r repl s skip) = canon_str (Str.drop skip s).
Proof.
  induction s as [|a t IH]; intros skip Hs.
  - cbn in Hs. assert (skip = O) by lia. subst skip. cbn [sub_go Str.drop].
    destruct (match_at r "") as [[rem cp]|] eqn:M; [|reflexivity].
    destruct (match_shape _ _ _ M) as (s1 & s2 & E & _ & _ & N).
    destruct s1; [congruence | discriminate E].
  - destruct skip as [|k]; [|cbn [sub_go Str.drop]; apply IH; cbn in Hs; lia].
    cbn [sub_go Str.drop].
    destruct (match_at r (String a t)) as [[rem cp]|] eqn:M.
    + destruct (match_shape _ _ _ M) as (s1 & s2 & E & -> & C & N).
      destruct s1 as [|b s1]; [congruence|].
      cbn [String.append] in E. injection E as <- ->.
      cbn [String.length]. rewrite app_length.
      replace (S (String.length s1 + String.length s2) - String.length s2)%nat
        with (S (String.length s1)) by lia.
      rewrite canon_str_app, IH by (rewrite app_length; lia).
      rewrite drop_app_length, <- C.
      change (String (canon a) (canon_str (s1 ++ s2)))
        with (canon_str (String a (s1 ++ s2))).
      change (String a (s1 ++ s2)) with (String a s1 ++ s2).
      rewrite canon_str_app. reflexivity.
    + cbn [canon_str]. rewrite IH by lia. rewrite drop_0. reflexivity.
Qed.

(** Such a substitution leaves the shape of the text as it was, and
    with it every search of a pattern that does not tell digits
    apart. *)
Lemma sub_canon (s : string) : canon_str (sub r repl s) = canon_str s.
Proof. unfold sub. rewrite sub_go_canon by lia. rewrite drop_0. reflexivity. Qed.

Lemma search_after_sub (p : regex) (s : string) :
  blind p = true -> search p s = None -> search p (sub r repl s) = None.
Proof.
  intros B H.
  pose proof (search_canon p (sub r repl s) B) as E.
  rewrite sub_canon, (search_canon p s B), H in E.
  destruct (search p (sub r repl s)); [discriminate E | reflexivity].
Qed.

End SameShape.

Lemma canon_digits (s : string) :
  Str.all_chars (mem Digit) s = true ->
  canon_str s = zeros (String.length s).
Proof.
  induction s as [|a t IH]; [reflexivity|]. cbn [Str.all_chars mem].
  intros H. apply andb_prop in H as [Ha Ht].
  cbn [canon_str String.length zeros]. rewrite (IH Ht).
  unfold canon. rewrite Ha. reflexivity.
Qed.

Lemma lang_chr (c : ascii) (s : string) :
  lang (One (Chr c)) s -> s = String c "".
Proof.
  intros (a & -> & M). cbn [mem] in M. apply Ascii.eqb_eq in M. congruence.
Qed.

Lemma lang_digits (n : nat) (s : string) :
  lang (Rep Digit n (Some n)) s -> canon_str s = zeros n.
Proof.
  intros (A & Lo & Hi). rewrite (canon_digits s A). f_equal. lia.
Qed.

(** Every match of the invoice-number pattern has the shape
    ["IN0000/0000-00"]. *)
Lemma invoice_number_match_shape (s : string) (rem : nat) (cp : caps) :
  match_at invoice_number_pattern s = Some (rem, cp) ->
  exists s1 s2, s = s1 ++ s2 /\ rem = String.length s2
                /\ canon_str s1 = "IN0000/0000-00" /\ s1 <> "".
Proof.
  intros M. destruct (match_at_sound _ _ _ _ M) as (s1 & s2 & E & L & R).
  exists s1, s2. split; [exact E|]. split; [exact R|].
  cbn [invoice_number_pattern seqs lit lang] in L.
  destruct L as (a1 & b1 & -> & (i & n & -> & Li & Ln) & L).
  destruct L as (d1 & b2 & -> & Ld1 & L).
  destruct L as (sl & b3 & -> & Lsl & L).
  destruct L as (d2 & b4 & -> & Ld2 & L).
  destruct L as (da & d3 & -> & Lda & Ld3).
  apply lang_chr in Li, Ln, Lsl, Lda. subst.
  apply lang_digits in Ld1, Ld2, Ld3.
  split; [|discriminate].
  rewrite !canon_str_app, Ld1, Ld2, Ld3. reflexivity.
Qed.

End SubFacts.

(** ** Calendar arithmetic *)

Module DateFacts.

Lemma days_in_month_bounds (y m : Z) : 28 <= days_in_month y m <= 31.
Proof.
  unfold days_in_month.
  destruct (m =? 2); [destruct (isleap y); lia|].
  destruct ((m =? 4) || (m =? 6) || (m =? 9) || (m =? 11)); lia.
Qed.

Lemma validb_early (y m n : Z) :
  1 <= y <= 9999 -> 1 <= m <= 12 -> 1 <= n <= 28 -> validb y m n = true.
Proof.
  intros Hy Hm Hn. pose proof (days_in_month_bounds y m) as B.
  unfold validb, MINYEAR, MAXYEAR.
  repeat (apply andb_true_intro; split); apply Z.leb_le; lia.
Qed.

(** Validity of a given date, by evaluation. *)
Ltac show_valid := vm_compute; repeat split; discriminate.

Lemma month_cases (m : Z) :
  1 <= m <= 12 ->
  m = 1 \/ m = 2 \/ m = 3 \/ m = 4 \/ m = 5 \/ m = 6 \/ m = 7 \/ m = 8
  \/ m = 9 \/ m = 10 \/ m = 11 \/ m = 12.
Proof. lia. Qed.

Ltac each_month H :=
  destruct (month_cases _ H)
    as [?|[?|[?|[?|[?|[?|[?|[?|[?|[?|[?|?]]]]]]]]]]]; subst.

Lemma replace_day_early (d : datetime) (n : Z) :
  valid d -> 1 <= n <= 28 ->
  replace_day d n = Some (DT (year d) (month d) n (tod d)).
Proof.
  intros (Hy & Hm & _) Hn. unfold replace_day.
  rewrite validb_early; [reflexivity| unfold MINYEAR, MAXYEAR in Hy; lia
                        | lia | lia].
Qed.

(** One month back: the preceding calendar month, the day cut down to
    the length of that month. *)
Lemma add_months_back (d : datetime) :
  valid d -> ~ (year d = 1 /\ month d = 1) ->
  let '(py, pm) := preceding_month (year d) (month d) in
  add_months d (-1) = Some (DT py pm (Z.min (days_in_month py pm) (day d)) (tod d))
  /\ 1 <= py <= 9999 /\ 1 <= pm <= 12.
Proof.
  intros (Hy & Hm & Hd) N. unfold MINYEAR, MAXYEAR in Hy.
  unfold preceding_month, add_months.
  destruct (Z.eqb_spec (month d) 1) as [E|E].
  - rewrite E. simpl. split; [|lia].
    unfold validb, MINYEAR, MAXYEAR. change (days_in_month (year d - 1) 12) with 31.
    repeat match goal with
           | |- context [?a <=? ?b] =>
               let H := fresh in
               assert (H : (a <=? b) = true) by (apply Z.leb_le; lia);
               rewrite H; clear H
           end.
    reflexivity.
  - replace (12 <? month d + -1) with false by lia.
    replace (month d + -1 <? 1) with false by lia.
    replace (month d + -1) with (month d - 1) by lia.
    pose proof (days_in_month_bounds (year d) (month d - 1)) as B.
    split; [|lia].
    unfold validb, MINYEAR, MAXYEAR.
    repeat match goal with
           | |- context [?a <=? ?b] =>
               let H := fresh in
               assert (H : (a <=? b) = true) by (apply Z.leb_le; lia);
               rewrite H; clear H
           end.
    reflexivity.
Qed.

(** One month on from the first of a month. *)
Lemma add_months_next (y m t : Z) :
  1 <= y <= 9999 -> 1 <= m <= 12 -> ~ (y = 9999 /\ m = 12) ->
  add_months (DT y m 1 t) 1
  = Some (if m =? 12 then DT (y + 1) 1 1 t else DT y (m + 1) 1 t).
Proof.
  intros Hy Hm N. unfold add_months. cbn [year month day tod].
  destruct (Z.eqb_spec m 12) as [E|E].
  - subst m. change (12 <? 12 + 1) with true. cbv iota.
    change (12 + 1 - 12) with 1. change (12 =? 12) with true. cbv iota.
    pose proof (days_in_month_bounds (y + 1) 1). rewrite Z.min_r by lia.
    rewrite validb_early by lia. reflexivity.
  - replace (12 <? m + 1) with false by lia.
    replace (m + 1 <? 1) with false by lia.
    pose proof (days_in_month_bounds y (m + 1)). rewrite Z.min_r by lia.
    rewrite validb_early by lia.
    replace (m =? 12) with false by lia. reflexivity.
Qed.

End DateFacts.

(** ** The values written into the invoice *)

Module FieldFacts.
Import DateFacts.

Lemma ordinal_7 : ordinal 7 = "7th". Proof. reflexivity. Qed.
Lemma ordinal_6 : ordinal 6 = "6th". Proof. reflexivity. Qed.
Lemma ordinal_1 : ordinal 1 = "1st". Proof. reflexivity. Qed.

Lemma append_assoc (a b c : string) : (a ++ b) ++ c = a ++ (b ++ c).
Proof. induction a; simpl; congruence. Qed.

Lemma make_service_period_text (d : datetime) :
  valid d -> ~ (year d = 1 /\ month d = 1) ->
  make_service_period d = Some (service_period_text d).
Proof.
  intros V N. pose proof (add_months_back d V N) as B.
  unfold make_service_period, service_period_text.
  destruct (preceding_month (year d) (month d)) as [py pm].
  destruct B as (-> & Hpy & Hpm).
  assert (Vp : valid (DT py pm (Z.min (days_in_month py pm) (day d)) (tod d))).
  { destruct V as (_ & _ & Hd). pose proof (days_in_month_bounds py pm).
    unfold valid, MINYEAR, MAXYEAR. cbn [year month day]. lia. }
  rewrite (replace_day_early _ 7 Vp) by lia.
  rewrite (replace_day_early d 6 V) by lia.
  unfold long_date, strftime_B_Y, strftime_Y. cbn [year month day].
  rewrite ordinal_7, ordinal_6. f_equal.
  rewrite !append_assoc. reflexivity.
Qed.

(** The last two characters of a year of two to five digits. *)
Lemma last2_str (n : Z) :
  10 <= n <= 10000 -> Str.last2 (Dec.str n) = Dec.str02 (n mod 100).
Proof.
  intros H.
  assert (C : 10 <= n <= 99 \/ 100 <= n <= 999 \/ 1000 <= n <= 9999 \/ n = 10000)
    by lia.
  assert (T : forall a b : Z, 0 <= a <= 9 -> 0 <= b <= 9 ->
              Dec.str02 (10 * a + b)
              = String (Dec.digit_char a) (String (Dec.digit_char b) "")).
  { intros a b Ha Hb. unfold Dec.str02.
    destruct (Z.eq_dec a 0) as [->|Na].
    - replace (10 * 0 + b) with b by lia.
      replace ((0 <=? b) && (b <? 10)) with true
        by (symmetry; apply andb_true_intro; split;
            [apply Z.leb_le | apply Z.ltb_lt]; lia).
      rewrite DecFacts.str_1 by lia. reflexivity.
    - replace ((0 <=? 10 * a + b) && (10 * a + b <? 10)) with false
        by (symmetry; apply andb_false_iff; right; apply Z.ltb_ge; lia).
      rewrite DecFacts.str_2 by lia. f_equal; [f_equal|f_equal; f_equal];
        DecFacts.zdiv. }
  destruct C as [C|[C|[C|C]]].
  - rewrite DecFacts.str_2 by exact C.
    unfold Str.last2. cbn [String.length Nat.sub Str.drop].
    rewrite <- (T (n / 10) (n mod 10)) by DecFacts.zdiv.
    f_equal. DecFacts.zdiv.
  - rewrite DecFacts.str_3 by exact C.
    unfold Str.last2. cbn [String.length Nat.sub Str.drop].
    rewrite <- (T (n / 10 mod 10) (n mod 10)) by DecFacts.zdiv.
    f_equal. DecFacts.zdiv.
  - rewrite DecFacts.str_4 by exact C.
    unfold Str.last2. cbn [String.length Nat.sub Str.drop].
    rewrite <- (T (n / 10 mod 10) (n mod 10)) by DecFacts.zdiv.
    f_equal. DecFacts.zdiv.
  - subst n. reflexivity.
Qed.

End FieldFacts.

(** ** The written values and the patterns *)

Module PatternFacts.
Import Re Shape ShapeFacts DateFacts FieldFacts.

Lemma get_financial_year_eq (d : datetime) :
  get_financial_year d
  = Dec.str (fy_start d) ++ "-" ++ Str.last2 (Dec.str (fy_end d)).
Proof.
  unfold get_financial_year, fy_end, fy_start.
  destruct (4 <=? month d); [reflexivity|].
  replace (year d - 1 + 1) with (year d) by lia. reflexivity.
Qed.

Lemma fy_start_bounds (d : datetime) :
  valid d -> year d - 1 <= fy_start d <= year d.
Proof. intros _. unfold fy_start. destruct (4 <=? month d); lia. Qed.

Lemma canon_financial_year (d : datetime) :
  valid d -> 1000 <= fy_start d ->
  canon_str (get_financial_year d) = "0000-00".
Proof.
  intros V H. pose proof (fy_start_bounds d V) as B.
  destruct V as (Hy & _). unfold MINYEAR, MAXYEAR in Hy.
  rewrite get_financial_year_eq, !canon_str_app.
  rewrite canon_str_4 by lia. unfold fy_end.
  rewrite canon_last2 by lia. reflexivity.
Qed.

Lemma canon_invoice_number (d : datetime) (r : Z) :
  valid d -> 1000 <= fy_start d -> 1000 <= r <= 9999 ->
  canon_str (make_invoice_number r (get_financial_year d)) = "IN0000/0000-00".
Proof.
  intros V H R. unfold make_invoice_number.
  rewrite !canon_str_app, canon_str_4, canon_financial_year by assumption.
  reflexivity.
Qed.




End PatternFacts.

(** ** Running the program *)

Module RunFacts.
Import DateFacts.

Lemma only_logs_refl (w : world) : only_logs w w.
Proof. repeat split. exists []. rewrite app_nil_r. reflexivity. Qed.

Lemma only_logs_trans (a b c : world) :
  only_logs a b -> only_logs b c -> only_logs a c.
Proof.
  intros (F1 & N1 & D1 & L1 & es1 & E1) (F2 & N2 & D2 & L2 & es2 & E2).
  repeat split; try congruence.
  exists (es1 ++ es2)%list. rewrite E2, E1, <- app_assoc. reflexivity.
Qed.

Lemma only_logs_add (w : world) (es : list event) : only_logs w (add_log w es).
Proof. repeat split. exists es. reflexivity. Qed.

Lemma find_latest_invoice_only_logs (w : world) :
  only_logs w (snd (find_latest_invoice w)).
Proof.
  unfold find_latest_invoice. destruct (glob_invoice (files w)); simpl.
  - apply only_logs_refl.
  - apply only_logs_add.
Qed.

Lemma find_latest_invoice_ok (w : world) :
  fst (find_latest_invoice w) <> Raised.
Proof.
  unfold find_latest_invoice. destruct (glob_invoice (files w)); discriminate.
Qed.

(** Extraction never raises: its own handler returns [None]. *)
Lemma extract_date_returns (f : file) (w : world) :
  exists r, fst (extract_date_from_latest_invoice f w) = Ok r
            /\ only_logs w (snd (extract_date_from_latest_invoice f w)).
Proof.
  unfold extract_date_from_latest_invoice, try_except, bind, of_option,
    logger, ret, raise.
  destruct (content f) as [doc|].
  - destruct (extract_loop (paragraphs doc)) as [es [d|]]; simpl.
    + exists (Some d). split; [reflexivity | apply only_logs_add].
    + exists None. split; [reflexivity|].
      eapply only_logs_trans; apply only_logs_add.
  - exists None. split; [reflexivity | apply only_logs_add].
Qed.

Lemma replace_day_first (d : datetime) :
  valid d -> replace_day d 1 = Some (DT (year d) (month d) 1 (tod d)).
Proof. intros V. apply replace_day_early; [exact V | lia]. Qed.

Lemma determine_invoice_date_only_logs (w : world) :
  only_logs w (snd (determine_invoice_date w)).
Proof.
  unfold determine_invoice_date, bind.
  pose proof (find_latest_invoice_only_logs w) as F.
  destruct (find_latest_invoice w) as [[[f|]|] w1]; cbn [snd] in F |- *;
    [|
     |exact F].
  - destruct (extract_date_returns f w1) as (r & E & O).
    destruct (extract_date_from_latest_invoice f w1) as [x w2].
    cbn [fst snd] in E, O. subst x.
    destruct r as [d|].
    + unfold of_option, logger, ret, raise.
      destruct (add_months d 1); cbn [snd].
      * eapply only_logs_trans; [exact F|].
        eapply only_logs_trans; [exact O | apply only_logs_add].
      * eapply only_logs_trans; eassumption.
    + unfold of_option, logger, ret, raise.
      destruct (replace_day (now w2) 1); cbn [snd].
      * eapply only_logs_trans; [exact F|].
        eapply only_logs_trans; [exact O | apply only_logs_add].
      * eapply only_logs_trans; eassumption.
  - unfold of_option, logger, ret, raise.
    destruct (replace_day (now w1) 1); cbn [snd].
    + eapply only_logs_trans; [exact F | apply only_logs_add].
    + exact F.
Qed.

End RunFacts.

(** ** The loops of the rewriter *)

Module RewriteFacts.

Lemma update_off (pattern : Re.regex) (repl text : string) :
  update false pattern repl text = (text, false).
Proof. reflexivity. Qed.

(** [update] reports a change exactly when it changed the text, and what
    it writes is the substitution of every match. *)
Lemma update_changed (cond : bool) (pattern : Re.regex) (repl text : string) :
  (snd (update cond pattern repl text) = true
   <-> fst (update cond pattern repl text) <> text)
  /\ (fst (update cond pattern repl text) = text
      \/ fst (update cond pattern repl text) = Re.sub pattern repl text).
Proof.
  unfold update. destruct cond; [|simpl; split; [split; [discriminate | congruence] | left; reflexivity]].
  destruct (Re.search pattern text);
    [|simpl; split; [split; [discriminate | congruence] | left; reflexivity]].
  cbn [fst snd]. split; [|right; reflexivity].
  destruct (String.eqb_spec text (Re.sub pattern repl text)) as [E|E]; simpl.
  - split; [discriminate | congruence].
  - split; [congruence | reflexivity].
Qed.

Lemma update_needs_cond (cond : bool) (pattern : Re.regex) (repl text : string) :
  snd (update cond pattern repl text) = true -> cond = true.
Proof. destruct cond; [reflexivity | discriminate]. Qed.

Lemma updates_of_app (f : field) (a b : list event) :
  updates_of f (a ++ b) = (updates_of f a + updates_of f b)%nat.
Proof. unfold updates_of. rewrite filter_app, length_app. reflexivity. Qed.

Lemma for_each_inv {A} (P : rw -> Prop) (body : rw -> A -> A * rw) :
  (forall st x, P st -> P (snd (body st x))) ->
  forall l st, P st -> P (snd (for_each body st l)).
Proof.
  intros B l. induction l as [|x rest IH]; intros st H; [exact H|].
  cbn [for_each]. specialize (B st x H).
  destruct (body st x) as [x' st1]. cbn [snd] in B.
  specialize (IH st1 B). destruct (for_each body st1 rest) as [rest' st2].
  exact IH.
Qed.

Ltac split_update :=
  match goal with
  | |- context [update ?c ?p ?r ?t] =>
      let ch := fresh "ch" in
      let t' := fresh "text" in
      let E := fresh "E" in
      pose proof (update_needs_cond c p r t) as E;
      destruct (update c p r t) as [t' ch]; cbn [snd] in E
  end.

Ltac cond_flags :=
  repeat match goal with
         | H : ?ch = true -> _ |- _ =>
             match ch with
             | true => specialize (H eq_refl)
             | false => clear H
             | _ => destruct ch
             end
         | H : _ && _ = true |- _ => apply andb_prop in H; destruct H
         | H : negb ?b = true |- _ => apply negb_true_iff in H
         end.

Lemma step_date_format1_count (v : fields) (st : rw) (text : string) :
  flags_count st -> flags_count (snd (step_date_format1 v st text)).
Proof.
  intros I. unfold step_date_format1. split_update. cbn [snd]. cond_flags;
    intros f; specialize (I f); destruct f; cbn [flag logged] in *;
    rewrite ?updates_of_app, ?I; cbn [note];
    repeat match goal with H : _ = false |- _ => rewrite H in * end;
    destruct st; cbn in *; repeat match goal with b : bool |- _ => destruct b end;
    try reflexivity; try discriminate.
Qed.

Lemma step_cell_paragraph_count (v : fields) (st : rw) (text : string) :
  flags_count st -> flags_count (snd (step_cell_paragraph v st text)).
Proof.
  intros I. unfold step_cell_paragraph. do 3 split_update. cbn [snd].
  cond_flags;
    intros f; specialize (I f); destruct f; cbn [flag logged] in *;
    rewrite ?updates_of_app, ?I; cbn [note];
    repeat match goal with H : _ = false |- _ => rewrite H in * end;
    destruct st; cbn in *; repeat match goal with b : bool |- _ => destruct b end;
    try reflexivity; try discriminate.
Qed.

Lemma step_paragraph_again_count (v : fields) (st : rw) (text : string) :
  flags_count st -> flags_count (snd (step_paragraph_again v st text)).
Proof.
  intros I. unfold step_paragraph_again. do 2 split_update. cbn [snd].
  cond_flags;
    intros f; specialize (I f); destruct f; cbn [flag logged] in *;
    rewrite ?updates_of_app, ?I; cbn [note];
    repeat match goal with H : _ = false |- _ => rewrite H in * end;
    destruct st; cbn in *; repeat match goal with b : bool |- _ => destruct b end;
    try reflexivity; try discriminate.
Qed.

Lemma rewrite_count (v : fields) (doc : document) :
  flags_count (snd (rewrite v doc)).
Proof.
  unfold rewrite.
  assert (I1 : flags_count (snd (for_each (step_date_format1 v) rw0 (paragraphs doc)))).
  { apply for_each_inv; [intros; apply step_date_format1_count; assumption|].
    intros f; destruct f; reflexivity. }
  destruct (for_each (step_date_format1 v) rw0 (paragraphs doc)) as [paras1 st1].
  cbn [snd] in I1.
  assert (I2 : flags_count
                 (snd (for_each (for_each (for_each (for_each (step_cell_paragraph v))))
                                st1 (tables doc)))).
  { apply for_each_inv; [|exact I1]. intros s0 x H0.
    apply for_each_inv; [|exact H0]. intros s1 y H1.
    apply for_each_inv; [|exact H1]. intros s2 z H2.
    apply for_each_inv; [|exact H2]. intros s3 p H3.
    apply step_cell_paragraph_count, H3. }
  destruct (for_each (for_each (for_each (for_each (step_cell_paragraph v))))
              st1 (tables doc)) as [tables2 st2]. cbn [snd] in I2.
  destruct (negb (invoice_number_updated st2) || negb (date_format2_updated st2)).
  - assert (I3 : flags_count (snd (for_each (step_paragraph_again v) st2 paras1))).
    { apply for_each_inv; [intros; apply step_paragraph_again_count; assumption|].
      exact I2. }
    destruct (for_each (step_paragraph_again v) st2 paras1). exact I3.
  - exact I2.
Qed.

(** Once a flag is set, its loop leaves the text alone. *)
Lemma for_each_frozen {A} (P : rw -> Prop) (body : rw -> A -> A * rw) :
  (forall st x, P st -> fst (body st x) = x /\ P (snd (body st x))) ->
  forall l st, P st -> fst (for_each body st l) = l /\ P (snd (for_each body st l)).
Proof.
  intros B l. induction l as [|x rest IH]; intros st H; [split; [reflexivity | exact H]|].
  cbn [for_each]. destruct (B st x H) as [E1 H1].
  destruct (body st x) as [x' st1]. cbn [fst snd] in E1, H1. subst x'.
  destruct (IH st1 H1) as [E2 H2].
  destruct (for_each body st1 rest) as [rest' st2]. cbn [fst snd] in *.
  subst rest'. split; [reflexivity | exact H2].
Qed.

Lemma step_date_format1_frozen (v : fields) (st : rw) (text : string) :
  date_format1_updated st = true ->
  fst (step_date_format1 v st text) = text
  /\ date_format1_updated (snd (step_date_format1 v st text)) = true.
Proof.
  intros F. unfold step_date_format1. rewrite F, andb_false_r, update_off.
  cbn. split; reflexivity.
Qed.

Lemma step_cell_paragraph_frozen (v : fields) (st : rw) (text : string) :
  all_set st ->
  fst (step_cell_paragraph v st text) = text
  /\ all_set (snd (step_cell_paragraph v st text)).
Proof.
  intros (F2 & Fi & Fs). unfold step_cell_paragraph.
  rewrite F2, Fi, Fs. cbn [negb]. rewrite !andb_false_r, !update_off.
  rewrite !andb_false_r, !update_off. cbn. repeat split.
Qed.

End RewriteFacts.

(** ** Reading the date of an invoice *)

Module ExtractFacts.
Import Re Shape ShapeFacts DateFacts FieldFacts.

Lemma day_cases (n : Z) :
  1 <= n <= 31 ->
  (n = 1 \/ n = 2 \/ n = 3 \/ n = 4 \/ n = 5 \/ n = 6 \/ n = 7 \/ n = 8)
  \/ (n = 9 \/ n = 10 \/ n = 11 \/ n = 12 \/ n = 13 \/ n = 14 \/ n = 15 \/ n = 16)
  \/ (n = 17 \/ n = 18 \/ n = 19 \/ n = 20 \/ n = 21 \/ n = 22 \/ n = 23 \/ n = 24)
  \/ (n = 25 \/ n = 26 \/ n = 27 \/ n = 28 \/ n = 29 \/ n = 30 \/ n = 31).
Proof. lia. Qed.

Ltac each_day H :=
  destruct (day_cases _ H)
    as [[?|[?|[?|[?|[?|[?|[?|?]]]]]]]
       |[[?|[?|[?|[?|[?|[?|[?|?]]]]]]]
        |[[?|[?|[?|[?|[?|[?|[?|?]]]]]]]
         |[?|[?|[?|[?|[?|[?|?]]]]]]]]]; subst.

Lemma has_suffix_word_canon (s : string) :
  has_suffix_word (canon_str s) = has_suffix_word s.
Proof.
  unfold has_suffix_word. rewrite !contains_canon by reflexivity. reflexivity.
Qed.

Lemma extract_guard_canon (s : string) :
  extract_guard (canon_str s) = extract_guard s.
Proof.
  unfold extract_guard. rewrite !contains_canon by reflexivity. reflexivity.
Qed.

(** Replace the ordinal and the month name of a given day and month by
    their texts. *)
Ltac eval_names :=
  repeat match goal with
         | |- context [ordinal ?n] =>
             let o := eval vm_compute in (ordinal n) in
             change (ordinal n) with o
         | |- context [month_name ?m] =>
             let o := eval vm_compute in (month_name m) in
             change (month_name m) with o
         end.

Section Year.
(** The four digits of a year. *)
Variables a b c e : ascii.
Hypothesis Ha : Str.is_digit a = true.
Hypothesis Hb : Str.is_digit b = true.
Hypothesis Hc : Str.is_digit c = true.
Hypothesis He : Str.is_digit e = true.

Local Abbreviation y4 := (String a (String b (String c (String e "")))).

Lemma canon_year_digit (x : ascii) : Str.is_digit x = true -> canon x = "0"%char.
Proof. intros H. unfold canon. rewrite H. reflexivity. Qed.

Lemma canon_year : canon_str y4 = "0000".
Proof.
  cbn [canon_str].
  rewrite (canon_year_digit a Ha), (canon_year_digit b Hb),
    (canon_year_digit c Hc), (canon_year_digit e He).
  reflexivity.
Qed.

(** The search of the extraction in a dated line finds the month name
    and the year. *)
Lemma search_dated_line (m n : Z) :
  1 <= m <= 12 -> 1 <= n <= 31 ->
  let text := "Date: " ++ ordinal n ++ " " ++ month_name m ++ " " ++ y4 in
  extract_guard text = true
  /\ exists mo, search extract_pattern text = Some mo
                /\ group mo 2 = month_name m /\ group mo 3 = y4.
Proof.
  intros Hm Hn text. subst text.
  each_month Hm; each_day Hn;
    (split;
     [rewrite <- extract_guard_canon, !canon_str_app, canon_year;
      vm_compute; reflexivity
     |]);
    (match goal with
     | |- exists mo, search _ ?s = Some mo /\ _ =>
         edestruct (search_shape extract_pattern s) as (mo & E & Sp & Tx)
     end;
     [reflexivity
     |rewrite !canon_str_app, canon_year; reflexivity
     |vm_compute; reflexivity
     |]);
    exists mo; (split; [exact E|]);
    destruct mo as [txt st en cp]; cbn [span m_start m_end m_caps m_text] in Sp, Tx;
    inversion Sp; subst; unfold group;
    cbn [m_caps m_text lookup Nat.eqb];
    split; vm_compute; reflexivity.
Qed.

(** A dated line is matched in full by the pattern of the long date
    and passes the label test of its loop; it has no slash and no
    invoice-number label. *)
Lemma match_dated_line (m n : Z) :
  1 <= m <= 12 -> 1 <= n <= 31 ->
  let text := "Date: " ++ ordinal n ++ " " ++ month_name m ++ " " ++ y4 in
  (exists cp, match_at date_format1_pattern text = Some (O, cp))
  /\ has_suffix_word text = true
  /\ Str.contains "Date:" text = true
  /\ Str.contains "/" text = false
  /\ Str.contains "Invoice No:" text = false.
Proof.
  intros Hm Hn text. subst text.
  each_month Hm; each_day Hn;
    (split;
     [rewrite <- (match_at_canon date_format1_pattern _ eq_refl),
        !canon_str_app, canon_year; vm_compute; eexists; reflexivity|]);
    (split;
     [rewrite <- has_suffix_word_canon, !canon_str_app, canon_year;
      vm_compute; reflexivity|]);
    repeat split;
    match goal with
    | |- Str.contains ?p ?s = _ =>
        rewrite <- (contains_canon p s eq_refl), !canon_str_app, canon_year;
        vm_compute; reflexivity
    end.
Qed.

Lemma strptime_day_one (tail : string) (cp : caps)
    (k : string -> caps -> option res) :
  run (Grp 1 strptime_d) (String "1" (String " " tail)) cp k
  = k (String " " tail)
      ((1%nat, (S (S (String.length tail)), S (String.length tail))) :: cp).
Proof.
  vm_compute. destruct (k _ _); reflexivity.
Qed.

Lemma run_seq (r1 r2 : regex) (s : string) (cp : caps)
    (k : string -> caps -> option res) :
  run (Seq r1 r2) s cp k = run r1 s cp (fun s' c' => run r2 s' c' k).
Proof. reflexivity. Qed.

(** [strptime] reads back the first of a month. *)
Lemma strptime_first_of_month (m : Z) :
  1 <= m <= 12 -> 1 <= Dec.int y4 <= 9999 ->
  strptime_d_B_Y ("1 " ++ month_name m ++ " " ++ y4)
  = Some (DT (Dec.int y4) m 1 0).
Proof.
  intros Hm Hy. unfold strptime_d_B_Y.
  assert (K : forall (t : string) (c' : caps),
             (fun s' c0 => Some (String.length s', c0)) t c'
             = (fun s' c0 => Some (String.length s', c0)) (canon_str t) c')
    by (intros; cbv beta; rewrite canon_str_length; reflexivity).
  each_month Hm;
    (match goal with
     | |- context [match_at strptime_regex ?s] =>
         eassert (MA : match_at strptime_regex s = _)
     end;
     [unfold match_at, strptime_regex; rewrite run_seq;
      match goal with
      | |- context [("1 " ++ ?t)%string] =>
          change ("1 " ++ t)%string with (String "1" (String " " t))
      end;
      rewrite strptime_day_one;
      match goal with
      | |- context [String " " ?t] =>
          change (String " " t) with (" " ++ t)%string
      end;
      rewrite (run_canon strptime_tail eq_refl _ _ _ _ K);
      rewrite !canon_str_app, canon_year; vm_compute; reflexivity
     |rewrite MA; clear MA]);
    match goal with
    | |- context [group ?M 2] =>
        let g := eval vm_compute in (group M 2) in
        replace (group M 2) with g by (vm_compute; reflexivity);
        replace (group M 3) with y4 by (vm_compute; reflexivity);
        replace (group M 1) with "1"%string by (vm_compute; reflexivity)
    end;
    match goal with
    | |- context [index_of ?w ?l ?i] =>
        let g := eval vm_compute in (index_of w l i) in
        replace (index_of w l i) with g by (vm_compute; reflexivity)
    end;
    cbv iota beta zeta; change (Dec.int (strip_space "1")) with 1;
    rewrite validb_early by lia; reflexivity.
Qed.

End Year.

Lemma extract_loop_skip (pre rest : list string) :
  (forall q, In q pre -> Str.contains "Date:" q = false) ->
  extract_loop (pre ++ rest) = extract_loop rest.
Proof.
  induction pre as [|q pre IH]; intros H; [reflexivity|].
  cbn [app extract_loop]. unfold extract_guard.
  rewrite (H q (or_introl eq_refl)). cbn [andb].
  apply IH. intros q' I. apply H. right. exact I.
Qed.

(** A dated line yields the first of its month, whatever its day. *)
Lemma extract_loop_dated_line (y m n : Z) (rest : list string) :
  1000 <= y <= 9999 -> 1 <= m <= 12 -> 1 <= n <= 31 ->
  extract_loop (dated_line y m n :: rest)
  = ([Extracted_date (DT y m 1 0)], Some (DT y m 1 0)).
Proof.
  intros Hy Hm Hn.
  pose proof (DecFacts.str_4 y Hy) as S4.
  pose proof (DecFacts.int_str_4 y Hy) as I4.
  assert (D : forall x, 0 <= x <= 9 -> Str.is_digit (Dec.digit_char x) = true)
    by apply DecFacts.is_digit_digit_char.
  pose proof (search_dated_line _ _ _ _
                (D (y / 1000) ltac:(DecFacts.zdiv))
                (D (y / 100 mod 10) ltac:(DecFacts.zdiv))
                (D (y / 10 mod 10) ltac:(DecFacts.zdiv))
                (D (y mod 10) ltac:(DecFacts.zdiv)) m n Hm Hn) as S.
  pose proof (strptime_first_of_month _ _ _ _
                (D (y / 1000) ltac:(DecFacts.zdiv))
                (D (y / 100 mod 10) ltac:(DecFacts.zdiv))
                (D (y / 10 mod 10) ltac:(DecFacts.zdiv))
                (D (y mod 10) ltac:(DecFacts.zdiv)) m Hm) as P.
  cbv zeta in S. rewrite <- S4 in S, P. rewrite I4 in P.
  destruct S as (G & mo & E & G2 & G3).
  cbn [extract_loop]. unfold dated_line. rewrite G, E, G2, G3, I4.
  rewrite P by lia. reflexivity.
Qed.

(** The derivation from a latest invoice whose first paragraph with
    "Date:" is a dated line. *)
Lemma determine_after_dated_line
    (w w1 : world) (f : file) (doc : document) (pre post : list string)
    (y m n : Z) :
  find_latest_invoice w = (Ok (Some f), w1) ->
  content f = Some doc ->
  paragraphs doc = (pre ++ dated_line y m n :: post)%list ->
  (forall q, In q pre -> Str.contains "Date:" q = false) ->
  1000 <= y <= 9999 -> 1 <= m <= 12 -> 1 <= n <= 31 ->
  ~ (y = 9999 /\ m = 12) ->
  fst (determine_invoice_date w) = Ok (first_of_next_month y m).
Proof.
  intros F C P Q Hy Hm Hn N.
  unfold determine_invoice_date, bind. rewrite F.
  unfold extract_date_from_latest_invoice, try_except, bind, of_option, ret.
  rewrite C, P, (extract_loop_skip pre _ Q).
  rewrite (extract_loop_dated_line y m n post Hy Hm Hn).
  unfold logger. cbn [fst snd].
  rewrite (add_months_next y m 0) by lia.
  unfold first_of_next_month. destruct (m =? 12); reflexivity.
Qed.

Lemma dated_line_facts (y m n : Z) :
  1000 <= y <= 9999 -> 1 <= m <= 12 -> 1 <= n <= 31 ->
  (exists cp, match_at date_format1_pattern (dated_line y m n) = Some (O, cp))
  /\ has_suffix_word (dated_line y m n) = true
  /\ Str.contains "Date:" (dated_line y m n) = true
  /\ Str.contains "/" (dated_line y m n) = false
  /\ Str.contains "Invoice No:" (dated_line y m n) = false.
Proof.
  intros Hy Hm Hn. unfold dated_line. rewrite (DecFacts.str_4 y Hy).
  apply match_dated_line; try assumption;
    apply DecFacts.is_digit_digit_char; DecFacts.zdiv.
Qed.

End ExtractFacts.

(** ** From one run to the next *)

Module RoundTripFacts.
Import Re Shape ShapeFacts SubFacts DateFacts FieldFacts ExtractFacts RewriteFacts.

Lemma lacks_app (x : ascii) (a b : string) :
  lacks x (a ++ b) = lacks x a && lacks x b.
Proof.
  unfold lacks. induction a as [|c a IH]; [reflexivity|].
  cbn [String.append Str.all_chars]. rewrite IH, andb_assoc. reflexivity.
Qed.

Lemma lacks_drop (x : ascii) (k : nat) (s : string) :
  lacks x s = true -> lacks x (Str.drop k s) = true.
Proof.
  revert s. induction k as [|k IH]; intros s H; [destruct s; exact H|].
  destruct s as [|c t]; [exact H|]. cbn [Str.drop]. apply IH.
  unfold lacks in H. cbn in H. apply andb_prop in H as [_ H]. exact H.
Qed.

Lemma lacks_digit (x : ascii) (d : Z) (s : string) :
  Str.is_digit x = false -> 0 <= d <= 9 -> lacks x s = true ->
  lacks x (String (Dec.digit_char d) s) = true.
Proof.
  intros X D H. unfold lacks in *. cbn [Str.all_chars]. rewrite H, andb_true_r.
  apply negb_true_iff, Ascii.eqb_neq. intros E.
  rewrite <- E, DecFacts.is_digit_digit_char in X by exact D. discriminate X.
Qed.

Lemma digits_lacks (x : ascii) (fuel : nat) :
  Str.is_digit x = false ->
  forall n acc, lacks x acc = true -> lacks x (Dec.digits fuel n acc) = true.
Proof.
  intros X. induction fuel as [|k IH]; intros n acc H; [exact H|].
  cbn [Dec.digits].
  assert (L : lacks x (String (Dec.digit_char (n mod 10)) acc) = true).
  { apply lacks_digit; [exact X | | exact H].
    pose proof (Z.mod_pos_bound n 10). lia. }
  destruct (n <? 10); [exact L | apply IH, L].
Qed.

(** A number in decimal has digits and at most a minus sign. *)
Lemma str_lacks (x : ascii) (n : Z) :
  Str.is_digit x = false -> x <> "-"%char -> lacks x (Dec.str n) = true.
Proof.
  intros X M. unfold Dec.str. destruct (n <? 0).
  - unfold lacks. cbn [Str.all_chars]. apply andb_true_intro. split.
    + apply negb_true_iff, Ascii.eqb_neq. congruence.
    + apply digits_lacks; [exact X | reflexivity].
  - apply digits_lacks; [exact X | reflexivity].
Qed.

Lemma financial_year_lacks (x : ascii) (d : datetime) :
  Str.is_digit x = false -> x <> "-"%char ->
  lacks x (get_financial_year d) = true.
Proof.
  intros X M. unfold get_financial_year, Str.last2.
  destruct (4 <=? month d); rewrite !lacks_app;
    rewrite !str_lacks, lacks_drop by (try apply str_lacks; assumption);
    cbn [lacks Str.all_chars andb]; rewrite !andb_true_r;
    apply negb_true_iff, Ascii.eqb_neq; congruence.
Qed.

(** The invoice number has no "D". *)
Lemma invoice_number_lacks_D (r : Z) (d : datetime) :
  lacks "D" (make_invoice_number r (get_financial_year d)) = true.
Proof.
  unfold make_invoice_number. rewrite !lacks_app.
  rewrite str_lacks, financial_year_lacks by (reflexivity || discriminate).
  reflexivity.
Qed.

Lemma for_each_app {A} (body : rw -> A -> A * rw) (l1 l2 : list A) :
  forall st,
    for_each body st (l1 ++ l2)
    = let '(a, s1) := for_each body st l1 in
      let '(b, s2) := for_each body s1 l2 in
      ((a ++ b)%list, s2).
Proof.
  induction l1 as [|x l1 IH]; intros st.
  - cbn. destruct (for_each body st l2); reflexivity.
  - cbn [app for_each]. destruct (body st x) as [x' st1]. rewrite IH.
    destruct (for_each body st1 l1) as [a s1].
    destruct (for_each body s1 l2) as [b s2]. reflexivity.
Qed.

Lemma for_each_forall {A} (P : A -> Prop) (body : rw -> A -> A * rw) :
  (forall st x, P x -> P (fst (body st x))) ->
  forall l st, (forall x, In x l -> P x) ->
               forall x, In x (fst (for_each body st l)) -> P x.
Proof.
  intros B l. induction l as [|y l IH]; intros st H x I; [destruct I|].
  cbn [for_each] in I. pose proof (B st y (H y (or_introl eq_refl))) as By.
  destruct (body st y) as [y' st1]. specialize (IH st1).
  destruct (for_each body st1 l) as [l' st2]. cbn [fst] in *.
  destruct I as [<-|I]; [exact By|].
  apply IH; [|exact I]. intros z Iz. apply H. right. exact Iz.
Qed.

Lemma rw_eta (st : rw) :
  RW (date_format1_updated st || false) (date_format2_updated st)
     (invoice_number_updated st) (service_period_updated st)
     (logged st ++ [])
  = st.
Proof. destruct st; cbn. rewrite orb_false_r, app_nil_r. reflexivity. Qed.

(** The first loop passes over a paragraph without "Date:". *)
Lemma step_date_format1_no_label (v : fields) (st : rw) (q : string) :
  Str.contains "Date:" q = false -> step_date_format1 v st q = (q, st).
Proof.
  intros H. unfold step_date_format1. rewrite H. cbn [andb].
  rewrite update_off. cbn [note]. rewrite rw_eta. reflexivity.
Qed.

Lemma for_each_date_format1_no_label (v : fields) (pre : list string) :
  (forall q, In q pre -> Str.contains "Date:" q = false) ->
  forall st, for_each (step_date_format1 v) st pre = (pre, st).
Proof.
  induction pre as [|q pre IH]; intros H st; [reflexivity|].
  cbn [for_each]. rewrite step_date_format1_no_label by (apply H; left; reflexivity).
  rewrite IH by (intros q' I; apply H; right; exact I). reflexivity.
Qed.

Lemma search_of_match_at (r : regex) (s : string) (rem : nat) (cp : caps) :
  match_at r s = Some (rem, cp) -> search r s <> None.
Proof.
  intros M. unfold search. destruct s; cbn [search_from]; rewrite M; discriminate.
Qed.

(** The first loop turns a dated line into the new dated line. *)
Lemma step_date_format1_dated (v : fields) (st : rw) (p : string) (cp : caps) :
  date_format1_updated st = false ->
  match_at date_format1_pattern p = Some (O, cp) ->
  has_suffix_word p = true -> Str.contains "Date:" p = true ->
  fst (step_date_format1 v st p) = "Date: " ++ date_format1 v.
Proof.
  intros F M W L. unfold step_date_format1, update. rewrite F, W, L.
  cbn [andb negb].
  pose proof (search_of_match_at _ _ _ _ M) as S.
  destruct (search date_format1_pattern p); [|congruence].
  cbn [fst]. apply (sub_full_match _ _ _ cp); [reflexivity | exact M|].
  intros ->. discriminate L.
Qed.

Section Written.
(** The values of a run: the invoice number starts with "I" and has no
    "D"; the new dated line has no slash and no invoice-number label. *)
Variable v : fields.
Variable number_rest : string.
Hypothesis number_head : invoice_number v = String "I" number_rest.
Hypothesis number_lacks : lacks "D" (invoice_number v) = true.
Hypothesis line_no_slash :
  Str.contains "/" ("Date: " ++ date_format1 v) = false.
Hypothesis line_no_number :
  Str.contains "Invoice No:" ("Date: " ++ date_format1 v) = false.

Lemma step_paragraph_again_no_label (st : rw) (q : string) :
  Str.contains "Date:" q = false ->
  Str.contains "Date:" (fst (step_paragraph_again v st q)) = false.
Proof.
  intros H. unfold step_paragraph_again.
  assert (H1 : Str.contains "Date:"
                 (fst (update (negb (invoice_number_updated st)
                               && Str.contains "Invoice No:" q)
                              invoice_number_pattern (invoice_number v) q))
               = false).
  { destruct (update_changed (negb (invoice_number_updated st)
                              && Str.contains "Invoice No:" q)
                invoice_number_pattern (invoice_number v) q) as (_ & [E|E]);
      rewrite E; [exact H|].
    rewrite number_head.
    apply (sub_keeps_absent "D" "I" "ate:" number_rest);
      [rewrite <- number_head; exact number_lacks | reflexivity | exact H]. }
  destruct (update _ invoice_number_pattern _ q) as [text1 ch1].
  cbn [fst] in H1. rewrite H1, andb_false_r. cbn [andb].
  rewrite update_off. exact H1.
Qed.

Lemma step_paragraph_again_line (st : rw) :
  fst (step_paragraph_again v st ("Date: " ++ date_format1 v))
  = "Date: " ++ date_format1 v.
Proof.
  unfold step_paragraph_again. rewrite line_no_number, andb_false_r.
  rewrite update_off, line_no_slash, !andb_false_r, update_off. reflexivity.
Qed.

(** After the run the new dated line is the first paragraph that
    contains "Date:". *)
Lemma rewrite_keeps_dated_line (tpl : document) (pre post : list string)
    (p : string) (cp : caps) :
  paragraphs tpl = (pre ++ p :: post)%list ->
  (forall q, In q pre -> Str.contains "Date:" q = false) ->
  match_at date_format1_pattern p = Some (O, cp) ->
  has_suffix_word p = true -> Str.contains "Date:" p = true ->
  exists pre' post',
    paragraphs (fst (rewrite v tpl))
    = (pre' ++ ("Date: " ++ date_format1 v)%string :: post')%list
    /\ forall q, In q pre' -> Str.contains "Date:" q = false.
Proof.
  intros P Q M W L. unfold rewrite. rewrite P, for_each_app.
  rewrite (for_each_date_format1_no_label v pre Q). cbn [for_each].
  pose proof (step_date_format1_dated v rw0 p cp eq_refl M W L) as S1.
  destruct (step_date_format1 v rw0 p) as [p1 st1]. cbn [fst] in S1. subst p1.
  destruct (for_each (step_date_format1 v) st1 post) as [post1 st1'].
  destruct (for_each (for_each (for_each (for_each (step_cell_paragraph v))))
                     st1' (tables tpl)) as [tables2 st2].
  destruct (negb (invoice_number_updated st2) || negb (date_format2_updated st2)).
  - rewrite for_each_app.
    pose proof (for_each_forall (fun q => Str.contains "Date:" q = false)
                  (step_paragraph_again v)
                  (fun st q => step_paragraph_again_no_label st q)
                  pre st2 Q) as Q'.
    destruct (for_each (step_paragraph_again v) st2 pre) as [pre' st3].
    cbn [for_each]. pose proof (step_paragraph_again_line st3) as S3.
    destruct (step_paragraph_again v st3 ("Date: " ++ date_format1 v))
      as [line st4].
    cbn [fst] in S3, Q'. subst line.
    destruct (for_each (step_paragraph_again v) st4 post1) as [post' st5].
    exists pre', post'. split; [reflexivity | exact Q'].
  - exists pre, post1. split; [reflexivity | exact Q].
Qed.

End Written.

End RoundTripFacts.

(** ** Numbers in decimal, in general *)

Module DecimalFacts.
Import Dec.

Lemma int_acc_app (x y : string) :
  forall a, int_acc (x ++ y) a = int_acc y (int_acc x a).
Proof. induction x as [|c x IH]; intros a; [reflexivity | apply IH]. Qed.

(** With enough fuel, [digits] puts the digits of [n] in front of what it
    was given: they are digits, and read back as [n]. *)
Lemma digits_spec (fuel : nat) :
  forall n acc,
    0 <= n < 10 ^ Z.of_nat fuel -> (0 < fuel)%nat ->
    exists ds,
      digits fuel n acc = ds ++ acc
      /\ ds <> ""
      /\ Str.all_chars Str.is_digit ds = true
      /\ forall a, int_acc ds a
                   = a * 10 ^ Z.of_nat (String.length ds) + n.
Proof.
  induction fuel as [|f IH]; intros n acc B F; [lia|].
  cbn [digits]. destruct (Z.ltb_spec n 10) as [Small|Large].
  - exists (String (digit_char (n mod 10)) ""). rewrite Z.mod_small by lia.
    split; [reflexivity|]. split; [discriminate|]. split.
    + cbn [Str.all_chars]. rewrite DecFacts.is_digit_digit_char by lia.
      reflexivity.
    + intros a. cbn [int_acc String.length].
      rewrite DecFacts.digit_val_digit_char by lia.
      change (10 ^ Z.of_nat 1) with 10. lia.
  - assert (F' : (0 < f)%nat).
    { destruct f; [|lia]. cbn in B. lia. }
    assert (B' : 0 <= n / 10 < 10 ^ Z.of_nat f).
    { rewrite Nat2Z.inj_succ, Z.pow_succ_r in B by lia.
      split; [apply Z.div_pos; lia|].
      apply Z.div_lt_upper_bound; lia. }
    destruct (IH (n / 10) (String (digit_char (n mod 10)) acc) B' F')
      as (ds & E & N & A & V).
    exists (ds ++ String (digit_char (n mod 10)) ""). split; [|split; [|split]].
    + rewrite E. symmetry. apply (FieldFacts.append_assoc ds (String _ "") acc).
    + destruct ds; discriminate.
    + clear - A. induction ds as [|c ds IHd].
      * cbn [Str.all_chars append].
        rewrite DecFacts.is_digit_digit_char; [reflexivity|].
        pose proof (Z.mod_pos_bound n 10). lia.
      * cbn [Str.all_chars append] in A |- *.
        apply andb_prop in A as [-> A]. apply IHd, A.
    + intros a. rewrite int_acc_app, V. cbn [int_acc].
      rewrite DecFacts.digit_val_digit_char
        by (pose proof (Z.mod_pos_bound n 10); lia).
      replace (String.length (ds ++ String (digit_char (n mod 10)) ""))
        with (S (String.length ds))
        by (rewrite SubFacts.app_length; cbn [String.length]; lia).
      rewrite Nat2Z.inj_succ, Z.pow_succ_r by lia.
      pose proof (Z.div_mod n 10). lia.
Qed.

Lemma str_spec (n : Z) :
  0 <= n ->
  Str.all_chars Str.is_digit (str n) = true /\ int (str n) = n /\ str n <> "".
Proof.
  intros H. unfold str. replace (n <? 0) with false by lia.
  assert (B : 0 <= n < 10 ^ Z.of_nat (S (Z.to_nat (Z.log2 n)))).
  { split; [exact H|]. destruct (Z.eq_dec n 0) as [->|N]; [reflexivity|].
    pose proof (Z.log2_spec n ltac:(lia)) as (_ & Up).
    pose proof (Z.log2_nonneg n).
    rewrite Nat2Z.inj_succ, Z2Nat.id by lia.
    eapply Z.lt_le_trans; [exact Up|].
    apply Z.pow_le_mono_l. lia. }
  destruct (digits_spec _ n "" B ltac:(lia)) as (ds & E & N & A & V).
  rewrite E.
  rewrite SubFacts.append_nil_r.
  split; [exact A|]. split; [|exact N]. unfold int. rewrite V. lia.
Qed.

(** Writing a number and reading it back gives the number, so different
    numbers are written differently. *)
Lemma str_injective (a b : Z) : 0 <= a -> 0 <= b -> str a = str b -> a = b.
Proof.
  intros A B E. destruct (str_spec a A) as (_ & Ia & _).
  destruct (str_spec b B) as (_ & Ib & _). congruence.
Qed.

End DecimalFacts.

(** ** Lower case and file names *)

Module NameFacts.
Import DecimalFacts.

Lemma digit_is_not_upper (c : ascii) :
  Str.is_digit c = true -> Str.lower_char c = c.
Proof.
  destruct c as [[] [] [] [] [] [] [] []]; try discriminate; reflexivity.
Qed.

Lemma lower_digits (s : string) :
  Str.all_chars Str.is_digit s = true -> Str.lower s = s.
Proof.
  induction s as [|c s IH]; [reflexivity|]. cbn [Str.all_chars Str.lower].
  intros H. apply andb_prop in H as [C S].
  rewrite (digit_is_not_upper c C), (IH S). reflexivity.
Qed.

Lemma lower_app (a b : string) :
  Str.lower (a ++ b) = Str.lower a ++ Str.lower b.
Proof. induction a as [|c a IH]; cbn; [reflexivity | rewrite IH; reflexivity]. Qed.

Lemma append_cancel_r (c : string) :
  forall a b, a ++ c = b ++ c -> a = b.
Proof.
  induction a as [|x a IH]; intros [|y b] E.
  - reflexivity.
  - exfalso. apply (f_equal String.length) in E.
    cbn [append] in E. cbn [String.length] in E.
    rewrite SubFacts.app_length in E. lia.
  - exfalso. apply (f_equal String.length) in E.
    cbn [append] in E. cbn [String.length] in E.
    rewrite SubFacts.app_length in E. lia.
  - cbn [append] in E. injection E as -> E. f_equal. apply IH, E.
Qed.

(** Two texts of digits followed by the same mark, which is no digit,
    are the same digits. *)
Lemma digits_before_mark (m : ascii) (a : string) :
  Str.is_digit m = false ->
  forall b x y,
    Str.all_chars Str.is_digit a = true ->
    Str.all_chars Str.is_digit b = true ->
    a ++ String m x = b ++ String m y -> a = b /\ x = y.
Proof.
  intros M. induction a as [|c a IH]; intros [|e b] x y A B E;
    cbn [append Str.all_chars] in *.
  - injection E as E. split; [reflexivity | exact E].
  - injection E as E _. subst e. apply andb_prop in B as [B _]. congruence.
  - injection E as E _. subst c. apply andb_prop in A as [A _]. congruence.
  - injection E as -> E. apply andb_prop in A as [_ A].
    apply andb_prop in B as [_ B].
    destruct (IH b x y A B E) as [-> ->]. split; reflexivity.
Qed.

Lemma get_financial_year_start (d : datetime) :
  get_financial_year d
  = Dec.str (fy_start d) ++ "-" ++ Str.last2 (Dec.str (fy_start d + 1)).
Proof.
  unfold get_financial_year, fy_start. destruct (4 <=? month d);
    [reflexivity|]. replace (year d - 1 + 1) with (year d) by lia.
  reflexivity.
Qed.

Lemma month_part (m1 m2 : Z) (x y : string) :
  1 <= m1 <= 12 -> 1 <= m2 <= 12 ->
  Str.lower (month_name m1) ++ String "_" x
  = Str.lower (month_name m2) ++ String "_" y ->
  m1 = m2 /\ x = y.
Proof.
  intros H1 H2.
  assert (C1 : m1 = 1 \/ m1 = 2 \/ m1 = 3 \/ m1 = 4 \/ m1 = 5 \/ m1 = 6
               \/ m1 = 7 \/ m1 = 8 \/ m1 = 9 \/ m1 = 10 \/ m1 = 11
               \/ m1 = 12) by lia.
  assert (C2 : m2 = 1 \/ m2 = 2 \/ m2 = 3 \/ m2 = 4 \/ m2 = 5 \/ m2 = 6
               \/ m2 = 7 \/ m2 = 8 \/ m2 = 9 \/ m2 = 10 \/ m2 = 11
               \/ m2 = 12) by lia.
  clear H1 H2.
  repeat (destruct C1 as [C1|C1]); subst m1;
    repeat (destruct C2 as [C2|C2]); subst m2;
    cbn; intros E; first [discriminate E | (injection E as E; auto)].
Qed.

End NameFacts.

(** ** Month names in any case *)

Module CaseFacts.
Import Re Shape ShapeFacts DateFacts ExtractFacts NameFacts.









End CaseFacts.

(** ** The date of the latest invoice, in general *)

Module LatestFacts.
Import Re DateFacts ExtractFacts CaseFacts.




(** *** Dated texts *)








End LatestFacts.

(** ** Templates with only some of the regions *)

Module PartialFacts.
Import Re Shape ShapeFacts LangFacts SubFacts DateFacts FieldFacts PatternFacts
  RewriteFacts RoundTripFacts.

Lemma for_each_inv_in {A} (P : rw -> Prop) (body : rw -> A -> A * rw)
    (l : list A) :
  (forall st x, In x l -> P st -> P (snd (body st x))) ->
  forall st, P st -> P (snd (for_each body st l)).
Proof.
  induction l as [|x rest IH]; intros B st H; [exact H|].
  cbn [for_each]. pose proof (B st x (or_introl eq_refl) H) as Hx.
  destruct (body st x) as [x' st1]. cbn [snd] in Hx.
  assert (Hr : P (snd (for_each body st1 rest)))
    by (apply IH; [intros s y I; apply B; right; exact I | exact Hx]).
  destruct (for_each body st1 rest) as [rest' st2]. exact Hr.
Qed.

(** A loop whose steps change an element only when they set a flag that
    stays set: if the flag is not set at the end, nothing was changed, and
    every element has the property [Q] that a step without effect shows. *)
Lemma for_each_unchanged {A} (P : rw -> Prop) (fl : rw -> bool)
    (Q : A -> Prop) (body : rw -> A -> A * rw) (l : list A) :
  (forall st x, In x l -> P st ->
     P (snd (body st x))
     /\ (fl st = true -> fl (snd (body st x)) = true)
     /\ (fl (snd (body st x)) = false -> fst (body st x) = x /\ Q x)) ->
  forall st, P st ->
    P (snd (for_each body st l))
    /\ (fl st = true -> fl (snd (for_each body st l)) = true)
    /\ (fl (snd (for_each body st l)) = false ->
        fst (for_each body st l) = l /\ forall x, In x l -> Q x).
Proof.
  induction l as [|x rest IH]; intros B st H.
  - cbn. repeat split; auto. intros x [].
  - cbn [for_each].
    destruct (B st x (or_introl eq_refl) H) as (Hx & Mx & Ux).
    destruct (body st x) as [x' st1]. cbn [fst snd] in Hx, Mx, Ux.
    destruct (IH (fun s y I => B s y (or_intror I)) st1 Hx) as (Hr & Mr & Ur).
    destruct (for_each body st1 rest) as [rest' st2]. cbn [fst snd] in *.
    split; [exact Hr|]. split; [auto|].
    intros F. destruct (Ur F) as (-> & Qr).
    assert (F1 : fl st1 = false).
    { destruct (fl st1) eqn:E; [|reflexivity]. rewrite (Mr eq_refl) in F.
      discriminate F. }
    destruct (Ux F1) as (-> & Qx). split; [reflexivity|].
    intros y [<-|I]; [exact Qx | apply Qr, I].
Qed.

Lemma contains_app_self (x y : string) : Str.contains x (x ++ y) = true.
Proof.
  assert (Q : Str.is_prefix x (x ++ y) = true).
  { induction x as [|c x IHx]; [destruct y; reflexivity|]. cbn.
    rewrite Ascii.eqb_refl. exact IHx. }
  destruct (x ++ y); cbn [Str.contains]; rewrite Q; reflexivity.
Qed.

Lemma sub_go_contains (r : regex) (repl s : string) :
  forall whole, search_from r whole s <> None ->
  Str.contains repl (sub_go r repl s O) = true.
Proof.
  induction s as [|a t IH]; intros whole H.
  - cbn [search_from sub_go] in *.
    destruct (match_at r "") as [[rem cp]|]; [|congruence].
    cbn [String.length Nat.sub].
    rewrite <- (append_nil_r repl) at 2. apply contains_app_self.
  - cbn [search_from sub_go] in *.
    destruct (match_at r (String a t)) as [[rem cp]|].
    + destruct (String.length (String a t) - rem)%nat; apply contains_app_self.
    + cbn [Str.contains]. rewrite (IH whole H). apply orb_true_r.
Qed.

(** A substitution that finds a match writes the replacement. *)
Lemma sub_contains (r : regex) (repl s : string) :
  search r s <> None -> Str.contains repl (sub r repl s) = true.
Proof. intros H. apply (sub_go_contains r repl s s H). Qed.

Section NumberOnly.
(** The values of a run whose invoice number has the usual shape. *)
Variable v : fields.
Variable number_rest : string.
Hypothesis number_head : invoice_number v = String "I" number_rest.
Hypothesis number_lacks : lacks "D" (invoice_number v) = true.
Hypothesis number_shape : canon_str (invoice_number v) = "IN0000/0000-00".

Local Abbreviation fl := invoice_number_updated.
Local Abbreviation carries := (carries_number v).

(** What the update of the invoice number leaves of a paragraph without
    "Date:" and without a service period. *)
Lemma update_number_keeps (cond : bool) (q : string) :
  Str.contains "Date:" q = false ->
  Str.contains "Date:"
    (fst (update cond invoice_number_pattern (invoice_number v) q)) = false
  /\ (has_region Service q = false ->
      has_region Service
        (fst (update cond invoice_number_pattern (invoice_number v) q))
      = false).
Proof.
  intros H.
  destruct (update_changed cond invoice_number_pattern (invoice_number v) q)
    as (_ & [E|E]); rewrite E; [split; [exact H | auto]|].
  split.
  - rewrite number_head.
    apply (sub_keeps_absent "D" "I" "ate:" number_rest);
      [rewrite <- number_head; exact number_lacks | reflexivity | exact H].
  - unfold has_region. intros S.
    rewrite (search_after_sub invoice_number_pattern (invoice_number v));
      [reflexivity | | reflexivity |].
    + intros s rem cp M. rewrite number_shape.
      apply (invoice_number_match_shape s rem cp M).
    + destruct (search service_period_pattern q); [discriminate S | reflexivity].
Qed.

(** An update of the invoice number that reports no change, although
    the flag was not set, met a paragraph that has no region or carries
    the new number already. *)
Lemma update_number_idle (q : string) :
  snd (update (Str.contains "Invoice No:" q)
              invoice_number_pattern (invoice_number v) q) = false ->
  fst (update (Str.contains "Invoice No:" q)
              invoice_number_pattern (invoice_number v) q) = q
  /\ carries q.
Proof.
  unfold update, carries_number, has_region.
  destruct (Str.contains "Invoice No:" q); [|cbn; intros _; split; congruence].
  pose proof (sub_contains invoice_number_pattern (invoice_number v) q) as C.
  destruct (search invoice_number_pattern q);
    [|cbn; intros _; split; congruence].
  cbn [fst snd andb]. intros E. apply negb_false_iff, String.eqb_eq in E.
  rewrite <- E in *. split; [reflexivity|]. intros _. apply C. discriminate.
Qed.

Lemma step_cell_paragraph_number_only (st : rw) (q : string) :
  Str.contains "Date:" q = false -> has_region Service q = false ->
  others_unset st ->
  others_unset (snd (step_cell_paragraph v st q))
  /\ (fl st = true -> fl (snd (step_cell_paragraph v st q)) = true)
  /\ (fl (snd (step_cell_paragraph v st q)) = false ->
      fst (step_cell_paragraph v st q) = q /\ carries q).
Proof.
  intros D S (F1 & F2 & Fs). unfold step_cell_paragraph.
  destruct st as [f1 f2 fi fs lg].
  cbn [date_format1_updated date_format2_updated invoice_number_updated
       service_period_updated logged] in *.
  subst f1 f2 fs.
  destruct (update_number_keeps
              (Str.contains "Invoice No:" q && negb fi) q D) as (D1 & S1).
  specialize (S1 S).
  pose proof (update_number_idle q) as Idle.
  destruct fi; cbn [negb] in *;
    [rewrite andb_false_r in *|rewrite andb_true_r in *].
  - rewrite update_off in *. cbn [fst snd] in *. rewrite D. cbn [andb].
    rewrite update_off. unfold update, has_region in *. cbn [negb].
    destruct (search service_period_pattern q); [discriminate S|].
    cbn [fst snd invoice_number_updated orb].
    split; [repeat split|]. split; [reflexivity | discriminate].
  - destruct (update _ invoice_number_pattern (invoice_number v) q)
      as [text1 ch1]. cbn [fst snd] in D1, S1, Idle.
    rewrite D1. cbn [andb]. rewrite update_off.
    unfold has_region in S1. unfold update. cbn [negb].
    destruct (search service_period_pattern text1); [discriminate S1|].
    cbn [fst snd invoice_number_updated orb].
    split; [repeat split|]. split; [discriminate | exact Idle].
Qed.

Lemma step_paragraph_again_number_only (st : rw) (q : string) :
  Str.contains "Date:" q = false ->
  others_unset st ->
  others_unset (snd (step_paragraph_again v st q))
  /\ (fl st = true -> fl (snd (step_paragraph_again v st q)) = true)
  /\ (fl (snd (step_paragraph_again v st q)) = false ->
      fst (step_paragraph_again v st q) = q /\ carries q).
Proof.
  intros D (F1 & F2 & Fs). unfold step_paragraph_again.
  destruct st as [f1 f2 fi fs lg].
  cbn [date_format1_updated date_format2_updated invoice_number_updated
       service_period_updated logged] in *.
  subst f1 f2 fs.
  destruct (update_number_keeps
              (negb fi && Str.contains "Invoice No:" q) q D) as (D1 & _).
  pose proof (update_number_idle q) as Idle.
  destruct fi; cbn [negb andb] in *.
  - rewrite update_off in *. cbn [fst snd] in *. rewrite D. cbn [andb].
    rewrite update_off.
    cbn [fst snd invoice_number_updated orb].
    split; [repeat split|]. split; [reflexivity | discriminate].
  - destruct (update _ invoice_number_pattern (invoice_number v) q)
      as [text1 ch1]. cbn [fst snd] in D1, Idle.
    rewrite D1. cbn [andb]. rewrite update_off.
    cbn [fst snd invoice_number_updated orb].
    split; [repeat split|]. split; [discriminate | exact Idle].
Qed.

(** On a template with an invoice number only, the other three flags
    stay unset; and if the flag of the invoice number is not set either,
    the document is unchanged and every invoice-number region in it
    carries the new number already. *)
Lemma rewrite_number_only (tpl : document) :
  invoice_number_only tpl ->
  others_unset (snd (rewrite v tpl))
  /\ (invoice_number_updated (snd (rewrite v tpl)) = false ->
      fst (rewrite v tpl) = tpl
      /\ forall q, In q (cell_paragraphs tpl ++ paragraphs tpl)%list ->
                   has_region Invoice_no q = true ->
                   Str.contains (invoice_number v) q = true).
Proof.
  intros (HP & HC). unfold rewrite.
  rewrite (for_each_date_format1_no_label v (paragraphs tpl) HP).
  assert (T : others_unset rw0) by (repeat split).
  assert (L2 : forall tbls st,
             (forall q, In q (List.concat (List.concat (List.concat tbls))) ->
                        Str.contains "Date:" q = false
                        /\ has_region Service q = false) ->
             others_unset st ->
             let out := for_each (for_each (for_each (for_each
                          (step_cell_paragraph v)))) st tbls in
             others_unset (snd out)
             /\ (fl st = true -> fl (snd out) = true)
             /\ (fl (snd out) = false ->
                 fst out = tbls
                 /\ forall t, In t tbls -> forall row, In row t ->
                    forall cl, In cl row -> forall q, In q cl -> carries q)).
  { intros tbls st H U. cbv zeta.
    apply (for_each_unchanged others_unset fl); [|exact U].
    intros s1 t It U1.
    apply (for_each_unchanged others_unset fl); [|exact U1].
    intros s2 row Ir U2.
    apply (for_each_unchanged others_unset fl); [|exact U2].
    intros s3 cl Ic U3.
    apply (for_each_unchanged others_unset fl); [|exact U3].
    intros s4 q Iq U4.
    assert (I : In q (List.concat (List.concat (List.concat tbls)))).
    { apply in_concat. exists cl. split; [|exact Iq].
      apply in_concat. exists row. split; [|exact Ic].
      apply in_concat. exists t. split; assumption. }
    destruct (H q I) as (D & S).
    apply step_cell_paragraph_number_only; assumption. }
  specialize (L2 (tables tpl) rw0 HC T). cbv zeta in L2.
  destruct (for_each (for_each (for_each (for_each (step_cell_paragraph v))))
                     rw0 (tables tpl)) as [tables2 st2].
  cbn [fst snd] in L2. destruct L2 as (U2 & _ & K2).
  assert (Cells : fl st2 = false ->
            forall q, In q (cell_paragraphs tpl) -> carries q).
  { intros F q I. destruct (K2 F) as (_ & K).
    unfold cell_paragraphs in I.
    apply in_concat in I as (cl & I & Iq).
    apply in_concat in I as (row & I & Ic).
    apply in_concat in I as (t & It & Ir).
    exact (K t It row Ir cl Ic q Iq). }
  pose proof (for_each_unchanged others_unset fl carries
                (step_paragraph_again v) (paragraphs tpl)
                (fun st q I U =>
                   step_paragraph_again_number_only st q (HP q I) U)
                st2 U2) as (U3 & M3 & K3).
  destruct (negb (invoice_number_updated st2) || negb (date_format2_updated st2))
    eqn:Again.
  - destruct (for_each (step_paragraph_again v) st2 (paragraphs tpl))
      as [paras3 st3]. cbn [fst snd] in *. split; [exact U3|].
    intros F. destruct (K3 F) as (-> & Qp).
    destruct (invoice_number_updated st2) eqn:E;
      [rewrite (M3 eq_refl) in F; discriminate F|].
    destruct (K2 eq_refl) as (-> & _). split; [destruct tpl; reflexivity|].
    intros q I. apply in_app_or in I as [I|I];
      [apply (Cells eq_refl), I | apply Qp, I].
  - cbn [fst snd]. split; [exact U2|]. intros F. exfalso.
    destruct U2 as (_ & F2 & _). rewrite F, F2 in Again.
    discriminate Again.
Qed.

End NumberOnly.

(** The steps after the first loop do not touch the flag of the long
    date. *)
Lemma step_cell_paragraph_date_format1 (v : fields) (st : rw) (q : string) :
  date_format1_updated (snd (step_cell_paragraph v st q))
  = date_format1_updated st.
Proof.
  unfold step_cell_paragraph.
  destruct (update _ invoice_number_pattern _ q) as [t1 c1].
  destruct (update _ date_format2_pattern _ t1) as [t2 c2].
  destruct (update _ service_period_pattern _ t2) as [t3 c3]. reflexivity.
Qed.

Lemma step_paragraph_again_date_format1 (v : fields) (st : rw) (q : string) :
  date_format1_updated (snd (step_paragraph_again v st q))
  = date_format1_updated st.
Proof.
  unfold step_paragraph_again.
  destruct (update _ invoice_number_pattern _ q) as [t1 c1].
  destruct (update _ date_format2_pattern _ t1) as [t2 c2]. reflexivity.
Qed.

(** Without a region for the long date in a top-level paragraph, its flag
    is not set. *)
Lemma rewrite_no_long_date (v : fields) (tpl : document) :
  (forall p, In p (paragraphs tpl) -> has_region Long_date p = false) ->
  date_format1_updated (snd (rewrite v tpl)) = false.
Proof.
  intros H. unfold rewrite.
  assert (L1 : date_format1_updated
                 (snd (for_each (step_date_format1 v) rw0 (paragraphs tpl)))
               = false).
  { apply (for_each_inv_in (fun st => date_format1_updated st = false));
      [|reflexivity].
    intros st p I F. specialize (H p I). unfold has_region in H.
    unfold step_date_format1, update. rewrite F. cbn [negb].
    rewrite andb_true_r.
    destruct (Str.contains "Date:" p && has_suffix_word p);
      [|reflexivity].
    cbn [andb] in H.
    destruct (search date_format1_pattern p); [discriminate H | reflexivity]. }
  destruct (for_each (step_date_format1 v) rw0 (paragraphs tpl)) as [paras1 st1].
  cbn [snd] in L1.
  assert (L2 : date_format1_updated
                 (snd (for_each (for_each (for_each (for_each
                         (step_cell_paragraph v)))) st1 (tables tpl))) = false).
  { apply (for_each_inv (fun st => date_format1_updated st = false));
      [|exact L1]. intros s1 t H1.
    apply (for_each_inv (fun st => date_format1_updated st = false));
      [|exact H1]. intros s2 row H2.
    apply (for_each_inv (fun st => date_format1_updated st = false));
      [|exact H2]. intros s3 cl H3.
    apply (for_each_inv (fun st => date_format1_updated st = false));
      [|exact H3]. intros s4 q H4.
    rewrite step_cell_paragraph_date_format1. exact H4. }
  destruct (for_each (for_each (for_each (for_each (step_cell_paragraph v))))
                     st1 (tables tpl)) as [tables2 st2]. cbn [snd] in L2.
  destruct (negb (invoice_number_updated st2) || negb (date_format2_updated st2));
    [|exact L2].
  assert (L3 : date_format1_updated
                 (snd (for_each (step_paragraph_again v) st2 paras1)) = false).
  { apply (for_each_inv (fun st => date_format1_updated st = false));
      [|exact L2]. intros s q Hs.
    rewrite step_paragraph_again_date_format1. exact Hs. }
  destruct (for_each (step_paragraph_again v) st2 paras1). exact L3.
Qed.

Lemma warnings_iff (st : rw) (f : field) :
  flag f st = false <-> In (warning_of f) (warnings st).
Proof.
  unfold warnings. destruct st as [f1 f2 fi fs lg].
  destruct f, f1, f2, fi, fs; cbn; intuition congruence.
Qed.

(** A run whose template loads and whose output can be written saves the
    rewritten document under the name made from the invoice date, and
    logs the warnings of the flags that are not set. *)
Lemma auto_update_invoice_saves (template_name : string) (w w1 : world)
    (tpl : document) (d : datetime) (v : fields) :
  fst (load template_name w) = Ok tpl ->
  determine_invoice_date w = (Ok d, w1) ->
  make_fields d (draw w) = Some v ->
  locked w (output_name d) = false ->
  exists w',
    auto_update_invoice template_name w = (Ok (Some (output_name d)), w')
    /\ (exists t, In (File (output_name d) t (Some (fst (rewrite v tpl))))
                    (files w'))
    /\ (forall e, In e (warnings (snd (rewrite v tpl))) -> In e (log w')).
Proof.
  intros L D MF K.
  pose proof (RunFacts.determine_invoice_date_only_logs w) as O.
  rewrite D in O. cbn [snd] in O. destruct O as (_ & _ & Dr & Lk & _).
  assert (L' : load template_name w = (Ok tpl, w)).
  { unfold load in *. destruct (find _ (files w)) as [f|]; [|discriminate L].
    unfold of_option, ret, raise in *. destruct (content f); [|discriminate L].
    cbn [fst] in L. congruence. }
  unfold auto_update_invoice, try_except, bind. rewrite L', D.
  unfold the_draw, of_option, ret, logger. rewrite Dr, MF.
  destruct (rewrite v tpl) as [doc' st]. unfold save.
  cbn [locked add_log]. rewrite Lk, K.
  eexists. split; [reflexivity|]. split.
  - eexists. cbn [files set_files add_log]. apply in_or_app. right. left.
    reflexivity.
  - intros e I. cbn [log set_files add_log fst snd] in *.
    apply in_or_app. left. apply in_or_app. right.
    apply in_or_app. right. exact I.
Qed.

End PartialFacts.

(** ** The loops as passes *)

Module PassFacts.

Lemma has_region_label (f : field) (text : string) :
  has_region f text
  = label_test f text
    && match Re.search (pattern_of f) text with
       | Some _ => true
       | None => false
       end.
Proof. destruct f; reflexivity. Qed.

(** The body shared by the fields is a try of the field. *)
Lemma update_field (f : field) (v : fields) (on : bool) (text : string) :
  update (label_test f text && on) (pattern_of f) (value_of f v) text
  = try_field f v on text.
Proof.
  unfold try_field, changes, substituted, update. rewrite has_region_label.
  destruct (label_test f text), on; try reflexivity.
  cbn [andb]. destruct (Re.search (pattern_of f) text); [|reflexivity].
  destruct (String.eqb_spec text (Re.sub (pattern_of f) (value_of f v) text))
    as [E|E]; cbn [negb]; [rewrite <- E|]; reflexivity.
Qed.

Lemma try_field_off (f : field) (v : fields) (text : string) :
  try_field f v false text = (text, false).
Proof. reflexivity. Qed.

Lemma try_field_on (f : field) (v : fields) (text : string) :
  try_field f v true text
  = if changes f v text then (substituted f v text, true) else (text, false).
Proof. reflexivity. Qed.

(** *** One pass *)

Lemma pass_cons (f : field) (v : fields) (on : bool) (q : string)
    (rest : list string) :
  pass f v on (q :: rest)
  = let '(q', c) := try_field f v on q in
    let '(rest', h) := pass f v (on && negb c) rest in
    (q' :: rest', c || h).
Proof.
  unfold pass, try_field. destruct on; cbn [andb negb first_wins]; [|reflexivity].
  destruct (changes f v q); cbn [andb negb orb]; [reflexivity|].
  destruct (first_wins f v rest); reflexivity.
Qed.

Lemma first_wins_none (f : field) (v : fields) (l : list string) :
  (forall q, In q l -> changes f v q = false) -> first_wins f v l = (l, false).
Proof.
  induction l as [|q rest IH]; intros H; [reflexivity|]. cbn [first_wins].
  rewrite (H q (or_introl eq_refl)), IH; [reflexivity|].
  intros p I. apply H. right. exact I.
Qed.

Lemma first_wins_first (f : field) (v : fields) (pre post : list string)
    (q : string) :
  (forall p, In p pre -> changes f v p = false) -> changes f v q = true ->
  first_wins f v (pre ++ q :: post) = (pre ++ substituted f v q :: post, true)%list.
Proof.
  induction pre as [|p pre IH]; intros H C; cbn [app first_wins].
  - rewrite C. reflexivity.
  - rewrite (H p (or_introl eq_refl)), IH; [reflexivity| |exact C].
    intros x I. apply H. right. exact I.
Qed.

(** Every list is of one of the two kinds. *)
Lemma first_wins_cases (f : field) (v : fields) (l : list string) :
  (forall q, In q l -> changes f v q = false)
  \/ exists pre q post,
       l = (pre ++ q :: post)%list
       /\ (forall p, In p pre -> changes f v p = false)
       /\ changes f v q = true.
Proof.
  induction l as [|x rest IH]; [left; intros q []|].
  destruct (changes f v x) eqn:C.
  - right. exists [], x, rest. split; [reflexivity|].
    split; [intros p [] | exact C].
  - destruct IH as [N|(pre & q & post & -> & N & Y)].
    + left. intros q [<-|I]; [exact C | apply N, I].
    + right. exists (x :: pre), q, post. split; [reflexivity|].
      split; [|exact Y]. intros p [<-|I]; [exact C | apply N, I].
Qed.

Lemma first_wins_hit (f : field) (v : fields) (l : list string) :
  snd (first_wins f v l) = existsb (changes f v) l.
Proof.
  induction l as [|q rest IH]; [reflexivity|]. cbn [first_wins existsb].
  destruct (changes f v q); [reflexivity|].
  destruct (first_wins f v rest). exact IH.
Qed.

Lemma first_wins_idle (f : field) (v : fields) (l : list string) :
  snd (first_wins f v l) = false -> first_wins f v l = (l, false).
Proof.
  rewrite first_wins_hit. intros H. apply first_wins_none. intros q I.
  destruct (changes f v q) eqn:C; [|reflexivity].
  assert (E : existsb (changes f v) l = true)
    by (apply existsb_exists; exists q; split; assumption).
  congruence.
Qed.

Lemma changes_region (f : field) (v : fields) (q : string) :
  changes f v q = true -> has_region f q = true.
Proof. unfold changes. intros H. apply andb_prop in H. apply H. Qed.

Lemma first_wins_length (f : field) (v : fields) (l : list string) :
  List.length (fst (first_wins f v l)) = List.length l.
Proof.
  induction l as [|q rest IH]; [reflexivity|]. cbn [first_wins].
  destruct (changes f v q); [reflexivity|].
  destruct (first_wins f v rest). cbn [fst List.length] in *. congruence.
Qed.

Lemma first_wins_app (f : field) (v : fields) (a b : list string) :
  first_wins f v (a ++ b)
  = if snd (first_wins f v a) then ((fst (first_wins f v a) ++ b)%list, true)
    else ((fst (first_wins f v a) ++ fst (first_wins f v b))%list,
          snd (first_wins f v b)).
Proof.
  induction a as [|q a IH]; cbn [app first_wins fst snd].
  - destruct (first_wins f v b); reflexivity.
  - destruct (changes f v q); [reflexivity|]. rewrite IH.
    destruct (first_wins f v a) as [a' h]. cbn [fst snd].
    destruct h; reflexivity.
Qed.

(** *** The loops *)

Lemma for_each_concat {A} (body : rw -> A -> A * rw) (ll : list (list A)) :
  forall st,
    List.concat (fst (for_each (for_each body) st ll))
    = fst (for_each body st (List.concat ll))
    /\ snd (for_each (for_each body) st ll)
       = snd (for_each body st (List.concat ll)).
Proof.
  induction ll as [|l ll IH]; intros st; [split; reflexivity|].
  cbn [for_each List.concat]. rewrite RoundTripFacts.for_each_app.
  destruct (for_each body st l) as [l' st1].
  destruct (IH st1) as [E1 E2].
  destruct (for_each (for_each body) st1 ll) as [ll' st2].
  destruct (for_each body st1 (List.concat ll)) as [c st3].
  cbn [fst snd List.concat] in *. subst. split; reflexivity.
Qed.

Lemma for_each_shape {A S} (sh : A -> S) (body : rw -> A -> A * rw) :
  (forall st x, sh (fst (body st x)) = sh x) ->
  forall l st, map sh (fst (for_each body st l)) = map sh l.
Proof.
  intros B l. induction l as [|x rest IH]; intros st; [reflexivity|].
  cbn [for_each]. pose proof (B st x) as Bx.
  destruct (body st x) as [x' st1]. specialize (IH st1).
  destruct (for_each body st1 rest) as [rest' st2]. cbn [fst map] in *.
  congruence.
Qed.

Section Loops.
Variable v : fields.

Lemma step_date_format1_try (st : rw) (text : string) :
  step_date_format1 v st text
  = let '(t, c) := try_field Long_date v (negb (date_format1_updated st)) text in
    (t, RW (date_format1_updated st || c) (date_format2_updated st)
           (invoice_number_updated st) (service_period_updated st)
           (logged st ++ note c Updated_date_format1)).
Proof.
  unfold step_date_format1.
  rewrite <- (update_field Long_date v). reflexivity.
Qed.

Lemma step_cell_paragraph_try (st : rw) (text : string) :
  step_cell_paragraph v st text
  = let '(t1, c1) :=
      try_field Invoice_no v (negb (invoice_number_updated st)) text in
    let '(t2, c2) :=
      try_field Slash_date v (negb (date_format2_updated st)) t1 in
    let '(t3, c3) :=
      try_field Service v (negb (service_period_updated st)) t2 in
    (t3, RW (date_format1_updated st) (date_format2_updated st || c2)
            (invoice_number_updated st || c1) (service_period_updated st || c3)
            (logged st ++ note c1 Updated_invoice_number
                       ++ note c2 Updated_date_format2
                       ++ note c3 Updated_service_period)).
Proof.
  unfold step_cell_paragraph.
  rewrite <- (update_field Invoice_no v).
  destruct (update _ _ _ text) as [t1 c1].
  rewrite <- (update_field Slash_date v).
  destruct (update _ _ _ t1) as [t2 c2].
  rewrite <- (update_field Service v). reflexivity.
Qed.

Lemma step_paragraph_again_try (st : rw) (text : string) :
  step_paragraph_again v st text
  = let '(t1, c1) :=
      try_field Invoice_no v (negb (invoice_number_updated st)) text in
    let '(t2, c2) :=
      try_field Slash_date v (negb (date_format2_updated st)) t1 in
    (t2, RW (date_format1_updated st) (date_format2_updated st || c2)
            (invoice_number_updated st || c1) (service_period_updated st)
            (logged st ++ note c1 Updated_invoice_number_in_paragraph
                       ++ note c2 Updated_date_format2_in_paragraph)).
Proof.
  unfold step_paragraph_again.
  rewrite <- (update_field Invoice_no v).
  replace (negb (invoice_number_updated st) && Str.contains "Invoice No:" text)
    with (label_test Invoice_no text && negb (invoice_number_updated st))
    by apply andb_comm.
  destruct (update _ _ _ text) as [t1 c1].
  rewrite <- (update_field Slash_date v).
  replace (negb (date_format2_updated st) && Str.contains "Date:" t1
           && Str.contains "/" t1)
    with (label_test Slash_date t1 && negb (date_format2_updated st))
    by (cbn [label_test]; destruct (negb _), (Str.contains "Date:" t1),
          (Str.contains "/" t1); reflexivity).
  reflexivity.
Qed.

Lemma pass_nil (f : field) (on : bool) : pass f v on [] = ([], false).
Proof. destruct on; reflexivity. Qed.

(** The first loop is a pass of the long date. *)
Lemma loop_long (l : list string) :
  forall st,
    fst (for_each (step_date_format1 v) st l)
    = fst (pass Long_date v (negb (date_format1_updated st)) l)
    /\ date_format1_updated (snd (for_each (step_date_format1 v) st l))
       = date_format1_updated st
         || snd (pass Long_date v (negb (date_format1_updated st)) l)
    /\ invoice_number_updated (snd (for_each (step_date_format1 v) st l))
       = invoice_number_updated st
    /\ date_format2_updated (snd (for_each (step_date_format1 v) st l))
       = date_format2_updated st
    /\ service_period_updated (snd (for_each (step_date_format1 v) st l))
       = service_period_updated st.
Proof.
  induction l as [|q rest IH]; intros st.
  - rewrite pass_nil. cbn. rewrite orb_false_r. repeat split.
  - cbn [for_each]. rewrite step_date_format1_try, pass_cons.
    destruct (try_field Long_date v _ q) as [q1 c1].
    specialize (IH (RW (date_format1_updated st || c1) (date_format2_updated st)
                       (invoice_number_updated st) (service_period_updated st)
                       (logged st ++ note c1 Updated_date_format1))).
    cbn [date_format1_updated date_format2_updated invoice_number_updated
         service_period_updated] in IH.
    rewrite negb_orb in IH.
    destruct (for_each (step_date_format1 v) _ rest) as [rest' st2].
    destruct (pass Long_date v _ rest) as [r1 h1].
    cbn [fst snd] in *. destruct IH as (-> & -> & -> & -> & ->).
    rewrite orb_assoc. repeat split.
Qed.

(** The table loop is a pass of the invoice number, then one of the
    slash date, then one of the service period. *)
Lemma loop_cells (l : list string) :
  forall st,
    let pN := pass Invoice_no v (negb (invoice_number_updated st)) l in
    let pD := pass Slash_date v (negb (date_format2_updated st)) (fst pN) in
    let pS := pass Service v (negb (service_period_updated st)) (fst pD) in
    let r := for_each (step_cell_paragraph v) st l in
    fst r = fst pS
    /\ date_format1_updated (snd r) = date_format1_updated st
    /\ invoice_number_updated (snd r) = invoice_number_updated st || snd pN
    /\ date_format2_updated (snd r) = date_format2_updated st || snd pD
    /\ service_period_updated (snd r) = service_period_updated st || snd pS.
Proof.
  induction l as [|q rest IH]; intros st; cbv zeta.
  - repeat (rewrite pass_nil; cbn [fst]). cbn.
    rewrite !orb_false_r. repeat split.
  - cbn [for_each]. rewrite step_cell_paragraph_try, pass_cons.
    destruct (try_field Invoice_no v _ q) as [q1 c1].
    destruct (try_field Slash_date v _ q1) as [q2 c2] eqn:T2.
    destruct (try_field Service v _ q2) as [q3 c3] eqn:T3.
    specialize (IH (RW (date_format1_updated st) (date_format2_updated st || c2)
                       (invoice_number_updated st || c1)
                       (service_period_updated st || c3)
                       (logged st ++ note c1 Updated_invoice_number
                                  ++ note c2 Updated_date_format2
                                  ++ note c3 Updated_service_period))).
    cbv zeta in IH.
    cbn [date_format1_updated date_format2_updated invoice_number_updated
         service_period_updated] in IH.
    rewrite !negb_orb in IH.
    destruct (for_each (step_cell_paragraph v) _ rest) as [rest' st2].
    destruct (pass Invoice_no v _ rest) as [rN hN].
    cbn [fst snd] in *. rewrite pass_cons, T2.
    destruct (pass Slash_date v _ rN) as [rD hD].
    cbn [fst snd] in *. rewrite pass_cons, T3.
    destruct (pass Service v _ rD) as [rS hS].
    cbn [fst snd] in *. destruct IH as (-> & -> & -> & -> & ->).
    rewrite !orb_assoc. repeat split.
Qed.

(** The last loop is a pass of the invoice number, then one of the slash
    date. *)
Lemma loop_again (l : list string) :
  forall st,
    let pN := pass Invoice_no v (negb (invoice_number_updated st)) l in
    let pD := pass Slash_date v (negb (date_format2_updated st)) (fst pN) in
    let r := for_each (step_paragraph_again v) st l in
    fst r = fst pD
    /\ date_format1_updated (snd r) = date_format1_updated st
    /\ invoice_number_updated (snd r) = invoice_number_updated st || snd pN
    /\ date_format2_updated (snd r) = date_format2_updated st || snd pD
    /\ service_period_updated (snd r) = service_period_updated st.
Proof.
  induction l as [|q rest IH]; intros st; cbv zeta.
  - repeat (rewrite pass_nil; cbn [fst]). cbn.
    rewrite !orb_false_r. repeat split.
  - cbn [for_each]. rewrite step_paragraph_again_try, pass_cons.
    destruct (try_field Invoice_no v _ q) as [q1 c1].
    destruct (try_field Slash_date v _ q1) as [q2 c2] eqn:T2.
    specialize (IH (RW (date_format1_updated st) (date_format2_updated st || c2)
                       (invoice_number_updated st || c1)
                       (service_period_updated st)
                       (logged st
                        ++ note c1 Updated_invoice_number_in_paragraph
                        ++ note c2 Updated_date_format2_in_paragraph))).
    cbv zeta in IH.
    cbn [date_format1_updated date_format2_updated invoice_number_updated
         service_period_updated] in IH.
    rewrite !negb_orb in IH.
    destruct (for_each (step_paragraph_again v) _ rest) as [rest' st2].
    destruct (pass Invoice_no v _ rest) as [rN hN].
    cbn [fst snd] in *. rewrite pass_cons, T2.
    destruct (pass Slash_date v _ rN) as [rD hD].
    cbn [fst snd] in *. destruct IH as (-> & -> & -> & -> & ->).
    rewrite !orb_assoc. repeat split.
Qed.

(** The table loop over the tables, read off the paragraphs of the
    cells in scan order. *)
Lemma loop_tables (ts : list table) (st : rw) :
  List.concat (List.concat (List.concat
    (fst (for_each (for_each (for_each (for_each (step_cell_paragraph v))))
                   st ts))))
  = fst (for_each (step_cell_paragraph v) st
                  (List.concat (List.concat (List.concat ts))))
  /\ snd (for_each (for_each (for_each (for_each (step_cell_paragraph v))))
                   st ts)
     = snd (for_each (step_cell_paragraph v) st
                     (List.concat (List.concat (List.concat ts)))).
Proof.
  destruct (for_each_concat (for_each (for_each (step_cell_paragraph v))) ts st)
    as [E1 S1].
  destruct (for_each_concat (for_each (step_cell_paragraph v))
                            (List.concat ts) st) as [E2 S2].
  destruct (for_each_concat (step_cell_paragraph v)
                            (List.concat (List.concat ts)) st) as [E3 S3].
  split.
  - etransitivity; [apply (f_equal (@List.concat _)), (f_equal (@List.concat _)), E1|].
    etransitivity; [apply (f_equal (@List.concat _)), E2|]. exact E3.
  - etransitivity; [exact S1|]. etransitivity; [exact S2 | exact S3].
Qed.

(** The loops keep the numbers of paragraphs, tables, rows and cells. *)
Lemma rewrite_shape (doc : document) :
  List.length (paragraphs (fst (rewrite v doc))) = List.length (paragraphs doc)
  /\ table_shape (tables (fst (rewrite v doc))) = table_shape (tables doc).
Proof.
  unfold rewrite.
  pose proof (for_each_shape (fun _ : string => tt) (step_date_format1 v)
                (fun _ _ => eq_refl) (paragraphs doc) rw0) as L1.
  destruct (for_each (step_date_format1 v) rw0 (paragraphs doc)) as [paras1 st1].
  cbn [fst] in L1.
  assert (T : forall st,
             table_shape
               (fst (for_each (for_each (for_each (for_each
                       (step_cell_paragraph v)))) st (tables doc)))
             = table_shape (tables doc)).
  { intros st. unfold table_shape.
    apply (for_each_shape (map (map (@List.length string)))). intros s1 t.
    apply (for_each_shape (map (@List.length string))). intros s2 row.
    apply (for_each_shape (@List.length string)). intros s3 cl.
    pose proof (for_each_shape (fun _ : string => tt) (step_cell_paragraph v)
                  (fun _ _ => eq_refl) cl s3) as E.
    apply (f_equal (@List.length unit)) in E. rewrite !length_map in E.
    exact E. }
  specialize (T st1).
  destruct (for_each (for_each (for_each (for_each (step_cell_paragraph v))))
                     st1 (tables doc)) as [tables2 st2]. cbn [fst] in T.
  apply (f_equal (@List.length unit)) in L1. rewrite !length_map in L1.
  destruct (negb (invoice_number_updated st2) || negb (date_format2_updated st2)).
  - pose proof (for_each_shape (fun _ : string => tt) (step_paragraph_again v)
                  (fun _ _ => eq_refl) paras1 st2) as L3.
    destruct (for_each (step_paragraph_again v) st2 paras1) as [paras3 st3].
    cbn [fst paragraphs tables] in *.
    apply (f_equal (@List.length unit)) in L3. rewrite !length_map in L3.
    split; [congruence | exact T].
  - cbn [fst paragraphs tables]. split; [exact L1 | exact T].
Qed.

(** The rewriter is the passes, one after the other. *)
Lemma rewrite_passes (doc : document) :
  paragraphs (fst (rewrite v doc)) = fst (paragraphs_slash v doc)
  /\ cell_paragraphs (fst (rewrite v doc)) = fst (cells_service v doc)
  /\ date_format1_updated (snd (rewrite v doc)) = snd (paragraphs_long v doc)
  /\ invoice_number_updated (snd (rewrite v doc))
     = snd (cells_number v doc) || snd (paragraphs_number v doc)
  /\ date_format2_updated (snd (rewrite v doc))
     = snd (cells_slash v doc) || snd (paragraphs_slash v doc)
  /\ service_period_updated (snd (rewrite v doc)) = snd (cells_service v doc).
Proof.
  unfold rewrite, paragraphs_slash, paragraphs_number, cells_service,
    cells_slash, cells_number, paragraphs_long, cell_paragraphs.
  destruct (loop_long (paragraphs doc) rw0) as (P1 & L1 & N1 & D1 & S1).
  destruct (for_each (step_date_format1 v) rw0 (paragraphs doc)) as [paras1 st1].
  cbn [fst snd rw0 date_format1_updated date_format2_updated
       invoice_number_updated service_period_updated negb orb pass] in *.
  destruct (loop_tables (tables doc) st1) as [E2 St2].
  destruct (for_each (for_each (for_each (for_each (step_cell_paragraph v))))
                     st1 (tables doc)) as [tables2 st2].
  cbn [fst snd] in E2, St2.
  pose proof (loop_cells (List.concat (List.concat (List.concat (tables doc))))
                         st1) as C.
  cbv zeta in C. rewrite <- E2, <- St2 in C. rewrite N1, D1, S1 in C.
  cbn [negb orb pass] in C. destruct C as (C0 & CL & CN & CD & CS).
  set (cN := first_wins Invoice_no v _) in *.
  set (cD := first_wins Slash_date v (fst cN)) in *.
  set (cS := first_wins Service v (fst cD)) in *.
  pose proof (loop_again paras1 st2) as A. cbv zeta in A.
  rewrite CN, CD in *.
  destruct (snd cN) eqn:HN, (snd cD) eqn:HD; cbn [negb orb pass] in *;
    [|destruct (for_each (step_paragraph_again v) st2 paras1) as [paras3 st3];
      cbn [fst snd paragraphs tables] in A |- *;
      destruct A as (-> & -> & -> & -> & ->)..];
    cbn [fst snd paragraphs tables]; rewrite ?CL, ?L1, ?CS, ?P1, ?orb_false_r;
    (split; [reflexivity|]); (split; [exact C0|]); repeat split;
    assumption.
Qed.

(** The flag of a field tells whether the field changed one of the texts
    it was given. *)
Lemma flag_scan (doc : document) (f : field) :
  flag f (snd (rewrite v doc)) = snd (first_wins f v (scan f v doc)).
Proof.
  destruct (rewrite_passes doc) as (_ & _ & FL & FN & FD & FS).
  destruct f; cbn [flag scan].
  - exact FL.
  - rewrite FD, first_wins_app. unfold paragraphs_slash, cells_slash.
    destruct (snd (first_wins Slash_date v (fst (cells_number v doc))));
      reflexivity.
  - rewrite FN, first_wins_app. unfold paragraphs_number, cells_number.
    destruct (snd (first_wins Invoice_no v (cell_paragraphs doc)));
      reflexivity.
  - exact FS.
Qed.

End Loops.

End PassFacts.

(** * The claims *)

Import Re Shape ShapeFacts DateFacts FieldFacts PatternFacts.

(** ** C2: the financial-year label *)

(** C2 (as amended).  For every date whose financial year ends in a year
    of at least two digits, the label is the specification's
    ["Y-(Y+1 mod 100)"] from April to December and ["(Y-1)-(Y mod 100)"]
    from January to March, the number after the hyphen written with two
    digits; March 2025 gives "2024-25" and April 2025 gives "2025-26". *)
Theorem get_financial_year_label (d : datetime) :
  valid d -> 10 <= fy_end d ->
  get_financial_year d = financial_year_label Dec.str02 d
  /\ get_financial_year (DT 2025 3 1 0) = "2024-25"
  /\ get_financial_year (DT 2025 4 1 0) = "2025-26".
Proof.
  intros (Hy & Hm & _) H. unfold MINYEAR, MAXYEAR in Hy.
  split; [|split; reflexivity].
  unfold get_financial_year, financial_year_label, fy_end, fy_start in *.
  replace (month d <=? 12) with true by lia. rewrite andb_true_r.
  destruct (4 <=? month d).
  - rewrite last2_str by lia. reflexivity.
  - rewrite last2_str by lia. reflexivity.
Qed.

Lemma get_financial_year_label_witness :
  valid (DT 2031 11 1 0) /\ 10 <= fy_end (DT 2031 11 1 0)
  /\ get_financial_year (DT 2031 11 1 0)
     = financial_year_label Dec.str02 (DT 2031 11 1 0).
Proof.
  assert (V : valid (DT 2031 11 1 0)) by show_valid.
  assert (H : 10 <= fy_end (DT 2031 11 1 0)) by (vm_compute; discriminate).
  split; [exact V|]. split; [exact H|].
  exact (proj1 (get_financial_year_label (DT 2031 11 1 0) V H)).
Defined.

(** C2 as stated fails: for 1 April of the year 5 the program writes "5-6",
    not "5-06"; and if the number after the hyphen were meant without
    padding, 1 April 2008 gives "2008-09", not "2008-9". *)
Lemma get_financial_year_label_fails :
  (valid (DT 5 4 1 0)
   /\ get_financial_year (DT 5 4 1 0) = "5-6"
   /\ financial_year_label Dec.str02 (DT 5 4 1 0) = "5-06")
  /\ (valid (DT 2008 4 1 0)
      /\ get_financial_year (DT 2008 4 1 0) = "2008-09"
      /\ financial_year_label Dec.str (DT 2008 4 1 0) = "2008-9")
  /\ ~ (forall d, valid d ->
          get_financial_year d = financial_year_label Dec.str02 d)
  /\ ~ (forall d, valid d ->
          get_financial_year d = financial_year_label Dec.str d).
Proof.
  assert (V5 : valid (DT 5 4 1 0)) by show_valid.
  assert (V8 : valid (DT 2008 4 1 0)) by show_valid.
  split; [split; [exact V5 | split; reflexivity]|].
  split; [split; [exact V8 | split; reflexivity]|].
  split; intros A.
  - specialize (A _ V5). vm_compute in A. discriminate A.
  - specialize (A _ V8). vm_compute in A. discriminate A.
Qed.

(** ** C3: the service period *)

(** C3.  For every invoice date that has a preceding calendar month, the
    service period runs from day 7 of the preceding month to day 6 of the
    month of the invoice date, each written as ordinal day, full month
    name and year; for 1 March 2025 it is
    "7th February 2025 to 6th March 2025". *)
Theorem service_period_of_invoice_date (d : datetime) :
  valid d -> ~ (year d = 1 /\ month d = 1) ->
  make_service_period d = Some (service_period_text d)
  /\ make_service_period (DT 2025 3 1 0)
     = Some "7th February 2025 to 6th March 2025".
Proof.
  intros V N. split; [apply make_service_period_text; assumption | reflexivity].
Qed.

Lemma service_period_of_invoice_date_witness :
  valid (DT 2026 1 1 0) /\ ~ (year (DT 2026 1 1 0) = 1 /\ month (DT 2026 1 1 0) = 1)
  /\ make_service_period (DT 2026 1 1 0)
     = Some "7th December 2025 to 6th January 2026".
Proof.
  assert (V : valid (DT 2026 1 1 0)) by show_valid.
  assert (N : ~ (year (DT 2026 1 1 0) = 1 /\ month (DT 2026 1 1 0) = 1))
    by (simpl; lia).
  split; [exact V|]. split; [exact N|].
  exact (proj1 (service_period_of_invoice_date (DT 2026 1 1 0) V N)).
Defined.

(** ** C9: the invoice number *)

(** C9 (as amended).  For every invoice date whose financial year starts
    in the year 1000 or later and every draw in 1000..9999, the invoice
    number of the run is "IN", the four digits of the draw, a slash and
    the financial-year label, and the whole of it matches
    [IN\d{4}/\d{4}-\d{2}]. *)
Theorem invoice_number_format (d : datetime) (r : Z) :
  valid d -> 1000 <= fy_start d -> 1000 <= r <= 9999 ->
  (forall v, make_fields d r = Some v ->
             invoice_number v = make_invoice_number r (get_financial_year d))
  /\ make_invoice_number r (get_financial_year d)
     = "IN" ++ Dec.str r ++ "/" ++ get_financial_year d
  /\ String.length (Dec.str r) = 4%nat
  /\ Str.all_chars Str.is_digit (Dec.str r) = true
  /\ fullmatch invoice_number_pattern
       (make_invoice_number r (get_financial_year d)) = true.
Proof.
  intros V H R. split.
  { intros v MF. unfold make_fields in MF.
    destruct (make_service_period d); [|discriminate MF].
    injection MF as <-. reflexivity. }
  split; [reflexivity|].
  split; [rewrite DecFacts.str_4 by exact R; reflexivity|].
  split.
  - rewrite DecFacts.str_4 by exact R. cbn [Str.all_chars].
    rewrite !DecFacts.is_digit_digit_char by DecFacts.zdiv. reflexivity.
  - eapply fullmatch_shape;
      [reflexivity | apply canon_invoice_number; assumption | reflexivity].
Qed.

Lemma invoice_number_format_witness :
  valid (DT 2025 3 1 0) /\ 1000 <= fy_start (DT 2025 3 1 0)
  /\ fullmatch invoice_number_pattern "IN4321/2024-25" = true.
Proof.
  assert (V : valid (DT 2025 3 1 0)) by show_valid.
  assert (H : 1000 <= fy_start (DT 2025 3 1 0)) by (vm_compute; discriminate).
  assert (R : 1000 <= 4321 <= 9999) by lia.
  split; [exact V|]. split; [exact H|].
  exact (proj2 (proj2 (proj2 (proj2
           (invoice_number_format (DT 2025 3 1 0) 4321 V H R))))).
Defined.

(** C9 as stated fails: with a latest invoice dated January 1000 and the
    draw 1234 the run writes the number "IN1234/999-00", which the pattern
    does not match. *)
Lemma invoice_number_format_fails :
  1000 <= draw world_1000 <= 9999
  /\ fst (auto_update_invoice "template.docx" world_1000)
     = Ok (Some "invoice_february_1000.docx")
  /\ log (snd (auto_update_invoice "template.docx" world_1000))
     = [Found_latest "invoice_january_1000.docx";
        Extracted_date (DT 1000 1 1 0);
        Next_month (DT 1000 2 1 0);
        Updating "IN1234/999-00" "1st February 1000"
                 "7th January 1000 to 6th February 1000";
        Updated_invoice_number_in_paragraph;
        No_date_format1; No_date_format2; No_service_period;
        Saved "invoice_february_1000.docx"]
  /\ fullmatch invoice_number_pattern "IN1234/999-00" = false.
Proof.
  split; [simpl; lia|]. repeat split; vm_compute; reflexivity.
Qed.

(** ** C10: what is written can be found again *)




Import RunFacts.

(** ** C6: the fallback to the current date *)

(** C6.  When there is no earlier invoice file, or the extraction from the
    latest one returns no date, the derived invoice date is the current
    date with its day set to 1. *)
Theorem fallback_to_current_date (w : world) :
  valid (now w) ->
  (glob_invoice (files w) = []
   \/ exists f w1, find_latest_invoice w = (Ok (Some f), w1)
                   /\ fst (extract_date_from_latest_invoice f w1) = Ok None) ->
  fst (determine_invoice_date w)
  = Ok (DT (year (now w)) (month (now w)) 1 (tod (now w))).
Proof.
  intros V [G | (f & w1 & F & E)]; unfold determine_invoice_date, bind.
  - unfold find_latest_invoice. rewrite G.
    unfold of_option, logger, ret. rewrite (replace_day_first _ V).
    reflexivity.
  - pose proof (find_latest_invoice_only_logs w) as O1. rewrite F in *.
    cbn [snd] in O1.
    destruct (extract_date_returns f w1) as (r & _ & O2).
    destruct (extract_date_from_latest_invoice f w1) as [x w2].
    cbn [fst snd] in E, O2. subst x.
    assert (N : now w2 = now w).
    { destruct O1 as (_ & N1 & _), O2 as (_ & N2 & _). congruence. }
    unfold of_option, logger, ret. rewrite N, (replace_day_first _ V).
    reflexivity.
Qed.

Lemma fallback_to_current_date_witness :
  fst (determine_invoice_date
         (World [File "template.docx" 1 (Some number_only_template)]
                (DT 2025 6 17 45296000000) 1234 no_lock [] 100))
  = Ok (DT 2025 6 1 45296000000).
Proof.
  apply (fallback_to_current_date
           (World [File "template.docx" 1 (Some number_only_template)]
                  (DT 2025 6 17 45296000000) 1234 no_lock [] 100)).
  - show_valid.
  - left. reflexivity.
Defined.

(** ** C7: the update routine does not raise *)

(** C7.  [auto_update_invoice] returns for every template name and every
    state of the directory.  When it returns [None] no file was written
    and the last log entry is the error; it returns a name only when the
    document was saved under that name.  A template that cannot be loaded
    and an output name that cannot be written both give [None]. *)
Theorem auto_update_invoice_never_raises (template_name : string) (w : world) :
  exists r w',
    auto_update_invoice template_name w = (Ok r, w')
    /\ (r = None ->
        files w' = files w
        /\ exists es, log w' = (log w ++ es ++ [Error_updating])%list)
    /\ (forall n, r = Some n ->
        locked w n = false
        /\ (exists t doc, In (File n t (Some doc)) (files w'))
        /\ exists es, log w' = (log w ++ es ++ [Saved n])%list)
    /\ (fst (load template_name w) = Raised -> r = None)
    /\ (forall d, fst (determine_invoice_date w) = Ok d ->
                  locked w (output_name d) = true -> r = None).
Proof.
  unfold auto_update_invoice, try_except, bind.
  assert (L : snd (load template_name w) = w).
  { unfold load. destruct (find _ (files w)) as [f|]; [|reflexivity].
    destruct (content f); reflexivity. }
  assert (Fail : forall w1, only_logs w w1 ->
            files (add_log w1 [Error_updating]) = files w
            /\ exists es, log (add_log w1 [Error_updating])
                          = (log w ++ es ++ [Error_updating])%list).
  { intros w1 (F & _ & _ & _ & es & E). split; [exact F|].
    exists es. simpl. rewrite E, <- app_assoc. reflexivity. }
  destruct (load template_name w) as [[doc|] w0]; cbn [fst snd] in L; subst w0.
  2:{ exists None, (add_log w [Error_updating]).
      split; [reflexivity|]. split; [intros _; apply Fail, only_logs_refl|].
      split; [discriminate|]. split; [reflexivity|]. reflexivity. }
  pose proof (determine_invoice_date_only_logs w) as O.
  destruct (determine_invoice_date w) as [[d|] w1]; cbn [snd] in O.
  2:{ exists None, (add_log w1 [Error_updating]).
      split; [reflexivity|]. split; [intros _; apply Fail, O|].
      split; [discriminate|]. split; [discriminate|]. reflexivity. }
  unfold the_draw, of_option, raise, ret, logger.
  destruct (make_fields d (draw w1)) as [v|].
  2:{ exists None, (add_log w1 [Error_updating]).
      split; [reflexivity|]. split; [intros _; apply Fail, O|].
      split; [discriminate|]. split; [discriminate|]. reflexivity. }
  destruct (rewrite v doc) as [doc' st]. unfold save.
  set (w3 := add_log (add_log w1 _) _).
  assert (O3 : only_logs w w3).
  { eapply only_logs_trans; [exact O|].
    eapply only_logs_trans; apply only_logs_add. }
  assert (Lk : locked w3 = locked w) by apply O3.
  destruct (locked w3 (output_name d)) eqn:K.
  - exists None, (add_log w3 [Error_updating]).
    split; [reflexivity|]. split; [intros _; apply Fail, O3|].
    split; [discriminate|]. split; [discriminate|]. reflexivity.
  - eexists (Some (output_name d)), _. split; [reflexivity|].
    split; [discriminate|]. split.
    + intros n E. injection E as <-. split; [rewrite <- Lk; exact K|]. split.
      * eexists _, doc'. cbn [files set_files add_log]. apply in_or_app.
        right. left. reflexivity.
      * destruct O3 as (_ & _ & _ & _ & es & E3). exists es.
        cbn [log set_files add_log]. rewrite E3, <- app_assoc. reflexivity.
    + split; [discriminate|]. intros d' E K'. injection E as <-.
      rewrite <- Lk, K in K'. discriminate K'.
Qed.

Import RewriteFacts PassFacts.

(** ** C5: how often a field is rewritten *)

(** C5 (as amended).  The rewriter is a sequence of passes, one per field
    and place, and in every pass the first match wins.  A pass goes
    through the texts it is given in scan order; the first text that the
    field changes (its label test holds, its pattern is found and the
    text after the substitution differs) is replaced by its substitution,
    in which every match of the pattern is replaced; the texts before it
    and the texts after it are left as they are.  The long date makes one
    pass over the top-level paragraphs.  The paragraphs of the cells get
    a pass of the invoice number, then one of the slash date on what
    that pass left, then one of the service period.  The top-level
    paragraphs, as the long date left them, then get a pass of the
    invoice number and one of the slash date, each only when its pass
    over the cells changed nothing.  So every field changes at most one
    text in a run, the first one it changes among the texts it is given
    ([scan]); its flag tells whether it did, and the log reports the
    update once or not at all.  The numbers of paragraphs, tables, rows
    and cells stay as they are. *)
Theorem each_field_updated_at_most_once (v : fields) (doc : document) :
  paragraphs (fst (rewrite v doc)) = fst (paragraphs_slash v doc)
  /\ cell_paragraphs (fst (rewrite v doc)) = fst (cells_service v doc)
  /\ table_shape (tables (fst (rewrite v doc))) = table_shape (tables doc)
  /\ (forall f,
        flag f (snd (rewrite v doc)) = snd (first_wins f v (scan f v doc)))
  /\ (forall f,
        updates_of f (logged (snd (rewrite v doc)))
        = if flag f (snd (rewrite v doc)) then 1%nat else 0%nat)
  /\ (forall f l,
        (forall q, In q l -> changes f v q = false) ->
        first_wins f v l = (l, false))
  /\ (forall f pre q post,
        (forall p, In p pre -> changes f v p = false) ->
        changes f v q = true ->
        first_wins f v (pre ++ q :: post)
        = ((pre ++ substituted f v q :: post)%list, true)).
Proof.
  destruct (rewrite_passes v doc) as (P & C & _).
  destruct (rewrite_shape v doc) as (_ & T).
  split; [exact P|]. split; [exact C|]. split; [exact T|].
  split; [intros f; apply flag_scan|].
  split; [exact (rewrite_count v doc)|].
  split; [intros f l; apply first_wins_none|].
  intros f pre q post. apply first_wins_first.
Qed.

(** C5 as stated fails.  A paragraph with two long dates has both
    replaced; and when the first dated paragraph already carries the new
    date, the second one is rewritten as well. *)
Lemma each_field_updated_at_most_once_fails :
  option_map span
    (Re.search date_format1_pattern
       "Date: 1st January 2025 and Date: 2nd January 2025")
  = Some (0%nat, 22%nat, [(1%nat, (42%nat, 40%nat))])
  /\ option_map span
       (Re.search date_format1_pattern " and Date: 2nd January 2025")
     = Some (5%nat, 27%nat, [(1%nat, (15%nat, 13%nat))])
  /\ fst (rewrite fields_february_2025 two_dates_in_a_paragraph)
     = Doc ["Date: 1st February 2025 and Date: 1st February 2025"] []
  /\ paragraphs (fst (rewrite fields_february_2025 two_dated_paragraphs))
     = ["Date: 1st February 2025"; "Date: 1st February 2025"]
  /\ make_fields (DT 2025 2 1 0) 4321 = Some fields_february_2025.
Proof. repeat split; vm_compute; reflexivity. Qed.

Import ExtractFacts LatestFacts.

(** ** C1: the month after the latest invoice *)




Import RoundTripFacts.

(** ** C4: feeding an output back *)

(** X15.  Take a run with invoice date [d] (the first of a month from
    the year 1000 on, not December 9999) on a template whose first
    paragraph with "Date:" is a dated line of a year from 1000 to 9999.
    Whenever the document it produces is the latest earlier invoice of a
    later run, whatever the modification times, that run derives the
    first of the month after [d], the date of the "Date:" line the
    rewriter wrote. *)
Theorem round_trip_next_month
    (tpl : document) (d : datetime) (r : Z) (v : fields)
    (pre post : list string) (y0 m0 n0 : Z) (w w1 : world) (f : file) :
  valid d -> day d = 1 -> 1000 <= year d ->
  ~ (year d = 9999 /\ month d = 12) ->
  make_fields d r = Some v ->
  paragraphs tpl = (pre ++ dated_line y0 m0 n0 :: post)%list ->
  (forall q, In q pre -> Str.contains "Date:" q = false) ->
  1000 <= y0 <= 9999 -> 1 <= m0 <= 12 -> 1 <= n0 <= 31 ->
  find_latest_invoice w = (Ok (Some f), w1) ->
  content f = Some (fst (rewrite v tpl)) ->
  In (dated_line (year d) (month d) 1) (paragraphs (fst (rewrite v tpl)))
  /\ fst (determine_invoice_date w)
     = Ok (first_of_next_month (year d) (month d)).
Proof.
  intros V D1 Hy N MF P Q Hy0 Hm0 Hn0 F C.
  destruct V as (Vy & Vm & _). unfold MINYEAR, MAXYEAR in Vy.
  assert (Y : 1000 <= year d <= 9999) by lia.
  assert (One : 1 <= 1 <= 31) by lia.
  unfold make_fields in MF.
  destruct (make_service_period d) as [sp|]; [|discriminate MF].
  injection MF as <-.
  assert (Line : "Date: " ++ long_date d = dated_line (year d) (month d) 1)
    by (unfold long_date, dated_line, strftime_B_Y, strftime_Y;
        rewrite D1; reflexivity).
  destruct (dated_line_facts _ _ _ Y Vm One) as (_ & _ & _ & NS & NN).
  destruct (dated_line_facts _ _ _ Hy0 Hm0 Hn0) as ((cp & M) & W & L & _).
  rewrite <- Line in NS, NN.
  destruct (rewrite_keeps_dated_line
              (Fields (make_invoice_number r (get_financial_year d))
                      (long_date d) (make_date_format2 d) sp)
              _ eq_refl (invoice_number_lacks_D r d) NS NN
              tpl pre post _ cp P Q M W L) as (pre' & post' & P' & Q').
  cbn [date_format1] in P'. rewrite Line in P'. split.
  - rewrite P'. apply in_or_app. right. left. reflexivity.
  - apply (determine_after_dated_line w w1 f _ pre' post' _ _ 1 F C P' Q');
      assumption.
Qed.

Lemma round_trip_next_month_witness :
  In "Date: 1st February 2025"
     (paragraphs (fst (rewrite fields_february_2025 plain_template)))
  /\ fst (determine_invoice_date world_after_february) = Ok (DT 2025 3 1 0).
Proof.
  eapply (round_trip_next_month plain_template (DT 2025 2 1 0) 4321
            fields_february_2025 ["INVOICE"] [] 2025 1 23
            world_after_february).
  - show_valid.
  - reflexivity.
  - simpl; lia.
  - simpl; lia.
  - reflexivity.
  - reflexivity.
  - intros q [<-|[]]. reflexivity.
  - lia.
  - lia.
  - lia.
  - reflexivity.
  - reflexivity.
Defined.

(** C4: the round trip fails where an ordinal date stands before the
    label.  The rewriter replaces the date that follows "Date:" (its
    pattern starts with the label), the extraction takes the first
    ordinal date of the paragraph (its pattern has no label).  The run
    below writes "Paid 5th April 2024. Date: 1st February 2025", and
    the run that follows reads April 2024 from it and derives
    1 May 2024, not 1 March 2025. *)
Lemma round_trip_next_month_fails :
  fst (auto_update_invoice "template.docx" world_payment_note)
  = Ok (Some "invoice_february_2025.docx")
  /\ files (snd (auto_update_invoice "template.docx" world_payment_note))
     = [File "template.docx" 1 (Some template_with_payment_note);
        File "invoice_february_2025.docx" 100
             (Some (Doc ["Paid 5th April 2024. Date: 1st February 2025"] []))]
  /\ option_map span
       (Re.search date_format1_pattern
          "Paid 5th April 2024. Date: 1st January 2025")
     = Some (21%nat, 43%nat, [(1%nat, (15%nat, 13%nat))])
  /\ option_map span
       (Re.search extract_pattern
          "Paid 5th April 2024. Date: 1st February 2025")
     = Some (5%nat, 19%nat,
             [(3%nat, (29%nat, 25%nat)); (2%nat, (35%nat, 30%nat));
              (1%nat, (38%nat, 36%nat))])
  /\ fst (determine_invoice_date
            (snd (auto_update_invoice "template.docx" world_payment_note)))
     = Ok (DT 2024 5 1 0)
  /\ first_of_next_month 2025 2 = DT 2025 3 1 0.
Proof. repeat split; vm_compute; reflexivity. Qed.

Import PartialFacts PassFacts.

(** ** C8: templates with only some of the regions *)

(** C8 (as amended).  Whichever fields have a matching region in the
    template, the run does not raise: the rewritten document is saved
    under the name made from the invoice date, and the warning of every
    field whose flag is not set is logged.  The flag of a field is set
    exactly when the field changed one of the texts it was given: the
    label test holds, the pattern is found and the text after the
    substitution differs from the text before.  The first such text is
    then replaced by its substitution; a field that has no matching
    region in the texts it is given, and likewise a field all of whose
    matching regions hold the new value already, is reported as not
    updated and leaves every text as it is.  The saved document is the
    template after the passes of the fields.  On a template with an
    invoice-number region only (no "Date:" label anywhere, no service
    period in a cell; invoice number of the usual shape) the flags of the
    three other fields are not set and the document is the template
    after the passes of the invoice number alone; when the flag of the
    invoice number is not set either, the document is the template and
    every invoice-number region in it carries the new number. *)
Theorem partial_update_is_saved (template_name : string) (w w1 : world)
    (tpl : document) (d : datetime) (v : fields) :
  fst (load template_name w) = Ok tpl ->
  determine_invoice_date w = (Ok d, w1) ->
  make_fields d (draw w) = Some v ->
  locked w (output_name d) = false ->
  (exists w',
      auto_update_invoice template_name w = (Ok (Some (output_name d)), w')
      /\ (exists t, In (File (output_name d) t (Some (fst (rewrite v tpl))))
                      (files w'))
      /\ (forall f, flag f (snd (rewrite v tpl)) = false ->
                    In (warning_of f) (log w')))
  /\ (forall f, flag f (snd (rewrite v tpl)) = false
                <-> In (warning_of f) (warnings (snd (rewrite v tpl))))
  /\ (forall f, flag f (snd (rewrite v tpl)) = true
                <-> exists q, In q (scan f v tpl) /\ changes f v q = true)
  /\ (forall f, (forall q, In q (scan f v tpl) -> has_region f q = false) ->
                flag f (snd (rewrite v tpl)) = false)
  /\ (forall f, flag f (snd (rewrite v tpl)) = true ->
                exists pre q post,
                  scan f v tpl = (pre ++ q :: post)%list
                  /\ (forall p, In p pre -> changes f v p = false)
                  /\ changes f v q = true
                  /\ fst (first_wins f v (scan f v tpl))
                     = (pre ++ substituted f v q :: post)%list)
  /\ (forall f, flag f (snd (rewrite v tpl)) = false ->
                fst (first_wins f v (scan f v tpl)) = scan f v tpl)
  /\ paragraphs (fst (rewrite v tpl)) = fst (paragraphs_slash v tpl)
  /\ cell_paragraphs (fst (rewrite v tpl)) = fst (cells_service v tpl)
  /\ (invoice_number_only tpl ->
      valid d -> 1000 <= fy_start d -> 1000 <= draw w <= 9999 ->
      flag Long_date (snd (rewrite v tpl)) = false
      /\ flag Slash_date (snd (rewrite v tpl)) = false
      /\ flag Service (snd (rewrite v tpl)) = false
      /\ cell_paragraphs (fst (rewrite v tpl))
         = fst (first_wins Invoice_no v (cell_paragraphs tpl))
      /\ paragraphs (fst (rewrite v tpl))
         = fst (pass Invoice_no v
                     (negb (snd (first_wins Invoice_no v (cell_paragraphs tpl))))
                     (paragraphs tpl))
      /\ (flag Invoice_no (snd (rewrite v tpl)) = false ->
          fst (rewrite v tpl) = tpl
          /\ forall q, In q (cell_paragraphs tpl ++ paragraphs tpl)%list ->
                       has_region Invoice_no q = true ->
                       Str.contains (invoice_number v) q = true)).
Proof.
  intros L D MF K.
  destruct (auto_update_invoice_saves template_name w w1 tpl d v L D MF K)
    as (w' & R & S & W).
  destruct (rewrite_passes v tpl) as (EP & EC & FL & FN & FD & FS).
  split.
  { exists w'. split; [exact R|]. split; [exact S|].
    intros f F. apply W, warnings_iff, F. }
  split; [intros f; apply warnings_iff|].
  split.
  { intros f. rewrite flag_scan, first_wins_hit, existsb_exists. reflexivity. }
  split.
  { intros f H. rewrite flag_scan. rewrite first_wins_hit.
    destruct (existsb (changes f v) (scan f v tpl)) eqn:E; [|reflexivity].
    apply existsb_exists in E as (q & I & C).
    pose proof (changes_region f v q C) as R0. rewrite (H q I) in R0.
    discriminate R0. }
  split.
  { intros f F. rewrite flag_scan in F.
    destruct (first_wins_cases f v (scan f v tpl))
      as [N|(pre & q & post & E & N & Y)].
    - rewrite (first_wins_none f v _ N) in F. discriminate F.
    - exists pre, q, post. split; [exact E|]. split; [exact N|].
      split; [exact Y|]. rewrite E, (first_wins_first f v pre post q N Y).
      reflexivity. }
  split.
  { intros f F. rewrite flag_scan in F. rewrite (first_wins_idle f v _ F).
    reflexivity. }
  split; [exact EP|]. split; [exact EC|].
  intros N V Y RD.
  assert (E : v = Fields (make_invoice_number (draw w) (get_financial_year d))
                         (date_format1 v) (date_format2 v) (service_period v)).
  { unfold make_fields in MF. destruct (make_service_period d);
      [|discriminate MF]. injection MF as <-. reflexivity. }
  assert (NH : invoice_number v
               = String "I" (String "N" (Dec.str (draw w) ++ "/"
                                         ++ get_financial_year d)))
    by (rewrite E; reflexivity).
  assert (NL : lacks "D" (invoice_number v) = true)
    by (rewrite E; apply invoice_number_lacks_D).
  assert (NS : canon_str (invoice_number v) = "IN0000/0000-00")
    by (rewrite E; apply canon_invoice_number; assumption).
  destruct (rewrite_number_only v _ NH NL NS tpl N) as ((F1 & F2 & Fs) & U).
  cbn [flag]. split; [exact F1|]. split; [exact F2|]. split; [exact Fs|].
  rewrite FL in F1. rewrite FD in F2. rewrite FS in Fs.
  apply orb_false_elim in F2 as [F2c F2p].
  assert (I1 : paragraphs_long v tpl = (paragraphs tpl, false))
    by (apply first_wins_idle, F1).
  assert (I2 : cells_service v tpl = (fst (cells_slash v tpl), false))
    by (apply first_wins_idle, Fs).
  assert (I3 : cells_slash v tpl = (fst (cells_number v tpl), false))
    by (apply first_wins_idle, F2c).
  assert (I4 : fst (paragraphs_slash v tpl) = fst (paragraphs_number v tpl)).
  { revert F2p. unfold paragraphs_slash, pass.
    destruct (negb (snd (cells_slash v tpl))); [|reflexivity].
    intros F. rewrite (first_wins_idle _ _ _ F). reflexivity. }
  split.
  { rewrite EC, I2, I3. reflexivity. }
  split.
  { rewrite EP, I4. unfold paragraphs_number. rewrite I1. reflexivity. }
  exact U.
Qed.

Lemma partial_update_is_saved_witness :
  fst (auto_update_invoice "template.docx" world_number_only)
  = Ok (Some "invoice_june_2025.docx")
  /\ flag Long_date (snd (rewrite (Fields "IN1234/2025-26" "1st June 2025"
                                          "1/06/2025"
                                          "7th May 2025 to 6th June 2025")
                                  number_only_template)) = false
  /\ (flag Invoice_no (snd (rewrite (Fields "IN1234/2025-26" "1st June 2025"
                                            "1/06/2025"
                                            "7th May 2025 to 6th June 2025")
                                    number_only_template)) = true
      <-> exists q,
            In q (scan Invoice_no
                       (Fields "IN1234/2025-26" "1st June 2025" "1/06/2025"
                               "7th May 2025 to 6th June 2025")
                       number_only_template)
            /\ changes Invoice_no
                       (Fields "IN1234/2025-26" "1st June 2025" "1/06/2025"
                               "7th May 2025 to 6th June 2025") q = true).
Proof.
  pose proof (partial_update_is_saved "template.docx" world_number_only
                (snd (determine_invoice_date world_number_only))
                number_only_template (DT 2025 6 1 0)
                (Fields "IN1234/2025-26" "1st June 2025" "1/06/2025"
                        "7th May 2025 to 6th June 2025")
                eq_refl eq_refl eq_refl eq_refl)
    as (S & _ & C & _ & _ & _ & _ & _ & N).
  split; [|split].
  - destruct S as (w' & R & _). rewrite R. reflexivity.
  - apply N.
    + split.
      * intros q [<-|[]]. reflexivity.
      * intros q [].
    + show_valid.
    + vm_compute. discriminate.
    + simpl. lia.
  - apply C.
Defined.

(** C8 as stated fails.  The template below has a matching region for
    the invoice number, and the number in it is the one the run
    generates: the text does not change, so the flag of the field stays
    unset and the run logs that it could not find or update the invoice
    number, although the region matched. *)
Lemma partial_update_is_saved_fails :
  has_region Invoice_no "Invoice No: IN1234/2025-26" = true
  /\ fst (determine_invoice_date world_same_number) = Ok (DT 2025 6 1 0)
  /\ make_fields (DT 2025 6 1 0) (draw world_same_number)
     = Some (Fields "IN1234/2025-26" "1st June 2025" "1/06/2025"
                    "7th May 2025 to 6th June 2025")
  /\ flag Invoice_no
          (snd (rewrite (Fields "IN1234/2025-26" "1st June 2025" "1/06/2025"
                                "7th May 2025 to 6th June 2025")
                        template_with_the_new_number)) = false
  /\ fst (auto_update_invoice "template.docx" world_same_number)
     = Ok (Some "invoice_june_2025.docx")
  /\ In No_invoice_number
        (log (snd (auto_update_invoice "template.docx" world_same_number))).
Proof.
  split; [vm_compute; reflexivity|]. split; [vm_compute; reflexivity|].
  split; [vm_compute; reflexivity|]. split; [vm_compute; reflexivity|].
  split; [vm_compute; reflexivity|].
  vm_compute. tauto.
Qed.

(** * Further properties *)

(** ** The latest invoice and the directory *)

Module FilesFacts.
Import RunFacts.

Lemma max_mtime_first_greatest (l : list file) :
  forall best,
    (max_mtime best l = best /\ forall g, In g l -> mtime g <= mtime best)
    \/ exists pre post,
         l = (pre ++ max_mtime best l :: post)%list
         /\ mtime best < mtime (max_mtime best l)
         /\ (forall g, In g pre -> mtime g < mtime (max_mtime best l))
         /\ (forall g, In g post -> mtime g <= mtime (max_mtime best l)).
Proof.
  induction l as [|f rest IH]; intros best.
  - left. split; [reflexivity | intros g []].
  - cbn [max_mtime]. destruct (Z.ltb_spec (mtime best) (mtime f)) as [Lt|Ge].
    + destruct (IH f) as [(E & Le)|(pre & post & E & Lt' & Pre & Post)].
      * right. exists [], rest. rewrite E.
        split; [reflexivity|]. split; [exact Lt|].
        split; [intros g []| exact Le].
      * right. exists (f :: pre), post. split; [cbn; congruence|].
        split; [lia|]. split; [|exact Post].
        intros g [<-|I]; [exact Lt' | apply Pre, I].
    + destruct (IH best) as [(E & Le)|(pre & post & E & Lt' & Pre & Post)].
      * left. split; [exact E|]. intros g [<-|I]; [exact Ge | apply Le, I].
      * right. exists (f :: pre), post. split; [cbn; congruence|].
        split; [exact Lt'|]. split; [|exact Post].
        intros g [<-|I]; [lia | apply Pre, I].
Qed.

Lemma is_suffix_of_app (suf a : string) : is_suffix_of suf (a ++ suf) = true.
Proof.
  induction a as [|c a IH].
  - cbn [String.append]. destruct suf; cbn [is_suffix_of];
      rewrite String.eqb_refl; reflexivity.
  - cbn [String.append is_suffix_of]. rewrite IH. apply orb_true_r.
Qed.

(** The name under which a run saves is one that the search for earlier
    invoices lists. *)
Lemma output_name_listed (d : datetime) :
  Str.is_prefix "invoice_" (output_name d) = true
  /\ is_suffix_of ".docx" (Str.drop 8 (output_name d)) = true.
Proof.
  unfold output_name. split; [reflexivity|].
  change (Str.drop 8 ("invoice_" ++ ?x)) with x.
  cbn [String.append Str.drop]. apply is_suffix_of_app.
Qed.

Lemma filter_comm {A} (p q : A -> bool) (l : list A) :
  filter p (filter q l) = filter q (filter p l).
Proof.
  induction l as [|x l IH]; [reflexivity|]. cbn [filter].
  destruct (p x) eqn:P, (q x) eqn:Q; cbn [filter]; rewrite ?P, ?Q, IH;
    reflexivity.
Qed.

Lemma max_mtime_greatest (l : list file) (best : file) :
  In (max_mtime best l) (best :: l)
  /\ forall g, In g (best :: l) -> mtime g <= mtime (max_mtime best l).
Proof.
  destruct (max_mtime_first_greatest l best)
    as [(E & Le)|(pre & post & E & Lt & Pre & Post)].
  - rewrite E. split; [left; reflexivity|].
    intros g [<-|I]; [lia | apply Le, I].
  - split.
    + right. rewrite E at 2. apply in_or_app. right. left. reflexivity.
    + intros g [<-|I]; [lia|]. rewrite E in I.
      apply in_app_or in I as [I|[<-|I]];
        [specialize (Pre g I); lia | lia | apply Post, I].
Qed.

(** The derivation of the date leaves the time of the file system as it
    is. *)
Lemma determine_invoice_date_clock (w : world) :
  clock (snd (determine_invoice_date w)) = clock w.
Proof.
  unfold determine_invoice_date, bind, find_latest_invoice.
  destruct (glob_invoice (files w)) as [|g rest];
    unfold extract_date_from_latest_invoice, try_except, bind, of_option,
      logger, ret, raise;
    repeat match goal with
           | |- context [match ?x with _ => _ end] =>
               match x with
               | content _ => destruct x
               | extract_loop _ => destruct x as [? [?|]]
               | add_months _ _ => destruct x
               | replace_day _ _ => destruct x
               end; cbn
           end; reflexivity.
Qed.

Lemma max_mtime_last (l : list file) (x : file) :
  forall best,
    mtime best < mtime x -> (forall g, In g l -> mtime g < mtime x) ->
    max_mtime best (l ++ [x]) = x.
Proof.
  induction l as [|f rest IH]; intros best B L.
  - cbn. destruct (Z.ltb_spec (mtime best) (mtime x)); [reflexivity | lia].
  - cbn [app max_mtime]. apply IH.
    + destruct (mtime best <? mtime f); [apply L; left; reflexivity | exact B].
    + intros g I. apply L. right. exact I.
Qed.

(** What a run that returns a name has done. *)
Lemma auto_update_invoice_success (template_name : string) (w w' : world)
    (n : string) :
  auto_update_invoice template_name w = (Ok (Some n), w') ->
  exists tpl d w1 v,
    fst (load template_name w) = Ok tpl
    /\ determine_invoice_date w = (Ok d, w1)
    /\ make_fields d (draw w) = Some v
    /\ n = output_name d
    /\ locked w n = false
    /\ files w'
       = (filter (fun f => negb (String.eqb (fname f) n)) (files w)
          ++ [File n (clock w) (Some (fst (rewrite v tpl)))])%list.
Proof.
  unfold auto_update_invoice, try_except, bind. intros H.
  assert (L : snd (load template_name w) = w).
  { unfold load. destruct (find _ (files w)) as [f|]; [|reflexivity].
    destruct (content f); reflexivity. }
  destruct (load template_name w) as [[tpl|] w0]; cbn [fst snd] in L; subst w0;
    [|discriminate H].
  pose proof (determine_invoice_date_only_logs w) as O.
  pose proof (determine_invoice_date_clock w) as Ck.
  destruct (determine_invoice_date w) as [[d|] w1]; cbn [snd] in O, Ck;
    [|discriminate H].
  destruct O as (Fl & _ & Dr & Lk & _).
  unfold the_draw, of_option, raise, ret, logger in H.
  destruct (make_fields d (draw w1)) as [v|] eqn:MF; [|discriminate H].
  exists tpl, d, w1, v.
  destruct (rewrite v tpl) as [doc' st]. unfold save in H.
  cbn [locked add_log files clock] in H. rewrite Lk, Fl, Ck in H.
  destruct (locked w (output_name d)) eqn:K; [discriminate H|].
  injection H as <- <-. rewrite <- Dr.
  repeat split; try reflexivity; try assumption.
Qed.

End FilesFacts.

Import FilesFacts.

(** X1.  [find_latest_invoice] returns nothing exactly when no file is
    named [invoice_*.docx]; otherwise it returns a file of the directory
    with such a name whose modification time is the greatest among them,
    the first one in directory order when several share it, and logs its
    name. *)
Theorem find_latest_invoice_greatest (w : world) :
  (fst (find_latest_invoice w) = Ok None <-> glob_invoice (files w) = [])
  /\ forall f,
       fst (find_latest_invoice w) = Ok (Some f) ->
       In f (files w)
       /\ Str.is_prefix "invoice_" (fname f) = true
       /\ is_suffix_of ".docx" (Str.drop 8 (fname f)) = true
       /\ (exists pre post,
              glob_invoice (files w) = (pre ++ f :: post)%list
              /\ (forall g, In g pre -> mtime g < mtime f)
              /\ (forall g, In g post -> mtime g <= mtime f))
       /\ log (snd (find_latest_invoice w))
          = (log w ++ [Found_latest (fname f)])%list.
Proof.
  unfold find_latest_invoice.
  destruct (glob_invoice (files w)) as [|g rest] eqn:G.
  - split; [split; reflexivity|]. intros f H. discriminate H.
  - split; [split; discriminate|]. cbn [fst snd]. intros f H.
    injection H as <-.
    assert (Split : exists pre post,
               (g :: rest = pre ++ max_mtime g rest :: post)%list
               /\ (forall x, In x pre -> mtime x < mtime (max_mtime g rest))
               /\ (forall x, In x post -> mtime x <= mtime (max_mtime g rest))).
    { destruct (max_mtime_first_greatest rest g)
        as [(E & Le)|(pre & post & E & Lt & Pre & Post)].
      - exists [], rest. rewrite E. split; [reflexivity|].
        split; [intros x [] | exact Le].
      - exists (g :: pre), post. split; [cbn; congruence|].
        split; [|exact Post]. intros x [<-|I]; [exact Lt | apply Pre, I]. }
    destruct Split as (pre & post & E & Pre & Post).
    assert (I : In (max_mtime g rest) (glob_invoice (files w))).
    { rewrite G, E. apply in_or_app. right. left. reflexivity. }
    unfold glob_invoice in I. apply filter_In in I as (I & C).
    apply andb_prop in C as (C1 & C2).
    split; [exact I|]. split; [exact C1|]. split; [exact C2|].
    split; [|reflexivity]. exists pre, post. repeat split; assumption.
Qed.

(** X2.  After a run that returns a name, the file saved under that name
    carries the time of the file system at the save.  The next search
    for the latest invoice returns it when every other invoice file of
    the directory is older than that; when another invoice file is
    newer, the search returns a file of another name, not the one just
    saved. *)
Theorem saved_invoice_is_latest (template_name : string) (w w' : world)
    (n : string) :
  auto_update_invoice template_name w = (Ok (Some n), w') ->
  ((forall g, In g (glob_invoice (files w)) -> fname g <> n ->
              mtime g < clock w) ->
   exists f doc,
     fst (find_latest_invoice w') = Ok (Some f)
     /\ fname f = n /\ content f = Some doc /\ mtime f = clock w)
  /\ ((exists g, In g (glob_invoice (files w)) /\ fname g <> n
                 /\ clock w < mtime g) ->
      exists f,
        fst (find_latest_invoice w') = Ok (Some f) /\ fname f <> n).
Proof.
  intros H.
  destruct (auto_update_invoice_success _ _ _ _ H)
    as (tpl & d & w1 & v & _ & _ & _ & -> & _ & F).
  set (new := File (output_name d) (clock w) (Some (fst (rewrite v tpl)))) in *.
  assert (G : glob_invoice (files w')
              = (filter (fun f => negb (String.eqb (fname f) (output_name d)))
                        (glob_invoice (files w)) ++ [new])%list).
  { rewrite F. unfold glob_invoice. rewrite filter_app. cbn [filter fname new].
    destruct (output_name_listed d) as (-> & ->). cbn [andb]. f_equal.
    apply filter_comm. }
  split.
  - intros Older. exists new, (fst (rewrite v tpl)).
    split; [|repeat split].
    unfold find_latest_invoice. rewrite G.
    assert (Old : forall g,
               In g (filter (fun f => negb (String.eqb (fname f) (output_name d)))
                            (glob_invoice (files w))) ->
               mtime g < mtime new).
    { intros g I. apply filter_In in I as (I & C).
      apply negb_true_iff, String.eqb_neq in C. apply Older; assumption. }
    destruct (filter _ (glob_invoice (files w))) as [|g rest]; [reflexivity|].
    cbn [app fst]. rewrite max_mtime_last; [reflexivity | |].
    + apply Old. left. reflexivity.
    + intros x I. apply Old. right. exact I.
  - intros (g & I & N & Newer).
    assert (Ig : In g (glob_invoice (files w')))
      by (rewrite G; apply in_or_app; left; apply filter_In; split;
          [exact I | apply negb_true_iff, String.eqb_neq, N]).
    unfold find_latest_invoice. rewrite G in *.
    destruct (filter _ (glob_invoice (files w)) ++ [new])%list
      as [|x rest] eqn:L; [destruct Ig|].
    cbn [fst]. exists (max_mtime x rest). split; [reflexivity|].
    destruct (max_mtime_greatest rest x) as (In_r & Max).
    specialize (Max g Ig). rewrite <- L in In_r.
    apply in_app_or in In_r as [In_r|[E|[]]].
    + apply filter_In in In_r as (_ & C).
      apply negb_true_iff, String.eqb_neq in C. exact C.
    + rewrite <- E in Max. cbn [mtime new] in Max. lia.
Qed.

Lemma saved_invoice_is_latest_witness :
  exists f doc,
    fst (find_latest_invoice
           (snd (auto_update_invoice "template.docx" world_after_february)))
    = Ok (Some f)
    /\ fname f = "invoice_march_2025.docx" /\ content f = Some doc
    /\ mtime f = clock world_after_february.
Proof.
  apply (saved_invoice_is_latest "template.docx" world_after_february
           (snd (auto_update_invoice "template.docx" world_after_february))
           "invoice_march_2025.docx" eq_refl).
  intros g [<-|[]] _. vm_compute. reflexivity.
Defined.

(** X3.  A run that returns a name leaves every file with another name as
    it was, the log file of the program aside, and leaves exactly one
    file with that name, the document it saved, stamped with the time of
    the file system: an earlier file of the same name is replaced. *)
Theorem run_writes_one_file (template_name : string) (w w' : world)
    (n : string) :
  auto_update_invoice template_name w = (Ok (Some n), w') ->
  (forall f, fname f <> n -> fname f <> log_file ->
             (In f (files w') <-> In f (files w)))
  /\ exists new doc,
       fname new = n /\ content new = Some doc /\ mtime new = clock w
       /\ In new (files w')
       /\ forall f, In f (files w') -> fname f = n -> f = new.
Proof.
  intros H.
  destruct (auto_update_invoice_success _ _ _ _ H)
    as (tpl & d & w1 & v & _ & _ & _ & -> & _ & F).
  rewrite F. split.
  - intros f N _. rewrite in_app_iff, filter_In. cbn [In]. split.
    + intros [(I & _)|[E|[]]]; [exact I|]. subst f. cbn in N. congruence.
    + intros I. left. split; [exact I|].
      apply negb_true_iff, String.eqb_neq, N.
  - exists (File (output_name d) (clock w) (Some (fst (rewrite v tpl)))),
           (fst (rewrite v tpl)).
    split; [reflexivity|]. split; [reflexivity|]. split; [reflexivity|].
    split.
    + apply in_or_app. right. left. reflexivity.
    + intros f I E. apply in_app_or in I as [I|[<-|[]]]; [|reflexivity].
      apply filter_In in I as (_ & C). apply negb_true_iff, String.eqb_neq in C.
      contradiction.
Qed.

Lemma run_writes_one_file_witness :
  (forall f, fname f <> "invoice_june_2025.docx" -> fname f <> log_file ->
     (In f (files (snd (auto_update_invoice "template.docx" world_number_only)))
      <-> In f (files world_number_only)))
  /\ exists new doc,
       fname new = "invoice_june_2025.docx" /\ content new = Some doc
       /\ mtime new = clock world_number_only
       /\ In new (files (snd (auto_update_invoice "template.docx"
                                                  world_number_only)))
       /\ forall f,
            In f (files (snd (auto_update_invoice "template.docx"
                                                  world_number_only))) ->
            fname f = "invoice_june_2025.docx" -> f = new.
Proof.
  apply (run_writes_one_file "template.docx" world_number_only).
  vm_compute. reflexivity.
Defined.

(** ** What the rewriter leaves alone *)

Module FrameFacts.
Import RewriteFacts RoundTripFacts.

Lemma for_each_nth {A} (body : rw -> A -> A * rw) :
  forall l st i x,
    nth_error l i = Some x ->
    exists st', nth_error (fst (for_each body st l)) i
                = Some (fst (body st' x)).
Proof.
  induction l as [|y rest IH]; intros st i x H; [destruct i; discriminate H|].
  cbn [for_each]. destruct i as [|i].
  - injection H as ->. exists st.
    destruct (body st x) as [x' st1].
    destruct (for_each body st1 rest) as [rest' st2]. reflexivity.
  - destruct (body st y) as [y' st1]. destruct (IH st1 i x H) as (st' & E).
    exists st'. destruct (for_each body st1 rest) as [rest' st2]. exact E.
Qed.

Lemma for_each_same {A} (body : rw -> A -> A * rw) (l : list A) :
  (forall st x, In x l -> body st x = (x, st)) ->
  forall st, for_each body st l = (l, st).
Proof.
  induction l as [|x rest IH]; intros B st; [reflexivity|].
  cbn [for_each]. rewrite (B st x (or_introl eq_refl)).
  rewrite IH by (intros s y I; apply B; right; exact I). reflexivity.
Qed.

Lemma rw_eta3 (st : rw) :
  RW (date_format1_updated st) (date_format2_updated st || false)
     (invoice_number_updated st || false) (service_period_updated st || false)
     (logged st ++ [] ++ [] ++ [])
  = st.
Proof. destruct st; cbn. rewrite !orb_false_r, app_nil_r. reflexivity. Qed.

Lemma rw_eta2 (st : rw) :
  RW (date_format1_updated st) (date_format2_updated st || false)
     (invoice_number_updated st || false) (service_period_updated st)
     (logged st ++ [] ++ [])
  = st.
Proof. destruct st; cbn. rewrite !orb_false_r, app_nil_r. reflexivity. Qed.

(** A paragraph of a cell without a label and without a service period
    passes through the table loop as it is. *)
Lemma step_cell_paragraph_plain (v : fields) (st : rw) (q : string) :
  Str.contains "Date:" q = false -> Str.contains "Invoice No:" q = false ->
  has_region Service q = false ->
  step_cell_paragraph v st q = (q, st).
Proof.
  intros D N S. unfold step_cell_paragraph. rewrite N. cbn [andb].
  rewrite update_off, D. cbn [andb]. rewrite update_off.
  unfold has_region in S. unfold update.
  destruct (Re.search service_period_pattern q); [discriminate S|].
  destruct (negb (service_period_updated st)); cbn [note];
    rewrite rw_eta3; reflexivity.
Qed.

(** A top-level paragraph without a label passes through the last loop
    as it is. *)
Lemma step_paragraph_again_plain (v : fields) (st : rw) (q : string) :
  Str.contains "Date:" q = false -> Str.contains "Invoice No:" q = false ->
  step_paragraph_again v st q = (q, st).
Proof.
  intros D N. unfold step_paragraph_again. rewrite N, andb_false_r.
  rewrite update_off, D, andb_false_r. cbn [andb]. rewrite update_off.
  cbn [note]. rewrite rw_eta2. reflexivity.
Qed.

End FrameFacts.

Import FrameFacts.

(** X5.  A top-level paragraph that contains neither "Date:" nor
    "Invoice No:" is at the same place with the same text after the
    rewriting; so is a paragraph of a cell that contains neither label
    and no service period. *)
Theorem unlabelled_paragraphs_are_kept (v : fields) (doc : document) :
  (forall i q,
      nth_error (paragraphs doc) i = Some q ->
      Str.contains "Date:" q = false -> Str.contains "Invoice No:" q = false ->
      nth_error (paragraphs (fst (rewrite v doc))) i = Some q)
  /\ (forall i j k l t row cl q,
         nth_error (tables doc) i = Some t -> nth_error t j = Some row ->
         nth_error row k = Some cl -> nth_error cl l = Some q ->
         Str.contains "Date:" q = false ->
         Str.contains "Invoice No:" q = false ->
         has_region Service q = false ->
         exists t' row' cl',
           nth_error (tables (fst (rewrite v doc))) i = Some t'
           /\ nth_error t' j = Some row' /\ nth_error row' k = Some cl'
           /\ nth_error cl' l = Some q).
Proof.
  unfold rewrite. split.
  - intros i q H D N.
    destruct (for_each_nth (step_date_format1 v) (paragraphs doc) rw0 i q H)
      as (s1 & E1).
    rewrite (step_date_format1_no_label v s1 q D) in E1. cbn [fst] in E1.
    destruct (for_each (step_date_format1 v) rw0 (paragraphs doc))
      as [paras1 st1]. cbn [fst] in E1.
    destruct (for_each (for_each (for_each (for_each (step_cell_paragraph v))))
                       st1 (tables doc)) as [tables2 st2].
    destruct (negb (invoice_number_updated st2) || negb (date_format2_updated st2));
      [|exact E1].
    destruct (for_each_nth (step_paragraph_again v) paras1 st2 i q E1)
      as (s3 & E3).
    rewrite (step_paragraph_again_plain v s3 q D N) in E3.
    destruct (for_each (step_paragraph_again v) st2 paras1). exact E3.
  - intros i j k l t row cl q Ht Hr Hc Hq D N S.
    destruct (for_each (step_date_format1 v) rw0 (paragraphs doc))
      as [paras1 st1].
    destruct (for_each_nth (for_each (for_each (for_each (step_cell_paragraph v))))
                (tables doc) st1 i t Ht) as (s1 & E1).
    destruct (for_each_nth (for_each (for_each (step_cell_paragraph v)))
                t s1 j row Hr) as (s2 & E2).
    destruct (for_each_nth (for_each (step_cell_paragraph v))
                row s2 k cl Hc) as (s3 & E3).
    destruct (for_each_nth (step_cell_paragraph v) cl s3 l q Hq) as (s4 & E4).
    rewrite (step_cell_paragraph_plain v s4 q D N S) in E4. cbn [fst] in E4.
    exists (fst (for_each (for_each (for_each (step_cell_paragraph v))) s1 t)),
      (fst (for_each (for_each (step_cell_paragraph v)) s2 row)),
      (fst (for_each (step_cell_paragraph v) s3 cl)).
    split; [|split; [exact E2 | split; [exact E3 | exact E4]]].
    destruct (for_each (for_each (for_each (for_each (step_cell_paragraph v))))
                       st1 (tables doc)) as [tables2 st2]. cbn [fst] in E1.
    destruct (negb (invoice_number_updated st2) || negb (date_format2_updated st2));
      [destruct (for_each (step_paragraph_again v) st2 paras1)|]; exact E1.
Qed.

(** X6.  A template in which no paragraph contains "Date:" or
    "Invoice No:" and no cell has a service period comes back unchanged,
    with no flag set, nothing logged by the loops and all four warnings
    due. *)
Theorem rewrite_without_regions (v : fields) (doc : document) :
  (forall q, In q (paragraphs doc) ->
             Str.contains "Date:" q = false
             /\ Str.contains "Invoice No:" q = false) ->
  (forall q, In q (cell_paragraphs doc) ->
             Str.contains "Date:" q = false
             /\ Str.contains "Invoice No:" q = false
             /\ has_region Service q = false) ->
  rewrite v doc = (doc, rw0)
  /\ warnings (snd (rewrite v doc))
     = [No_date_format1; No_date_format2; No_invoice_number; No_service_period].
Proof.
  intros HP HC.
  assert (E : rewrite v doc = (doc, rw0)).
  { unfold rewrite.
    rewrite (for_each_date_format1_no_label v (paragraphs doc)
               (fun q I => proj1 (HP q I))).
    assert (T : for_each (for_each (for_each (for_each (step_cell_paragraph v))))
                         rw0 (tables doc) = (tables doc, rw0)).
    { apply for_each_same. intros s1 t It.
      apply for_each_same. intros s2 row Ir.
      apply for_each_same. intros s3 cl Ic.
      apply for_each_same. intros s4 q Iq.
      assert (I : In q (cell_paragraphs doc)).
      { unfold cell_paragraphs. apply in_concat. exists cl. split; [|exact Iq].
        apply in_concat. exists row. split; [|exact Ic].
        apply in_concat. exists t. split; assumption. }
      destruct (HC q I) as (D & N & S).
      apply step_cell_paragraph_plain; assumption. }
    rewrite T. cbn [rw0 invoice_number_updated date_format2_updated negb orb].
    rewrite (for_each_same (step_paragraph_again v) (paragraphs doc)).
    - destruct doc; reflexivity.
    - intros st q I. destruct (HP q I) as (D & N).
      apply step_paragraph_again_plain; assumption. }
  split; [exact E|]. rewrite E. reflexivity.
Qed.

Lemma rewrite_without_regions_witness :
  rewrite fields_february_2025 (Doc ["INVOICE"; "Thank you"] [[[["Total: 100"]]]])
  = (Doc ["INVOICE"; "Thank you"] [[[["Total: 100"]]]], rw0).
Proof.
  apply (rewrite_without_regions fields_february_2025
           (Doc ["INVOICE"; "Thank you"] [[[["Total: 100"]]]])).
  - intros q [<-|[<-|[]]]; split; reflexivity.
  - intros q [<-|[]]. repeat split; reflexivity.
Defined.

(** ** The derived date *)

Module DerivedFacts.
Import Re DateFacts FieldFacts ExtractFacts.

Lemma rep_continues (cs : cset) (s : string) :
  forall lo hi k x, rep cs lo hi s k = Some x -> exists s', k s' = Some x.
Proof.
  induction s as [|a t IH]; intros lo hi k x H; cbn [rep] in H.
  - destruct lo; [exists ""; exact H | discriminate H].
  - assert (Stop : match lo with O => k (String a t) | S _ => None end = Some x ->
                   exists s', k s' = Some x)
      by (destruct lo; [intros E; exists (String a t); exact E | discriminate]).
    destruct (hi_open hi && mem cs a); [|exact (Stop H)].
    destruct (rep cs (pred lo) (dec_hi hi) t k) eqn:R; [|exact (Stop H)].
    injection H as <-. exact (IH _ _ _ _ R).
Qed.

(** The matcher only adds groups of the pattern to the groups it was
    given. *)
Lemma run_adds_groups (r : regex) :
  forall s c k x,
    run r s c k = Some x ->
    exists s' ext,
      k s' (ext ++ c)%list = Some x
      /\ forall e, In e ext -> In (fst e) (groups r).
Proof.
  induction r as [|cs|r1 IH1 r2 IH2|r1 IH1 r2 IH2|cs lo hi|n r1 IH1];
    intros s c k x H; cbn [run] in H.
  - exists s, []. split; [exact H | intros e []].
  - destruct s as [|a t]; [discriminate H|].
    destruct (mem cs a); [|discriminate H].
    exists t, []. split; [exact H | intros e []].
  - destruct (IH1 _ _ _ _ H) as (s1 & e1 & H1 & G1).
    destruct (IH2 _ _ _ _ H1) as (s2 & e2 & H2 & G2).
    exists s2, (e2 ++ e1)%list. rewrite <- app_assoc. split; [exact H2|].
    intros e I. cbn [groups]. apply in_or_app.
    apply in_app_or in I as [I|I]; [right; apply G2, I | left; apply G1, I].
  - destruct (run r1 s c k) as [y|] eqn:R.
    + injection H as <-. destruct (IH1 _ _ _ _ R) as (s1 & e1 & H1 & G1).
      exists s1, e1. split; [exact H1|]. intros e I. cbn [groups].
      apply in_or_app. left. apply G1, I.
    + destruct (IH2 _ _ _ _ H) as (s2 & e2 & H2 & G2).
      exists s2, e2. split; [exact H2|]. intros e I. cbn [groups].
      apply in_or_app. right. apply G2, I.
  - destruct (rep_continues _ _ _ _ _ _ H) as (s' & K).
    exists s', []. split; [exact K | intros e []].
  - destruct (IH1 _ _ _ _ H) as (s1 & e1 & H1 & G1).
    exists s1, ((n, (String.length s, String.length s1)) :: e1).
    split; [exact H1|]. intros e [<-|I]; [left; reflexivity|].
    right. apply G1, I.
Qed.

Lemma lookup_skip (n : nat) (ext rest : caps) :
  (forall e, In e ext -> fst e <> n) ->
  lookup n (ext ++ rest)%list = lookup n rest.
Proof.
  induction ext as [|[m v] ext IH]; intros H; [reflexivity|].
  cbn [app lookup].
  destruct (Nat.eqb_spec m n) as [E|E];
    [exfalso; apply (H (m, v) (or_introl eq_refl)); exact E|].
  apply IH. intros e I. apply H. right. exact I.
Qed.

Lemma validb_valid (y m d t : Z) : validb y m d = true -> valid (DT y m d t).
Proof.
  unfold validb, valid. cbn [year month day]. intros H.
  repeat (apply andb_prop in H as [H ?]).
  repeat match goal with E : (_ <=? _) = true |- _ => apply Z.leb_le in E end.
  apply Z.leb_le in H. lia.
Qed.

(** Whatever follows "1 " in the text, a date that [strptime] reads from
    it is a first of a month at midnight. *)
Lemma strptime_day_is_one (tail : string) (d : datetime) :
  strptime_d_B_Y (String "1" (String " " tail)) = Some d ->
  valid d /\ day d = 1 /\ tod d = 0.
Proof.
  unfold strptime_d_B_Y, match_at, strptime_regex.
  rewrite run_seq, strptime_day_one.
  destruct (run strptime_tail _ _ _) as [[rem c]|] eqn:R; [|discriminate].
  destruct (run_adds_groups _ _ _ _ _ R) as (s' & ext & K & G).
  injection K as _ <-. destruct rem; [|discriminate].
  assert (G1 : group (MObj (String "1" (String " " tail)) 0
                           (String.length (String "1" (String " " tail)))
                           (ext ++ [(1%nat, (S (S (String.length tail)),
                                             S (String.length tail)))])%list)
                     1 = "1").
  { unfold group. cbn [m_caps m_text]. rewrite lookup_skip.
    - cbn [lookup Nat.eqb String.length].
      replace (S (S (String.length tail)) - S (String.length tail))%nat
        with 1%nat by lia.
      rewrite Nat.sub_diag. reflexivity.
    - intros e I. specialize (G e I). cbn in G.
      destruct G as [<-|[<-|[]]]; discriminate. }
  rewrite G1. destruct (index_of _ month_names 1) as [mo|]; [|discriminate].
  change (Dec.int (strip_space "1")) with 1.
  destruct (validb _ mo 1) eqn:V; [|discriminate].
  intros E. injection E as <-. split; [apply validb_valid, V|].
  split; reflexivity.
Qed.

Lemma extract_loop_first_of_month (paras : list string) (d : datetime) :
  snd (extract_loop paras) = Some d -> valid d /\ day d = 1 /\ tod d = 0.
Proof.
  induction paras as [|text rest IH]; cbn [extract_loop]; [discriminate|].
  destruct (extract_guard text); [|exact IH].
  destruct (search extract_pattern text) as [m|]; [|exact IH].
  destruct (strptime_d_B_Y _) as [date|] eqn:P; [|exact IH].
  cbn [snd]. intros E. injection E as <-.
  apply (strptime_day_is_one _ _ P).
Qed.

Lemma add_months_first (d d' : datetime) (k : Z) :
  add_months d k = Some d' -> day d = 1 -> valid d' /\ day d' = 1.
Proof.
  unfold add_months. intros H D.
  destruct (if 12 <? month d + k then (year d + 1, month d + k - 12)
            else if month d + k <? 1 then (year d - 1, month d + k + 12)
                 else (year d, month d + k)) as [y m].
  destruct (validb y m (Z.min (days_in_month y m) (day d))) eqn:V;
    [|discriminate H].
  injection H as <-. split; [apply validb_valid, V|].
  cbn [day]. pose proof (days_in_month_bounds y m). lia.
Qed.

Lemma replace_day_valid (d d' : datetime) (n : Z) :
  replace_day d n = Some d' -> valid d' /\ day d' = n.
Proof.
  unfold replace_day. destruct (validb (year d) (month d) n) eqn:V;
    [|discriminate].
  intros E. injection E as <-. split; [apply validb_valid, V | reflexivity].
Qed.

Lemma determine_first_of_month (w : world) (d : datetime) :
  fst (determine_invoice_date w) = Ok d -> valid d /\ day d = 1.
Proof.
  unfold determine_invoice_date, bind.
  destruct (find_latest_invoice w) as [[[f|]|] w1]; [| |discriminate].
  - unfold extract_date_from_latest_invoice, try_except, bind, of_option,
      ret, raise, logger.
    destruct (content f) as [doc|].
    + pose proof (extract_loop_first_of_month (paragraphs doc)) as X.
      destruct (extract_loop (paragraphs doc)) as [es [last|]]; cbn [snd] in X.
      * destruct (X last eq_refl) as (_ & D1 & _).
        destruct (add_months last 1) as [next|] eqn:A; [|discriminate].
        cbn [fst]. intros E. injection E as <-.
        apply (add_months_first _ _ _ A D1).
      * destruct (replace_day _ 1) as [cur|] eqn:R; [|discriminate].
        cbn [fst]. intros E. injection E as <-.
        apply (replace_day_valid _ _ _ R).
    + destruct (replace_day _ 1) as [cur|] eqn:R; [|discriminate].
      cbn [fst]. intros E. injection E as <-.
      apply (replace_day_valid _ _ _ R).
  - unfold of_option, ret, raise, logger.
    destruct (replace_day _ 1) as [cur|] eqn:R; [|discriminate].
    cbn [fst]. intros E. injection E as <-.
    apply (replace_day_valid _ _ _ R).
Qed.

End DerivedFacts.

Import DerivedFacts.

(** X7.  Whatever the directory and the clock, a date that
    [determine_invoice_date] returns is a valid date on the first of a
    month; the long date written is then "1st <Month> <Year>" and the
    slash date "1/<mm>/<year>". *)
Theorem derived_date_is_first_of_month (w : world) (d : datetime) :
  fst (determine_invoice_date w) = Ok d ->
  valid d /\ day d = 1
  /\ forall r v,
       make_fields d r = Some v ->
       date_format1 v = "1st " ++ month_name (month d) ++ " " ++ Dec.str (year d)
       /\ date_format2 v
          = "1/" ++ Dec.str02 (month d) ++ "/" ++ Dec.str (year d).
Proof.
  intros H. destruct (determine_first_of_month w d H) as (V & D1).
  split; [exact V|]. split; [exact D1|]. intros r v MF.
  unfold make_fields in MF. destruct (make_service_period d); [|discriminate MF].
  injection MF as <-. cbn [date_format1 date_format2].
  unfold long_date, make_date_format2, strftime_B_Y, strftime_Y.
  rewrite D1. split; reflexivity.
Qed.

Lemma derived_date_is_first_of_month_witness :
  valid (DT 2025 2 1 0) /\ day (DT 2025 2 1 0) = 1.
Proof.
  destruct (derived_date_is_first_of_month world_two_dates (DT 2025 2 1 0)
              eq_refl) as (V & D & _).
  split; [exact V | exact D].
Defined.



Import DecimalFacts NameFacts.

(** X8.  The name of the saved file tells the month and the year of the
    invoice date: two dates give the same file name only when they are in
    the same month of the same year, so an invoice overwrites only an
    invoice of its own month. *)
Theorem output_name_tells_the_month (d1 d2 : datetime) :
  valid d1 -> valid d2 ->
  output_name d1 = output_name d2 ->
  year d1 = year d2 /\ month d1 = month d2.
Proof.
  intros (Y1 & M1 & _) (Y2 & M2 & _) E. unfold MINYEAR, MAXYEAR in *.
  unfold output_name, strftime_B_underscore_Y, strftime_Y in E.
  cbn [append] in E. injection E as E.
  apply append_cancel_r in E. rewrite !lower_app in E.
  change (Str.lower ("_" ++ ?s)) with (String "_" (Str.lower s)) in E.
  cbn [append Str.lower] in E.
  destruct (str_spec (year d1) ltac:(lia)) as (A1 & _ & _).
  destruct (str_spec (year d2) ltac:(lia)) as (A2 & _ & _).
  rewrite (lower_digits _ A1), (lower_digits _ A2) in E.
  change (Str.lower_char "_") with "_"%char in E.
  destruct (month_part _ _ _ _ M1 M2 E) as [Em Ey].
  split; [|exact Em]. apply str_injective; [lia | lia | exact Ey].
Qed.

Lemma output_name_tells_the_month_witness :
  year (DT 2025 2 1 0) = year (DT 2025 2 28 7)
  /\ month (DT 2025 2 1 0) = month (DT 2025 2 28 7).
Proof.
  apply output_name_tells_the_month;
    [vm_compute; repeat split; discriminate
    | vm_compute; repeat split; discriminate
    | reflexivity].
Defined.

(** X9.  The financial-year label names the April-to-March year: two dates
    get the same label exactly when their financial years start in the same
    calendar year. *)
Theorem financial_year_label_names_the_year (d1 d2 : datetime) :
  valid d1 -> valid d2 ->
  (get_financial_year d1 = get_financial_year d2
   <-> fy_start d1 = fy_start d2).
Proof.
  intros (Y1 & _) (Y2 & _). unfold MINYEAR, MAXYEAR in *.
  rewrite !get_financial_year_start. split; [|intros ->; reflexivity].
  assert (S1 : 0 <= fy_start d1) by (unfold fy_start; destruct (4 <=? _); lia).
  assert (S2 : 0 <= fy_start d2) by (unfold fy_start; destruct (4 <=? _); lia).
  intros E. change ("-" ++ ?s) with (String "-" s) in E.
  destruct (str_spec _ S1) as (A1 & _ & _).
  destruct (str_spec _ S2) as (A2 & _ & _).
  destruct (digits_before_mark "-" _ eq_refl _ _ _ A1 A2 E) as [Es _].
  apply str_injective; assumption.
Qed.

Lemma financial_year_label_names_the_year_witness :
  get_financial_year (DT 2024 4 1 0) = get_financial_year (DT 2025 3 31 0)
  <-> fy_start (DT 2024 4 1 0) = fy_start (DT 2025 3 31 0).
Proof.
  apply financial_year_label_names_the_year;
    vm_compute; repeat split; discriminate.
Defined.

(** ** From one invoice to the next *)

Module ChainFacts.
Import Re Shape ShapeFacts ExtractFacts FieldFacts.

Lemma preceding_of_next (y m : Z) :
  1 <= m <= 12 ->
  preceding_month (year (first_of_next_month y m))
                  (month (first_of_next_month y m)) = (y, m).
Proof.
  intros Hm. unfold first_of_next_month, preceding_month.
  destruct (Z.eqb_spec m 12) as [->|N]; cbn [year month].
  - change (1 =? 1) with true. cbv iota. f_equal. lia.
  - replace (m + 1 =? 1) with false by lia. f_equal; lia.
Qed.

Lemma first_of_next_month_valid (y m : Z) :
  1 <= y <= 9999 -> 1 <= m <= 12 -> ~ (y = 9999 /\ m = 12) ->
  valid (first_of_next_month y m)
  /\ ~ (year (first_of_next_month y m) = 1
        /\ month (first_of_next_month y m) = 1).
Proof.
  intros Hy Hm N. unfold first_of_next_month.
  destruct (Z.eqb_spec m 12) as [->|E]; cbn [year month].
  - split; [|lia]. unfold valid, MINYEAR, MAXYEAR. cbn [year month day].
    change (days_in_month (y + 1) 1) with 31. lia.
  - split; [|lia]. unfold valid, MINYEAR, MAXYEAR. cbn [year month day].
    pose proof (days_in_month_bounds y (m + 1)). lia.
Qed.

Lemma int_pad4 (k : Z) : 0 <= k <= 9999 -> Dec.int (pad4 k) = k.
Proof.
  intros H. unfold pad4, Dec.int. cbn [Dec.int_acc].
  rewrite !DecFacts.digit_val_digit_char by DecFacts.zdiv. DecFacts.zdiv.
Qed.

Lemma canon_short_year (k : Z) :
  0 <= k <= 999 ->
  canon_str (Dec.str k) = "0" \/ canon_str (Dec.str k) = "00"
  \/ canon_str (Dec.str k) = "000".
Proof.
  intros H.
  assert (C : 0 <= k <= 9 \/ 10 <= k <= 99 \/ 100 <= k <= 999) by lia.
  destruct C as [C|[C|C]].
  - left. rewrite (DecFacts.str_1 k C). cbn [canon_str].
    rewrite !canon_digit_char by DecFacts.zdiv. reflexivity.
  - right. left. rewrite (DecFacts.str_2 k C). cbn [canon_str].
    rewrite !canon_digit_char by DecFacts.zdiv. reflexivity.
  - right. right. rewrite (DecFacts.str_3 k C). cbn [canon_str].
    rewrite !canon_digit_char by DecFacts.zdiv. reflexivity.
Qed.

(** [strptime] with ["%Y"] wants four digits. *)
Lemma strptime_short_year (k m : Z) :
  0 <= k <= 999 -> 1 <= m <= 12 ->
  strptime_d_B_Y ("1 " ++ month_name m ++ " " ++ Dec.str k) = None.
Proof.
  intros Hk Hm. unfold strptime_d_B_Y.
  assert (K : forall (t : string) (c' : caps),
             (fun s' c0 => Some (String.length s', c0)) t c'
             = (fun s' c0 => Some (String.length s', c0)) (canon_str t) c')
    by (intros; cbv beta; rewrite canon_str_length; reflexivity).
  assert (MA : match_at strptime_regex ("1 " ++ month_name m ++ " " ++ Dec.str k)
               = None).
  { unfold match_at, strptime_regex. rewrite run_seq.
    change ("1 " ++ ?t)%string with (String "1" (String " " t)).
    rewrite strptime_day_one.
    change (String " " ?t) with (" " ++ t)%string.
    rewrite (run_canon strptime_tail eq_refl _ _ _ _ K).
    rewrite !canon_str_app.
    destruct (canon_short_year k Hk) as [E|[E|E]]; rewrite E;
      each_month Hm; vm_compute; reflexivity. }
  rewrite MA. reflexivity.
Qed.

Lemma extract_loop_without_label (ps : list string) :
  (forall q, In q ps -> Str.contains "Date:" q = false) ->
  extract_loop ps = ([], None).
Proof.
  intros H. rewrite <- (app_nil_r ps). apply (extract_loop_skip ps [] H).
Qed.

End ChainFacts.

Import ChainFacts.

(** X10.  The service period of the new invoice starts in the month of the
    latest invoice: when the first paragraph with "Date:" of the latest
    invoice is a dated line of month [m] of year [y], the service period
    written runs from the 7th of that month to the 6th of the month of the
    new invoice date. *)
Theorem service_period_starts_in_latest_month
    (w w1 : world) (f : file) (doc : document) (pre post : list string)
    (y m n r : Z) :
  find_latest_invoice w = (Ok (Some f), w1) ->
  content f = Some doc ->
  paragraphs doc = (pre ++ dated_line y m n :: post)%list ->
  (forall q, In q pre -> Str.contains "Date:" q = false) ->
  1000 <= y <= 9999 -> 1 <= m <= 12 -> 1 <= n <= 31 ->
  ~ (y = 9999 /\ m = 12) ->
  exists d v,
    fst (determine_invoice_date w) = Ok d
    /\ make_fields d r = Some v
    /\ service_period v
       = "7th " ++ month_name m ++ " " ++ Dec.str y
         ++ " to 6th " ++ month_name (month d) ++ " " ++ Dec.str (year d).
Proof.
  intros F C P Q Hy Hm Hn N.
  exists (first_of_next_month y m).
  destruct (first_of_next_month_valid y m ltac:(lia) Hm N) as (V & N1).
  pose proof (FieldFacts.make_service_period_text _ V N1) as SP.
  unfold service_period_text in SP. rewrite (preceding_of_next y m Hm) in SP.
  eexists. split; [|split].
  - exact (ExtractFacts.determine_after_dated_line
             w w1 f doc pre post y m n F C P Q Hy Hm Hn N).
  - unfold make_fields. rewrite SP. reflexivity.
  - reflexivity.
Qed.

Lemma service_period_starts_in_latest_month_witness :
  exists d v,
    fst (determine_invoice_date world_two_dates) = Ok d
    /\ make_fields d 1234 = Some v
    /\ service_period v
       = "7th " ++ month_name 1 ++ " " ++ Dec.str 2025
         ++ " to 6th " ++ month_name (month d) ++ " " ++ Dec.str (year d).
Proof.
  apply (service_period_starts_in_latest_month
           world_two_dates
           (add_log world_two_dates [Found_latest "invoice_june_2025.docx"])
           (File "invoice_june_2025.docx" 9 (Some invoice_with_two_dates))
           invoice_with_two_dates [] ["Date: 1st June 2025"] 2025 1 1 1234).
  - reflexivity.
  - reflexivity.
  - reflexivity.
  - intros q [].
  - lia.
  - lia.
  - lia.
  - lia.
Defined.

(** X11.  A dated line whose year is below 1000 is reported and passed
    over.  The year is read as a number and written again without its
    zeros in front, which [strptime] refuses; the error is logged with the
    text that was tried, and the search goes on with the paragraphs that
    follow. *)
Theorem short_year_is_passed_over (k m n : Z) (rest : list string) :
  0 <= k <= 999 -> 1 <= m <= 12 -> 1 <= n <= 31 ->
  extract_loop
    (("Date: " ++ ordinal n ++ " " ++ month_name m ++ " " ++ pad4 k) :: rest)
  = (Could_not_parse ("1 " ++ month_name m ++ " " ++ Dec.str k)
       :: fst (extract_loop rest),
     snd (extract_loop rest)).
Proof.
  intros Hk Hm Hn.
  assert (D : forall x, 0 <= x <= 9 -> Str.is_digit (Dec.digit_char x) = true)
    by apply DecFacts.is_digit_digit_char.
  pose proof (ExtractFacts.search_dated_line _ _ _ _
                (D (k / 1000) ltac:(DecFacts.zdiv))
                (D (k / 100 mod 10) ltac:(DecFacts.zdiv))
                (D (k / 10 mod 10) ltac:(DecFacts.zdiv))
                (D (k mod 10) ltac:(DecFacts.zdiv)) m n Hm Hn) as S.
  cbv zeta in S. fold (pad4 k) in S.
  destruct S as (G & mo & E & G2 & G3).
  cbn [extract_loop]. rewrite G, E, G2, G3, (int_pad4 k) by lia.
  rewrite (strptime_short_year k m Hk Hm). reflexivity.
Qed.

Lemma short_year_is_passed_over_witness :
  extract_loop
    (("Date: " ++ ordinal 1 ++ " " ++ month_name 3 ++ " " ++ pad4 999)
       :: ["Date: 1st June 2025"])
  = (Could_not_parse ("1 " ++ month_name 3 ++ " " ++ Dec.str 999)
       :: fst (extract_loop ["Date: 1st June 2025"]),
     snd (extract_loop ["Date: 1st June 2025"])).
Proof.
  apply (short_year_is_passed_over 999 3 1 ["Date: 1st June 2025"]); lia.
Defined.

(** ** Month names and the script *)

Module MainFacts.
Import RunFacts DecimalFacts.

Lemma digit_val_bounds (c : ascii) :
  Str.is_digit c = true -> 0 <= Dec.digit_val c <= 9.
Proof.
  unfold Str.is_digit, Dec.digit_val. intros H.
  apply andb_prop in H as [L U].
  apply Nat.leb_le in L. apply Nat.leb_le in U. lia.
Qed.

(** A number from 100 on is written with three characters at least. *)
Lemma str_long (n : Z) :
  100 <= n -> exists a b c t, Dec.str n = String a (String b (String c t)).
Proof.
  intros H. destruct (str_spec n ltac:(lia)) as (A & I & N).
  destruct (Dec.str n) as [|a [|b [|c t]]].
  - congruence.
  - exfalso. cbn [Str.all_chars] in A. apply andb_prop in A as [Da _].
    pose proof (digit_val_bounds a Da). unfold Dec.int in I.
    cbn [Dec.int_acc] in I. lia.
  - exfalso. cbn [Str.all_chars] in A. apply andb_prop in A as [Da A].
    apply andb_prop in A as [Db _].
    pose proof (digit_val_bounds a Da). pose proof (digit_val_bounds b Db).
    unfold Dec.int in I. cbn [Dec.int_acc] in I. lia.
  - exists a, b, c, t. reflexivity.
Qed.

(** The pattern of ["%m"] reads two characters at most. *)
Lemma strptime_month_long (a b c : ascii) (t : string) :
  strptime_month (String a (String b (String c t))) = None.
Proof.
  unfold strptime_month, Re.match_at, strptime_m.
  cbn [Re.run Re.alts String.length].
  repeat match goal with
         | |- context [if ?x then _ else _] => destruct x
         end; reflexivity.
Qed.

Lemma strptime_month_two_digits (a b : Z) :
  0 <= a <= 9 -> 0 <= b <= 9 -> 13 <= 10 * a + b ->
  strptime_month (String (Dec.digit_char a) (String (Dec.digit_char b) ""))
  = None.
Proof.
  intros Ha Hb H.
  destruct (DecFacts.digit_cases a Ha)
    as [E|[E|[E|[E|[E|[E|[E|[E|[E|E]]]]]]]]]; subst a;
    destruct (DecFacts.digit_cases b Hb)
      as [E|[E|[E|[E|[E|[E|[E|[E|[E|E]]]]]]]]]; subst b;
    first [vm_compute; reflexivity | lia].
Qed.

Lemma strptime_month_negative (n : Z) : n < 0 -> strptime_month (Dec.str n) = None.
Proof.
  intros H. unfold Dec.str. replace (n <? 0) with true by lia.
  generalize (Dec.digits (S (Z.to_nat (Z.log2 (- n)))) (- n) ""). intros t.
  reflexivity.
Qed.

(** The templates are among the documents. *)
Lemma glob_template_docx (fs : list file) :
  glob_template fs
  = filter (fun f => Str.contains "template"
                       (Str.take (String.length (fname f) - 5) (fname f)))
           (glob_docx fs).
Proof.
  unfold glob_template, glob_docx. induction fs as [|f fs IH]; [reflexivity|].
  cbn [filter]. destruct (negb (hidden (fname f)) && is_suffix_of ".docx" (fname f));
    cbn [andb filter]; rewrite IH; reflexivity.
Qed.

Lemma glob_docx_in (fs : list file) (f : file) :
  In f (glob_docx fs) ->
  In f fs /\ hidden (fname f) = false /\ is_suffix_of ".docx" (fname f) = true.
Proof.
  unfold glob_docx. intros I. apply filter_In in I as [I P].
  apply andb_prop in P as [H S]. apply negb_true_iff in H. auto.
Qed.

(** The update routine returns, with the directory as it was and the
    error logged last, or with the file saved and that logged last. *)
Lemma auto_update_invoice_outcome (template_name : string) (w : world) :
  exists r w' es,
    auto_update_invoice template_name w = (Ok r, w')
    /\ log w' = (log w ++ es)%list
    /\ (r = None ->
        files w' = files w /\ exists es0, es = (es0 ++ [Error_updating])%list)
    /\ (forall n, r = Some n ->
        (exists es0, es = (es0 ++ [Saved n])%list)
        /\ exists t doc, In (File n t (Some doc)) (files w')).
Proof.
  unfold auto_update_invoice, try_except, bind.
  assert (L : snd (load template_name w) = w).
  { unfold load. destruct (find _ (files w)) as [f|]; [|reflexivity].
    destruct (content f); reflexivity. }
  assert (Fail : forall w1, only_logs w w1 ->
            exists es,
              log (add_log w1 [Error_updating]) = (log w ++ es)%list
              /\ (@None string = None ->
                  files (add_log w1 [Error_updating]) = files w
                  /\ exists es0, es = (es0 ++ [Error_updating])%list)
              /\ (forall n, @None string = Some n ->
                  (exists es0, es = (es0 ++ [Saved n])%list)
                  /\ exists t doc,
                      In (File n t (Some doc))
                         (files (add_log w1 [Error_updating])))).
  { intros w1 (F & _ & _ & _ & es & E). exists (es ++ [Error_updating])%list.
    split; [cbn [log add_log]; rewrite E, <- app_assoc; reflexivity|].
    split; [intros _; split; [exact F | exists es; reflexivity]|].
    discriminate. }
  destruct (load template_name w) as [[doc|] w0]; cbn [fst snd] in L; subst w0.
  2:{ exists None, (add_log w [Error_updating]).
      destruct (Fail w (only_logs_refl w)) as (es & P). exists es.
      split; [reflexivity | exact P]. }
  pose proof (determine_invoice_date_only_logs w) as O.
  destruct (determine_invoice_date w) as [[d|] w1]; cbn [snd] in O.
  2:{ exists None, (add_log w1 [Error_updating]).
      destruct (Fail w1 O) as (es & P). exists es.
      split; [reflexivity | exact P]. }
  unfold the_draw, of_option, raise, ret, logger.
  destruct (make_fields d (draw w1)) as [v|].
  2:{ exists None, (add_log w1 [Error_updating]).
      destruct (Fail w1 O) as (es & P). exists es.
      split; [reflexivity | exact P]. }
  destruct (rewrite v doc) as [doc' st]. unfold save.
  set (w3 := add_log (add_log w1 _) _).
  assert (O3 : only_logs w w3).
  { eapply only_logs_trans; [exact O|].
    eapply only_logs_trans; apply only_logs_add. }
  destruct (locked w3 (output_name d)) eqn:K.
  - exists None, (add_log w3 [Error_updating]).
    destruct (Fail w3 O3) as (es & P). exists es.
    split; [reflexivity | exact P].
  - destruct O3 as (_ & _ & _ & _ & es & E3).
    eexists (Some (output_name d)), _, (es ++ [Saved (output_name d)])%list.
    split; [reflexivity|]. split.
    { cbn [log set_files add_log]. rewrite E3, <- app_assoc. reflexivity. }
    split; [discriminate|]. intros n E. injection E as <-. split.
    + exists es. reflexivity.
    + eexists _, doc'. cbn [files set_files add_log]. apply in_or_app.
      right. left. reflexivity.
Qed.

Lemma new_events_app (w w' : world) (es : list event) :
  log w' = (log w ++ es)%list -> new_events w w' = es.
Proof.
  intros E. unfold new_events. rewrite E. clear E.
  induction (log w) as [|e l IH]; [reflexivity | exact IH].
Qed.

End MainFacts.

Import MainFacts.

(** X12.  [get_month_name] gives the English name of a month for the
    numbers 1 to 12 and raises for every other integer: the number is
    written in decimal without zeros in front and read back with "%m". *)
Theorem get_month_name_of_number (month_num : Z) :
  get_month_name month_num
  = if (1 <=? month_num) && (month_num <=? 12)
    then Some (month_name month_num) else None.
Proof.
  unfold get_month_name.
  assert (C : month_num < 0 \/ month_num = 0 \/ 1 <= month_num <= 12
              \/ 13 <= month_num <= 99 \/ 100 <= month_num) by lia.
  destruct C as [C|[C|[C|[C|C]]]].
  - rewrite (strptime_month_negative _ C).
    replace (1 <=? month_num) with false by lia. reflexivity.
  - subst month_num. reflexivity.
  - each_month C; reflexivity.
  - rewrite (DecFacts.str_2 month_num) by lia.
    rewrite strptime_month_two_digits by DecFacts.zdiv.
    replace (month_num <=? 12) with false by lia.
    rewrite andb_false_r. reflexivity.
  - destruct (str_long month_num C) as (a & b & c & t & ->).
    rewrite strptime_month_long.
    replace (month_num <=? 12) with false by lia.
    rewrite andb_false_r. reflexivity.
Qed.

(** X13.  The script ends with status 1 exactly when the directory has no
    document that [*.docx] lists; the two messages are all that is
    logged then, and no file is written, the log file of the program
    aside.  With a document it runs to its end, whether an invoice was
    generated or not: no exception leaves the script, and the status is
    0. *)
Theorem main_exit_status (w : world) :
  match glob_docx (files w) with
  | [] =>
      ending (main w) = Exit 1
      /\ trace (main w) = [inl Starting; inl No_template_file]
      /\ same_files_but_log w (after (main w))
  | _ :: _ => ending (main w) = Exit 0
  end.
Proof.
  unfold main. rewrite glob_template_docx.
  destruct (glob_docx (files w)) as [|g gs] eqn:G.
  { cbn. repeat split; intros I; exact I. }
  set (tf := match filter _ (g :: gs) with [] => g :: gs | x :: l => x :: l end).
  assert (T : tf <> []) by (subst tf; destruct (filter _ _); discriminate).
  destruct tf as [|f rest]; [congruence|].
  destruct (auto_update_invoice_outcome (fname f) w) as (r & w' & es & E & _).
  rewrite E. destruct r; reflexivity.
Qed.

(** X14.  What the script reports is what the update routine did.  The
    template is a document of the directory; the script logs its start
    and the template, then the log of the update routine, then one last
    message: the name of the generated invoice, which is then a file of
    the directory and was logged as saved just before, or the failure,
    which follows the error of the update routine; no file is written
    then, the log file of the program aside. *)
Theorem main_reports_the_outcome (w : world) :
  glob_docx (files w) <> [] ->
  exists f es last,
    In f (files w) /\ is_suffix_of ".docx" (fname f) = true
    /\ log (after (main w)) = (log w ++ es)%list
    /\ trace (main w)
       = ([inl Starting; inl (Using_template (fname f))]
          ++ map inr es ++ [inl last])%list
    /\ ((exists n es0,
           last = Generated n /\ es = (es0 ++ [Saved n])%list
           /\ exists t doc, In (File n t (Some doc)) (files (after (main w))))
        \/ (last = Failed_to_generate
            /\ (exists es0, es = (es0 ++ [Error_updating])%list)
            /\ same_files_but_log w (after (main w)))).
Proof.
  intros G. unfold main. rewrite glob_template_docx.
  set (tf := match filter _ (glob_docx (files w)) with
             | [] => glob_docx (files w)
             | x :: l => x :: l
             end).
  assert (T : tf <> [] /\ forall x, In x tf -> In x (glob_docx (files w))).
  { subst tf. destruct (filter _ _) as [|x l] eqn:Fl.
    - split; [exact G | auto].
    - split; [discriminate|]. intros y I. rewrite <- Fl in I.
      apply filter_In in I. apply I. }
  destruct T as [T Sub]. destruct tf as [|f rest]; [congruence|].
  destruct (glob_docx_in _ _ (Sub f (or_introl eq_refl))) as (I & _ & S).
  destruct (auto_update_invoice_outcome (fname f) w)
    as (r & w' & es & E & Lg & Hn & Hs).
  rewrite E. destruct r as [n|].
  - exists f, es, (Generated n). cbn [after trace].
    rewrite (new_events_app w w' es Lg).
    split; [exact I|]. split; [exact S|]. split; [exact Lg|].
    split; [reflexivity|]. left.
    destruct (Hs n eq_refl) as ((es0 & E0) & Fw). exists n, es0.
    split; [reflexivity|]. split; [exact E0 | exact Fw].
  - exists f, es, Failed_to_generate. cbn [after trace].
    rewrite (new_events_app w w' es Lg).
    split; [exact I|]. split; [exact S|]. split; [exact Lg|].
    split; [reflexivity|]. right.
    destruct (Hn eq_refl) as (Fw & E0).
    split; [reflexivity|]. split; [exact E0|].
    intros x _. rewrite Fw. reflexivity.
Qed.

Lemma main_reports_the_outcome_witness :
  exists f es last,
    In f (files world_two_dates) /\ is_suffix_of ".docx" (fname f) = true
    /\ log (after (main world_two_dates)) = (log world_two_dates ++ es)%list
    /\ trace (main world_two_dates)
       = ([inl Starting; inl (Using_template (fname f))]
          ++ map inr es ++ [inl last])%list
    /\ ((exists n es0,
           last = Generated n /\ es = (es0 ++ [Saved n])%list
           /\ exists t doc,
               In (File n t (Some doc)) (files (after (main world_two_dates))))
        \/ (last = Failed_to_generate
            /\ (exists es0, es = (es0 ++ [Error_updating])%list)
            /\ same_files_but_log world_two_dates (after (main world_two_dates)))).
Proof.
  apply (main_reports_the_outcome world_two_dates). vm_compute. discriminate.
Defined.
